(** * Huispedia scraper: field extractors, card parser, detail enricher and
      pagination controller, embedded from [src/utils.py], [src/models.py],
      [src/scraper.py] and [src/config.py]. *)

From Stdlib Require Import ZArith NArith List String Ascii Bool Lia Permutation
  DecimalString.
From stdpp Require Import base option gmap strings.
Import ListNotations.

Local Open Scope N_scope.

(** ** Python strings

    A Python [str] is a sequence of Unicode code points. *)

Definition char := N.
Definition str := list char.

(** Source literals are written as UTF-8 text and decoded to code points. *)
Fixpoint utf8_decode (bs : list N) : str :=
  match bs with
  | [] => []
  | b0 :: t0 =>
    if b0 <? 128 then b0 :: utf8_decode t0
    else match t0 with
    | [] => [b0]
    | b1 :: t1 =>
      if b0 <? 224 then ((b0 - 192) * 64 + (b1 - 128)) :: utf8_decode t1
      else match t1 with
      | [] => [b0; b1]
      | b2 :: t2 =>
        if b0 <? 240
        then ((b0 - 224) * 4096 + (b1 - 128) * 64 + (b2 - 128)) :: utf8_decode t2
        else match t2 with
        | [] => [b0; b1; b2]
        | b3 :: t3 =>
          ((b0 - 240) * 262144 + (b1 - 128) * 4096 + (b2 - 128) * 64 + (b3 - 128))
            :: utf8_decode t3
        end
      end
    end
  end.

Definition lit (s : string) : str :=
  utf8_decode (List.map N_of_ascii (list_ascii_of_string s)).

Definition chr (s : string) : char :=
  match lit s with c :: _ => c | [] => 0 end.

Definition str_eqb (a b : str) : bool := bool_decide (a = b).

(** [bool(s)] for a string: non-empty. *)
Definition truthy_str (s : str) : bool :=
  match s with [] => false | _ :: _ => true end.

(** *** Character classes of the Unicode database (version 14, CPython 3.11) *)

(** Code points of the digit zero of every decimal-digit block (category Nd);
    each block holds the ten digits in order. *)
Definition decimal_zeros : list N :=
  [48; 1632; 1776; 1984; 2406; 2534; 2662; 2790; 2918; 3046; 3174; 3302; 3430;
   3558; 3664; 3792; 3872; 4160; 4240; 6112; 6160; 6470; 6608; 6784; 6800; 6992;
   7088; 7232; 7248; 42528; 43216; 43264; 43472; 43504; 43600; 44016; 65296;
   66720; 68912; 69734; 69872; 69942; 70096; 70384; 70736; 70864; 71248; 71360;
   71472; 71904; 72016; 72784; 73040; 73120; 92768; 92864; 93008; 120782;
   120792; 120802; 120812; 120822; 123200; 123632; 125264; 130032].

Fixpoint decimal_in (zs : list N) (c : char) : option N :=
  match zs with
  | [] => None
  | z :: zs' =>
    if (z <=? c) && (c <? z + 10) then Some (c - z) else decimal_in zs' c
  end.

(** The decimal value of a code point, as used by [\d] and by [int()]. *)
Definition decimal_value (c : char) : option N := decimal_in decimal_zeros c.

Definition is_decimal (c : char) : bool :=
  match decimal_value c with Some _ => true | None => false end.

(** [str.isspace], which is also the class [\s]. *)
Definition is_space (c : char) : bool :=
  ((9 <=? c) && (c <=? 13)) || ((28 <=? c) && (c <=? 32))
  || (c =? 133) || (c =? 160) || (c =? 5760)
  || ((8192 <=? c) && (c <=? 8202))
  || (c =? 8232) || (c =? 8233) || (c =? 8239) || (c =? 8287) || (c =? 12288).

Definition is_ascii_upper (c : char) : bool := (65 <=? c) && (c <=? 90).
Definition is_ascii_lower (c : char) : bool := (97 <=? c) && (c <=? 122).

(** [str.lower] of one code point. Besides the ASCII capitals only U+212A
    (Kelvin sign) and U+0130 (capital I with dot) lowercase to text holding an
    ASCII character; every needle searched in lowered text by this program is
    ASCII, so the remaining code points are left as they are. It serves the
    searches only: the location, whose lowered text goes into the URL that
    [scrape] requests, is lowered by [str_lower] below. *)
Definition lower_char (c : char) : str :=
  if is_ascii_upper c then [c + 32]
  else if c =? 8490 then [107]
  else if c =? 304 then [105; 775]
  else [c].

Definition lower (s : str) : str := flat_map lower_char s.

(** *** String methods *)

Fixpoint startswith (prefix s : str) : bool :=
  match prefix, s with
  | [], _ => true
  | p :: prefix', c :: s' => (p =? c) && startswith prefix' s'
  | _ :: _, [] => false
  end.

(** [needle in s]. *)
Fixpoint contains (needle s : str) : bool :=
  startswith needle s ||
  match s with
  | [] => false
  | _ :: s' => contains needle s'
  end.

(** [s.replace(old, new)] for a non-empty [old]: occurrences are replaced from
    left to right without overlap. [skip] counts the characters of an
    occurrence that are still to be dropped. *)
Fixpoint replace_from (old new : str) (skip : nat) (s : str) : str :=
  match s with
  | [] => []
  | c :: s' =>
    match skip with
    | S n => replace_from old new n s'
    | O =>
      if startswith old s
      then (new ++ replace_from old new (Nat.pred (List.length old)) s')%list
      else c :: replace_from old new O s'
    end
  end.

Definition replace (old new s : str) : str := replace_from old new O s.

Fixpoint lstrip_by (p : char -> bool) (s : str) : str :=
  match s with
  | c :: s' => if p c then lstrip_by p s' else s
  | [] => []
  end.

Definition strip_by (p : char -> bool) (s : str) : str :=
  rev (lstrip_by p (rev (lstrip_by p s))).

(** [s.strip()] *)
Definition strip (s : str) : str := strip_by is_space s.

(** [s.strip(chars)] *)
Definition strip_chars (chars s : str) : str :=
  strip_by (fun c => existsb (N.eqb c) chars) s.

(** [s.split(sep)] for a one-character separator. *)
Fixpoint split (sep : char) (s : str) : list str :=
  match s with
  | [] => [[]]
  | c :: s' =>
    if c =? sep then [] :: split sep s'
    else match split sep s' with
         | h :: t => (c :: h) :: t
         | [] => [[c]]
         end
  end.

(** [s.split()]: the maximal runs of non-whitespace characters. *)
Fixpoint split_ws_from (word : str) (s : str) : list str :=
  match s with
  | [] => match word with [] => [] | _ => [rev word] end
  | c :: s' =>
    if is_space c
    then match word with
         | [] => split_ws_from [] s'
         | _ => rev word :: split_ws_from [] s'
         end
    else split_ws_from (c :: word) s'
  end.

Definition split_ws (s : str) : list str := split_ws_from [] s.

(** [sep.join(parts)] *)
Fixpoint join (sep : str) (parts : list str) : str :=
  match parts with
  | [] => []
  | [p] => p
  | p :: ps => (p ++ sep ++ join sep ps)%list
  end.

(** *** Exceptions *)

Inductive exn := ValueError | TypeError.

Inductive outcome (A : Type) :=
| Ret (a : A)
| Raise (e : exn).
Arguments Ret {A} a.
Arguments Raise {A} e.

Definition bind {A B} (m : outcome A) (f : A -> outcome B) : outcome B :=
  match m with
  | Ret a => f a
  | Raise e => Raise e
  end.

Notation "'let!' x ':=' m 'in' k" := (bind m (fun x => k))
  (at level 10, x name, m at level 100, k at level 200).

(** [try: body  except ValueError: pass] followed by [rest]. *)
Definition try_except_ValueError {A} (body rest : outcome A) : outcome A :=
  match body with
  | Raise ValueError => rest
  | other => other
  end.

(** [int(s)] on text made of decimal digits; anything else, the empty string
    included, raises [ValueError]. The program converts only regex captures of
    decimal digits (with dots removed), so signs, underscores and surrounding
    blanks, which [int] would also accept, never reach it. The bound that
    recent interpreters put on the length of such text (a [ValueError] too) is
    left out. *)
Fixpoint int_digits (acc : Z) (s : str) : option Z :=
  match s with
  | [] => Some acc
  | c :: s' =>
    match decimal_value c with
    | Some d => int_digits (10 * acc + Z.of_N d)%Z s'
    | None => None
    end
  end.

Definition py_int (s : str) : outcome Z :=
  match s with
  | [] => Raise ValueError
  | _ => match int_digits 0%Z s with
         | Some v => Ret v
         | None => Raise ValueError
         end
  end.

(** [bool(v)] for an optional integer: [None] and [0] are false. *)
Definition truthy_int (v : option Z) : bool :=
  match v with
  | Some z => negb (z =? 0)%Z
  | None => false
  end.

(** ** Regular expressions ([re]): a backtracking matcher *)

Inductive regex :=
| RChar (p : char -> bool)
| REps
| RSeq (r1 r2 : regex)
| RAlt (r1 r2 : regex)
| RStar (p : char -> bool)
| RGroup (n : nat) (r : regex)
| RBol
| RWordB (w : char -> bool).

Record cursor := Cursor { pos : nat; prev : option char; rest : str }.

Definition captures := list (nat * str).

Definition kont := cursor -> captures -> option captures.

(** Greedy [p*]: take the longest run first, give characters back on failure. *)
Fixpoint star_run (p : char -> bool) (i : nat) (pv : option char) (s : str)
    (cs : captures) (k : kont) : option captures :=
  match s with
  | c :: s' =>
    if p c then
      match star_run p (S i) (Some c) s' cs k with
      | Some m => Some m
      | None => k (Cursor i pv s) cs
      end
    else k (Cursor i pv s) cs
  | [] => k (Cursor i pv []) cs
  end.

Definition word_at (w : char -> bool) (o : option char) : bool :=
  match o with Some c => w c | None => false end.

Fixpoint rmatch (r : regex) (cur : cursor) (cs : captures) (k : kont)
    : option captures :=
  match r with
  | RChar p =>
    match rest cur with
    | c :: s' => if p c then k (Cursor (S (pos cur)) (Some c) s') cs else None
    | [] => None
    end
  | REps => k cur cs
  | RSeq r1 r2 => rmatch r1 cur cs (fun cur' cs' => rmatch r2 cur' cs' k)
  | RAlt r1 r2 =>
    match rmatch r1 cur cs k with
    | Some m => Some m
    | None => rmatch r2 cur cs k
    end
  | RStar p => star_run p (pos cur) (prev cur) (rest cur) cs k
  | RGroup n r1 =>
    rmatch r1 cur cs (fun cur' cs' =>
      k cur' ((n, firstn (pos cur' - pos cur) (rest cur)) :: cs'))
  | RBol => if Nat.eqb (pos cur) 0 then k cur cs else None
  | RWordB w =>
    if xorb (word_at w (prev cur)) (word_at w (head (rest cur)))
    then k cur cs else None
  end.

Definition match_here (r : regex) (cur : cursor) : option captures :=
  rmatch r cur [] (fun _ cs => Some cs).

(** [re.search]: the leftmost start position that matches. *)
Fixpoint search_from (r : regex) (i : nat) (pv : option char) (s : str)
    : option captures :=
  match match_here r (Cursor i pv s) with
  | Some m => Some m
  | None =>
    match s with
    | c :: s' => search_from r (S i) (Some c) s'
    | [] => None
    end
  end.

Definition re_search (r : regex) (s : str) : option captures :=
  search_from r 0 None s.

(** [re.match]: a match at the start only. *)
Definition re_match (r : regex) (s : str) : option captures :=
  match_here r (Cursor 0 None s).

(** [m.group(n)] of a group that took part in the match. *)
Fixpoint group (n : nat) (m : captures) : str :=
  match m with
  | [] => []
  | (j, s) :: m' => if Nat.eqb j n then s else group n m'
  end.

Definition is_match (o : option captures) : bool :=
  match o with Some _ => true | None => false end.

(** Pattern syntax. *)
Definition one (s : string) : char -> bool := fun c => c =? chr s.
Definition any_of (s : string) : char -> bool :=
  fun c => existsb (N.eqb c) (lit s).
Definition either (p q : char -> bool) : char -> bool := fun c => p c || q c.

Definition rplus (p : char -> bool) : regex := RSeq (RChar p) (RStar p).
Definition ropt (r : regex) : regex := RAlt r REps.

Fixpoint rseq (rs : list regex) : regex :=
  match rs with
  | [] => REps
  | [r] => r
  | r :: rs' => RSeq r (rseq rs')
  end.

Definition rtext_by (eq : char -> char -> bool) (s : string) : regex :=
  rseq (List.map (fun c => RChar (eq c)) (lit s)).

(** A literal word. *)
Definition rtext (s : string) : regex := rtext_by N.eqb s.

(** Under [re.I] a pattern letter matches both ASCII cases and the code points
    that case-fold to it: U+0130 and U+0131 for [i], U+212A for [k], U+017F
    for [s]. *)
Definition ci_eqb (p c : char) : bool :=
  let fold x := if is_ascii_upper x then x + 32 else x in
  (fold p =? fold c)
  || ((fold p =? 105) && ((c =? 304) || (c =? 305)))
  || ((fold p =? 107) && (c =? 8490))
  || ((fold p =? 115) && (c =? 383)).

Definition rtext_i (s : string) : regex := rtext_by ci_eqb s.

Definition digit : char -> bool := is_decimal.
Definition space : char -> bool := is_space.

(** ** Configuration ([src/config.py]) *)

Definition BASE_URL : str := lit "https://huispedia.nl".
Definition SEARCH_URL : str := (BASE_URL ++ lit "/koopwoningen")%list.

Section Program.

(** [str.isalnum] beyond ASCII: the alphanumeric table of the Unicode
    database, on which [\w] and so [\b] depend. *)
Variable uni_alnum : char -> bool.

Definition is_alnum (c : char) : bool :=
  if c <? 128
  then is_ascii_upper c || is_ascii_lower c || ((48 <=? c) && (c <=? 57))
  else uni_alnum c.

(** The class [\w]. *)
Definition is_word (c : char) : bool := is_alnum c || (c =? 95).

(** ** Field extractors ([src/utils.py]) *)

(** [€\s*([\d.]+)] *)
Definition price_re : regex :=
  rseq [RChar (one "€"); RStar space; RGroup 1 (rplus (either digit (one ".")))].

Definition parse_price (text : str) : outcome (option Z * str) :=
  if negb (truthy_str text) then Ret (None, lit "") else
  let price_type :=
    if contains (lit "k.k.") (lower text) then lit "k.k."
    else if contains (lit "v.o.n.") (lower text) then lit "v.o.n."
    else lit "" in
  let no_value := Ret (None, price_type) in
  match re_search price_re (replace (lit ",") (lit ".") text) with
  | Some m =>
    try_except_ValueError
      (let price_str := replace (lit ".") (lit "") (group 1 m) in
       let! v := py_int price_str in
       Ret (Some v, price_type))
      no_value
  | None => no_value
  end.

(** The shared shape of the integer extractors: search, convert group 1,
    swallow a [ValueError]. *)
Definition int_of_group1 (m : option captures) : outcome (option Z) :=
  match m with
  | Some m =>
    try_except_ValueError
      (let! v := py_int (group 1 m) in Ret (Some v))
      (Ret None)
  | None => Ret None
  end.

(** [(\d+)\s*m[²2]] *)
Definition area_re : regex :=
  rseq [RGroup 1 (rplus digit); RStar space; RChar (one "m"); RChar (any_of "²2")].

Definition parse_area (text : str) : outcome (option Z) :=
  if negb (truthy_str text) then Ret None else
  int_of_group1 (re_search area_re text).

(** [(\d+)\s*kamer] *)
Definition rooms_re : regex :=
  rseq [RGroup 1 (rplus digit); RStar space; rtext "kamer"].

Definition parse_rooms (text : str) : outcome (option Z) :=
  if negb (truthy_str text) then Ret None else
  int_of_group1 (re_search rooms_re text).

(** [(\d+)\s*slaapkamer] *)
Definition bedrooms_re : regex :=
  rseq [RGroup 1 (rplus digit); RStar space; rtext "slaapkamer"].

Definition parse_bedrooms (text : str) : outcome (option Z) :=
  if negb (truthy_str text) then Ret None else
  int_of_group1 (re_search bedrooms_re text).

(** [\b(19\d{2}|20\d{2})\b] *)
Definition year_re : regex :=
  rseq [RWordB is_word;
        RGroup 1 (RAlt (rseq [rtext "19"; RChar digit; RChar digit])
                       (rseq [rtext "20"; RChar digit; RChar digit]));
        RWordB is_word].

Definition parse_year (text : str) : outcome (option Z) :=
  if negb (truthy_str text) then Ret None else
  int_of_group1 (re_search year_re text).

Definition extract_listing_id (url : str) : str :=
  if negb (truthy_str url) then lit "" else
  let url := replace BASE_URL (lit "") url in
  let parts :=
    List.filter truthy_str (split (chr "/") (strip_chars (lit "/") url)) in
  if (4 <=? List.length parts)%nat then join (lit "-") (firstn 4 parts)
  else replace (lit "/") (lit "-") (strip_chars (lit "/") url).

(** ** Parsed documents ([bs4])

    [BeautifulSoup(html, 'lxml')] yields a tree of tags and text strings; the
    HTML parser itself is outside this program. *)

#[local] Set Warnings "-register-all".

Inductive node :=
| NText (s : str)
| NElem (name : str) (attrs : list (str * str)) (children : list node).

Variable lxml : str -> node.

(** All nodes below [n], in document order. *)
Fixpoint descendants (n : node) : list node :=
  match n with
  | NText _ => []
  | NElem _ _ children => flat_map (fun c => c :: descendants c) children
  end.

Definition is_tag (name : string) (n : node) : bool :=
  match n with
  | NElem nm _ _ => str_eqb nm (lit name)
  | NText _ => false
  end.

(** [tag.get(key)] *)
Fixpoint dict_get (key : str) (d : list (str * str)) : option str :=
  match d with
  | [] => None
  | (k, v) :: d' => if str_eqb k key then Some v else dict_get key d'
  end.

Definition attr (key : string) (n : node) : option str :=
  match n with
  | NElem _ attrs _ => dict_get (lit key) attrs
  | NText _ => None
  end.

(** [tag.get(key, '')] *)
Definition attr_or_empty (key : string) (n : node) : str :=
  match attr key n with Some v => v | None => lit "" end.

(** [n.find_all(name)] and [n.find(name)] *)
Definition find_all (name : string) (n : node) : list node :=
  List.filter (is_tag name) (descendants n).

Definition find (name : string) (n : node) : option node :=
  head (find_all name n).

(** The text strings below [n], in document order. *)
Definition strings (n : node) : list str :=
  flat_map (fun d => match d with NText s => [s] | NElem _ _ _ => [] end)
           (descendants n).

(** [n.find_all(string=re.compile(r))] and [n.find(string=re.compile(r))] *)
Definition find_all_string (r : regex) (n : node) : list str :=
  List.filter (fun s => is_match (re_search r s)) (strings n).

Definition find_string (r : regex) (n : node) : option str :=
  head (find_all_string r n).

(** [n.find(name, href=re.compile(r))] *)
Definition find_href (name : string) (r : regex) (n : node) : option node :=
  head (List.filter
          (fun d => is_tag name d &&
                    match attr "href" d with
                    | Some v => is_match (re_search r v)
                    | None => false
                    end)
          (descendants n)).

(** [n.get_text()], [n.get_text(strip=True)] and [n.get_text(sep, strip=True)] *)
Definition get_text (n : node) : str := concat (strings n).

Definition stripped_strings (n : node) : list str :=
  List.filter truthy_str (List.map strip (strings n)).

Definition get_text_strip (n : node) : str := concat (stripped_strings n).

Definition get_text_sep_strip (sep : str) (n : node) : str :=
  join sep (stripped_strings n).

Definition is_Some_b {A} (o : option A) : bool :=
  match o with Some _ => true | None => false end.

(** [bool(x)] for the result of a string search: found and non-empty. *)
Definition found (o : option str) : bool :=
  match o with Some s => truthy_str s | None => false end.

(** ** Card parser ([parse_property_cards]) *)

(** The dictionary built for one card; it always has these eleven keys. *)
Record ListingSummary := Summary {
  d_url : str;
  d_listing_id : str;
  d_street_address : str;
  d_location : str;
  d_price : option Z;
  d_price_type : str;
  d_living_area : option Z;
  d_plot_size : option Z;
  d_rooms : option Z;
  d_value_comparison : str;
  d_agent_name : str
}.

(** [Advertentie] under [re.I] *)
Definition ad_re : regex := rtext_i "Advertentie".

(** [^/[a-z\-]+/\d+[a-z]+/] *)
Definition link_re : regex :=
  rseq [RBol; RChar (one "/"); rplus (either is_ascii_lower (one "-"));
        RChar (one "/"); rplus digit; rplus is_ascii_lower; RChar (one "/")].

(** [\d{4}\s*[A-Z]{2}] *)
Definition postal_re : regex :=
  rseq [RChar digit; RChar digit; RChar digit; RChar digit; RStar space;
        RChar is_ascii_upper; RChar is_ascii_upper].

(** [€\s*[\d.]+] *)
Definition price_text_re : regex :=
  rseq [RChar (one "€"); RStar space; rplus (either digit (one "."))].

(** [\d+\s*m[²2]] *)
Definition area_text_re : regex :=
  rseq [rplus digit; RStar space; RChar (one "m"); RChar (any_of "²2")].

(** [\d+\s*kamer] *)
Definition rooms_text_re : regex :=
  rseq [rplus digit; RStar space; rtext "kamer"].

Definition value_phrases : list string :=
  ["Onder de waarde"; "Binnen de waarde"; "Boven de waarde"]%string.

Definition agent_skip_words : list string :=
  ["kamer"; "waarde"; "prijs"; "nieuw"]%string.

(** The [enumerate] loop over the area strings of a card. *)
Fixpoint card_areas (i : nat) (area_matches : list str)
    (living_area plot_size : option Z) : outcome (option Z * option Z) :=
  match area_matches with
  | [] => Ret (living_area, plot_size)
  | area_text :: more =>
    let! area_val := parse_area area_text in
    if truthy_int area_val then
      if Nat.eqb i 0 then card_areas (S i) more area_val plot_size
      else if contains (lit "perceel") (lower area_text) || Nat.eqb i 1
           then card_areas (S i) more living_area area_val
           else card_areas (S i) more living_area plot_size
    else card_areas (S i) more living_area plot_size
  end.

Definition plausible_agent (text : str) : bool :=
  truthy_str text && (3 <? List.length text)%nat
  && negb (startswith (lit "€") text) && negb (contains (lit "m²") text)
  && negb (existsb (fun skip => contains (lit skip) (lower text))
                   agent_skip_words).

(** The body of the loop for one [article]: [Ret None] is a [continue]. *)
Definition parse_card (article : node) : outcome (option ListingSummary) :=
  if found (find_string ad_re article) then Ret None else
  match find_href "a" link_re article with
  | None => Ret None
  | Some link =>
    let href := attr_or_empty "href" link in
    if negb (truthy_str href) || startswith (lit "http") href then Ret None else
    let url := (BASE_URL ++ href)%list in
    let address :=
      match find "h2" article with
      | Some h2 => get_text_strip h2
      | None => lit ""
      end in
    let location_div := find_string postal_re article in
    let location :=
      if found location_div
      then strip (default [] location_div) else lit "" in
    let price_text := find_string price_text_re article in
    let! price_pair :=
      (if found price_text
       then parse_price (strip (default [] price_text))
       else Ret (None, lit "")) in
    let area_matches := find_all_string area_text_re article in
    let! areas := card_areas 0 area_matches None None in
    let rooms_text := find_string rooms_text_re article in
    let! rooms_val :=
      (if found rooms_text
       then parse_rooms (default [] rooms_text)
       else Ret None) in
    let value_comparison :=
      match List.find (fun val => found (find_string (rtext_i val) article))
                      value_phrases with
      | Some val => lit val
      | None => lit ""
      end in
    let agent_name :=
      match List.find plausible_agent
                      (List.map get_text_strip (rev (find_all "div" article)))
      with
      | Some text => text
      | None => lit ""
      end in
    Ret (Some {| d_url := url;
                 d_listing_id := extract_listing_id href;
                 d_street_address := address;
                 d_location := location;
                 d_price := fst price_pair;
                 d_price_type := snd price_pair;
                 d_living_area := fst areas;
                 d_plot_size := snd areas;
                 d_rooms := rooms_val;
                 d_value_comparison := value_comparison;
                 d_agent_name := agent_name |})
  end.

(** The loop over the articles; an exception in a card is caught and the card
    skipped. *)
Fixpoint cards_loop (articles : list node) (properties : list ListingSummary)
    : list ListingSummary :=
  match articles with
  | [] => properties
  | article :: more =>
    match parse_card article with
    | Ret (Some prop_data) => cards_loop more (properties ++ [prop_data])
    | Ret None => cards_loop more properties
    | Raise _ => cards_loop more properties
    end
  end.

Definition parse_property_cards (html : str) : list ListingSummary :=
  let soup := lxml html in
  let articles := find_all "article" soup in
  cards_loop articles [].

(** ** Pagination window ([get_pagination_info]) *)

(** [Resultaten?\s*(\d+)-(\d+)\s*van\s*([\d.]+)] *)
Definition window_re : regex :=
  rseq [rtext "Resultate"; ropt (RChar (one "n")); RStar space;
        RGroup 1 (rplus digit); RChar (one "-"); RGroup 2 (rplus digit);
        RStar space; rtext "van"; RStar space;
        RGroup 3 (rplus (either digit (one ".")))].

(** The window read from the text of one [nav], when there is one. *)
Definition nav_window (text : str) : outcome (option (Z * Z * Z)) :=
  match re_search window_re text with
  | Some m =>
    try_except_ValueError
      (let! start := py_int (group 1 m) in
       let! end_ := py_int (group 2 m) in
       let! total := py_int (replace (lit ".") (lit "") (group 3 m)) in
       Ret (Some (start, end_, total)))
      (Ret None)
  | None => Ret None
  end.

Fixpoint navs_loop (navs : list node) : outcome (Z * Z * Z) :=
  match navs with
  | [] => Ret (0, 0, 0)%Z
  | nav :: more =>
    let! w := nav_window (get_text nav) in
    match w with
    | Some w => Ret w
    | None => navs_loop more
    end
  end.

Definition get_pagination_info (html : str) : outcome (Z * Z * Z) :=
  let soup := lxml html in
  navs_loop (find_all "nav" soup).

(** ** The record ([src/models.py]) *)

Inductive pyval :=
| VNone
| VInt (z : Z)
| VStr (s : str).

Definition of_int (v : option Z) : pyval :=
  match v with Some z => VInt z | None => VNone end.

(** The fields of the dataclass [Property], in declaration order. *)
Inductive field :=
  | url | listing_id | title | street_address | postal_code | city | province
  | price | price_per_sqm | price_type | value_comparison | living_area
  | plot_size | volume | rooms | bedrooms | bathrooms | floors
  | property_type | house_type | build_type | year_built | renovation_year
  | energy_label | insulation | heating | cv_year | roof_type | kitchen_type
  | kitchen_amenities | bathroom_amenities | location_type | parking_type
  | maintenance_inside | maintenance_outside | status | listed_since
  | acceptance | cadastral_info | description | agent_name | agent_url
  | date_scraped.

Scheme Equality for field.

Definition field_name (f : field) : string :=
  match f with
  | url => "url"
  | listing_id => "listing_id"
  | title => "title"
  | street_address => "street_address"
  | postal_code => "postal_code"
  | city => "city"
  | province => "province"
  | price => "price"
  | price_per_sqm => "price_per_sqm"
  | price_type => "price_type"
  | value_comparison => "value_comparison"
  | living_area => "living_area"
  | plot_size => "plot_size"
  | volume => "volume"
  | rooms => "rooms"
  | bedrooms => "bedrooms"
  | bathrooms => "bathrooms"
  | floors => "floors"
  | property_type => "property_type"
  | house_type => "house_type"
  | build_type => "build_type"
  | year_built => "year_built"
  | renovation_year => "renovation_year"
  | energy_label => "energy_label"
  | insulation => "insulation"
  | heating => "heating"
  | cv_year => "cv_year"
  | roof_type => "roof_type"
  | kitchen_type => "kitchen_type"
  | kitchen_amenities => "kitchen_amenities"
  | bathroom_amenities => "bathroom_amenities"
  | location_type => "location_type"
  | parking_type => "parking_type"
  | maintenance_inside => "maintenance_inside"
  | maintenance_outside => "maintenance_outside"
  | status => "status"
  | listed_since => "listed_since"
  | acceptance => "acceptance"
  | cadastral_info => "cadastral_info"
  | description => "description"
  | agent_name => "agent_name"
  | agent_url => "agent_url"
  | date_scraped => "date_scraped"
  end.

Definition fields : list field :=
  [url; listing_id; title; street_address; postal_code; city; province;
   price; price_per_sqm; price_type; value_comparison; living_area;
   plot_size; volume; rooms; bedrooms; bathrooms; floors; property_type;
   house_type; build_type; year_built; renovation_year; energy_label;
   insulation; heating; cv_year; roof_type; kitchen_type;
   kitchen_amenities; bathroom_amenities; location_type; parking_type;
   maintenance_inside; maintenance_outside; status; listed_since;
   acceptance; cadastral_info; description; agent_name; agent_url;
   date_scraped].

(** An instance holds one value per field; an attribute assignment replaces
    the value of its field. *)
Definition Property := field -> pyval.

Definition setattr (f : field) (v : pyval) (self : Property) : Property :=
  fun g => if field_beq g f then v else self g.

(** The declared defaults; [url] has none and [date_scraped] takes the time of
    construction. *)
Definition field_default (now : str) (f : field) : pyval :=
  match f with
  | price | price_per_sqm | living_area | plot_size | volume | rooms
  | bedrooms | bathrooms | floors | year_built | renovation_year | cv_year =>
    VNone
  | date_scraped => VStr now
  | _ => VStr (lit "")
  end.

(** The generated [__init__], called with keyword arguments: an unknown
    keyword or a missing [url] is a [TypeError]. *)
Definition Property_init (now : str) (kwargs : gmap string pyval)
    : outcome Property :=
  if negb (forallb (fun k => existsb (fun f => String.eqb k (field_name f)) fields)
                   (List.map fst (map_to_list kwargs)))
  then Raise TypeError
  else match kwargs !! "url"%string with
       | None => Raise TypeError
       | Some _ =>
         Ret (fun f => match kwargs !! field_name f with
                       | Some v => v
                       | None => field_default now f
                       end)
       end.

Definition to_dict (self : Property) : gmap string pyval :=
  list_to_map
    [("url", self url);
     ("listing_id", self listing_id);
     ("title", self title);
     ("street_address", self street_address);
     ("postal_code", self postal_code);
     ("city", self city);
     ("province", self province);
     ("price", self price);
     ("price_per_sqm", self price_per_sqm);
     ("price_type", self price_type);
     ("value_comparison", self value_comparison);
     ("living_area", self living_area);
     ("plot_size", self plot_size);
     ("volume", self volume);
     ("rooms", self rooms);
     ("bedrooms", self bedrooms);
     ("bathrooms", self bathrooms);
     ("floors", self floors);
     ("property_type", self property_type);
     ("house_type", self house_type);
     ("build_type", self build_type);
     ("year_built", self year_built);
     ("renovation_year", self renovation_year);
     ("energy_label", self energy_label);
     ("insulation", self insulation);
     ("heating", self heating);
     ("cv_year", self cv_year);
     ("roof_type", self roof_type);
     ("kitchen_type", self kitchen_type);
     ("kitchen_amenities", self kitchen_amenities);
     ("bathroom_amenities", self bathroom_amenities);
     ("location_type", self location_type);
     ("parking_type", self parking_type);
     ("maintenance_inside", self maintenance_inside);
     ("maintenance_outside", self maintenance_outside);
     ("status", self status);
     ("listed_since", self listed_since);
     ("acceptance", self acceptance);
     ("cadastral_info", self cadastral_info);
     ("description", self description);
     ("agent_name", self agent_name);
     ("agent_url", self agent_url);
     ("date_scraped", self date_scraped)].

(** ** Detail enricher ([parse_detail_page])

    The record is mutated in place inside one [try] block: a statement either
    goes on with the updated record or raises, in which case the handler
    returns the record as it is at that point. *)

Inductive run :=
| Go (prop : Property)
| Halt (e : exn) (prop : Property).

Definition step := Property -> run.

Definition skip : step := Go.

(** [prop.f = v] *)
Definition assign (f : field) (v : pyval) : step :=
  fun prop => Go (setattr f v prop).

Definition andthen (s1 s2 : step) : step :=
  fun prop =>
    match s1 prop with
    | Go prop' => s2 prop'
    | Halt e prop' => Halt e prop'
    end.

Fixpoint chain (ss : list step) : step :=
  match ss with
  | [] => skip
  | s :: ss' => andthen s (chain ss')
  end.

(** [if b: s] *)
Definition when (b : bool) (s : step) : step := if b then s else skip.

(** A call whose exception is not caught locally. *)
Definition calling {A} (m : outcome A) (k : A -> step) : step :=
  fun prop =>
    match m with
    | Ret a => k a prop
    | Raise e => Halt e prop
    end.

(** [try: prop.f = int(s)  except ValueError: pass] *)
Definition try_int (f : field) (s : str) : step :=
  fun prop =>
    match py_int s with
    | Ret v => assign f (VInt v) prop
    | Raise ValueError => Go prop
    | Raise e => Halt e prop
    end.

(** [text.replace(label, '').strip()] *)
Definition without (label : string) (text : str) : str :=
  strip (replace (lit label) (lit "") text).

Definition has (label : string) (text : str) : bool := contains (lit label) text.

(** [\b([A-G](\+{1,3})?)\b] *)
Definition energy_re : regex :=
  let plus := RChar (one "+") in
  rseq [RWordB is_word;
        RGroup 1 (RSeq (RChar (fun c => (65 <=? c) && (c <=? 71)))
                       (ropt (RGroup 2 (rseq [plus; ropt (rseq [plus; ropt plus])]))));
        RWordB is_word].

(** [(\d+)\s*m[³3]] *)
Definition volume_re : regex :=
  rseq [RGroup 1 (rplus digit); RStar space; RChar (one "m"); RChar (any_of "³3")].

(** [(\d+)\s*badkamer] and [(\d+)\s*woonla] *)
Definition bathrooms_re : regex :=
  rseq [RGroup 1 (rplus digit); RStar space; rtext "badkamer"].

Definition floors_re : regex :=
  rseq [RGroup 1 (rplus digit); RStar space; rtext "woonla"].

(** [^[A-Z]+ [A-Z] \d+] *)
Definition cadastral_re : regex :=
  rseq [RBol; rplus is_ascii_upper; RChar (one " "); RChar is_ascii_upper;
        RChar (one " "); rplus digit].

(** [if 'label' in text: match = re.search(r, text); if match: try: ...] *)
Definition searched_int (f : field) (r : regex) (text : str) : step :=
  match re_search r text with
  | Some m => try_int f (group 1 m)
  | None => skip
  end.

(** The statements run for one [li] item, in source order. *)
Definition item_steps (text : str) : list step :=
  [ (* Price details *)
    when (has "Vraagprijs" text && has "€" text)
      (calling (parse_price text) (fun r =>
         when (truthy_int (fst r))
           (andthen (assign price (of_int (fst r)))
                    (assign price_type (VStr (snd r))))));
    when (has "Vraagprijs per m" text)
      (match re_search price_re text with
       | Some m =>
         try_int price_per_sqm (replace (lit ".") (lit "") (group 1 m))
       | None => skip
       end);
    (* Status *)
    when (has "Aangeboden sinds" text)
      (assign listed_since (VStr (without "Aangeboden sinds" text)));
    when (has "Status" text) (assign status (VStr (without "Status" text)));
    when (has "Aanvaarding" text)
      (assign acceptance (VStr (without "Aanvaarding" text)));
    (* Building info *)
    when (has "Soort woonhuis" text)
      (match split (chr ",") (without "Soort woonhuis" text) with
       | [] => skip
       | part0 :: parts =>
         andthen (assign property_type (VStr (strip part0)))
                 (match parts with
                  | part1 :: _ => assign house_type (VStr (strip part1))
                  | [] => skip
                  end)
       end);
    when (has "Soort bouw" text)
      (assign build_type (VStr (without "Soort bouw" text)));
    when (has "Bouwjaar" text && negb (has "Cv-ketel" text))
      (calling (parse_year text) (fun v => assign year_built (of_int v)));
    when (has "Renovatiejaar" text)
      (calling (parse_year text) (fun v => assign renovation_year (of_int v)));
    when (has "Soort dak" text)
      (assign roof_type (VStr (without "Soort dak" text)));
    (* Energy *)
    when (has "Energielabel" text)
      (match re_search energy_re text with
       | Some m => assign energy_label (VStr (group 1 m))
       | None => skip
       end);
    when (has "Isolatie" text)
      (assign insulation (VStr (without "Isolatie" text)));
    when (has "Verwarming" text)
      (assign heating (VStr (without "Verwarming" text)));
    when (has "Cv-ketel bouwjaar" text)
      (calling (parse_year text) (fun v => assign cv_year (of_int v)));
    (* Dimensions *)
    when (has "Woonoppervlakte" text)
      (calling (parse_area text) (fun v => assign living_area (of_int v)));
    when (has "Perceeloppervlakte" text)
      (calling (parse_area text) (fun v => assign plot_size (of_int v)));
    when (has "Inhoud" text) (searched_int volume volume_re text);
    (* Rooms *)
    when (has "Aantal kamers" text)
      (andthen
         (calling (parse_rooms text) (fun v => assign rooms (of_int v)))
         (calling (parse_bedrooms text) (fun v => assign bedrooms (of_int v))));
    when (has "Aantal badkamers" text) (searched_int bathrooms bathrooms_re text);
    when (has "Aantal woonlagen" text) (searched_int floors floors_re text);
    (* Kitchen *)
    when (has "Keuken" text && negb (has "voorzieningen" (lower text)))
      (assign kitchen_type (VStr (without "Keuken" text)));
    when (has "Keukenvoorzieningen" text)
      (assign kitchen_amenities (VStr (without "Keukenvoorzieningen" text)));
    (* Bathroom *)
    when (has "Badkamervoorzieningen" text)
      (assign bathroom_amenities (VStr (without "Badkamervoorzieningen" text)));
    (* Location *)
    when (has "Ligging woning" text)
      (assign location_type (VStr (without "Ligging woning" text)));
    (* Parking *)
    when (has "Soort parkeergelegenheid" text)
      (assign parking_type (VStr (without "Soort parkeergelegenheid" text)));
    (* Maintenance *)
    when (startswith (lit "Binnen") text && negb (has "Buiten" text))
      (assign maintenance_inside (VStr (without "Binnen" text)));
    when (startswith (lit "Buiten") text)
      (assign maintenance_outside (VStr (without "Buiten" text)));
    (* Cadastral *)
    when (negb (has "Oppervlakte" text) && is_match (re_match cadastral_re text))
      (assign cadastral_info (VStr text)) ].

(** [item.get_text(" ", strip=True)] *)
Definition item_text (item : node) : str := get_text_sep_strip (lit " ") item.

Definition item_step (item : node) : step := chain (item_steps (item_text item)).

Definition description_words : list string :=
  ["woning"; "kamer"; "keuken"; "tuin"; "badkamer"]%string.

(** The first [div] with a long text, no list or navigation inside and a
    housing word gives the description. *)
Definition is_description (div : node) : bool :=
  let text := get_text_sep_strip (lit " ") div in
  (500 <? List.length text)%nat
  && negb (is_Some_b (find "ul" div)) && negb (is_Some_b (find "nav" div))
  && existsb (fun word => has word (lower text)) description_words.

Definition description_step (soup : node) : step :=
  match List.find is_description (find_all "div" soup) with
  | Some div =>
    assign description
           (VStr (firstn 2000 (get_text_sep_strip (lit " ") div)))
  | None => skip
  end.

(** [/makelaars/kantoor/] *)
Definition agent_re : regex := rtext "/makelaars/kantoor/".

Definition agent_step (soup : node) : step :=
  match find_href "a" agent_re soup with
  | Some agent_link =>
    andthen (assign agent_name (VStr (get_text_strip agent_link)))
            (assign agent_url
                    (VStr (BASE_URL ++ attr_or_empty "href" agent_link)%list))
  | None => skip
  end.

(** [str.title] is left to the Python runtime. *)
Variable str_title : str -> str.

Definition breadcrumb_link_step (link : node) : step :=
  let href := attr_or_empty "href" link in
  when (has "/koopwoningen/" href)
    (let city_slug :=
       strip_chars (lit "/") (replace (lit "/koopwoningen/") (lit "") href) in
     when (truthy_str city_slug && negb (str_eqb city_slug (lit "provincie-")))
       (assign city
               (VStr (str_title (replace (lit "-") (lit " ") city_slug))))).

(** [soup.find('nav', {'aria-label': True})] *)
Definition find_breadcrumb (soup : node) : option node :=
  head (List.filter (fun d => is_tag "nav" d && is_Some_b (attr "aria-label" d))
                    (descendants soup)).

Definition breadcrumb_step (soup : node) : step :=
  match find_breadcrumb soup with
  | Some breadcrumb =>
    chain (List.map breadcrumb_link_step (find_all "a" breadcrumb))
  | None => skip
  end.

(** [(\d{4}\s*[A-Z]{2})] *)
Definition postal_group_re : regex := RGroup 1 postal_re.

Definition postal_step (soup : node) : step :=
  let postal_match := find_string postal_re soup in
  when (found postal_match)
    (match re_search postal_group_re (default [] postal_match) with
     | Some m =>
       assign postal_code (VStr (replace (lit " ") (lit " ") (group 1 m)))
     | None => skip
     end).

Definition title_step (soup : node) : step :=
  match find "title" soup with
  | Some title_elem => assign title (VStr (get_text_strip title_elem))
  | None => skip
  end.

Definition parse_detail_page (html : str) (prop : Property) : Property :=
  let soup := lxml html in
  match chain [ title_step soup;
                chain (List.map item_step (find_all "li" soup));
                description_step soup;
                agent_step soup;
                breadcrumb_step soup;
                postal_step soup ] prop with
  | Go prop' => prop'
  | Halt _ prop' => prop'
  end.

(** ** Pagination controller ([src/scraper.py]) *)

Definition LOCATIONS : list (str * str) :=
  List.map (fun k => (lit k, lit k))
    ["amsterdam"; "rotterdam"; "den-haag"; "utrecht"; "eindhoven";
     "groningen"; "tilburg"; "almere"; "breda"; "nijmegen"; "haarlem";
     "arnhem"; "enschede"; "amersfoort"; "zaanstad"; "apeldoorn";
     "hoofddorp"; "maastricht"; "leiden"; "dordrecht"; "zoetermeer";
     "zwolle"; "deventer"; "delft"; "alkmaar"]%string.

Definition PROPERTY_TYPES : list (str * str) :=
  [(lit "all", lit ""); (lit "apartment", lit "appartement");
   (lit "house", lit "woonhuis")].

(** [d.get(key, default)] *)
Definition dict_get_or (key : str) (d : list (str * str)) (dflt : str) : str :=
  match dict_get key d with Some v => v | None => dflt end.

(** The transport: the text of the response, or [None] when the request
    raised a [RequestException]. *)
Variable http_get : str -> option str.

Definition _fetch_page (url_ : str) : option str :=
  match http_get url_ with
  | Some text => Some text
  | None => None
  end.

Definition _get_property_urls_from_page (html : str) : list ListingSummary :=
  parse_property_cards html.

(** [bool(html)] for the result of [_fetch_page]. *)
Definition got (html : option str) : bool :=
  match html with Some text => truthy_str text | None => false end.

(** [str(n)] for an integer. *)
Definition str_of_Z (n : Z) : str :=
  lit (DecimalString.NilZero.string_of_int (Z.to_int n)).

(** The URL of a listing page. (The [search_state] built for pages after the
    first is not used.) *)
Definition _build_list_url (location : str) (page : Z) (property_type : str)
    : str :=
  let url0 := (SEARCH_URL ++ lit "/" ++ location)%list in
  let url1 :=
    if truthy_str property_type
    then (url0 ++ lit "/" ++ property_type)%list else url0 in
  if (1 <? page)%Z then (url1 ++ lit "/" ++ str_of_Z page ++ lit "_p")%list
  else url1.

(** [len(xs) >= limit] and [xs[:limit]] for an integer [limit]. *)
Definition len_ge {A} (xs : list A) (limit : Z) : bool :=
  (limit <=? Z.of_nat (List.length xs))%Z.

Definition slice_to {A} (limit : Z) (xs : list A) : list A :=
  if (0 <=? limit)%Z then firstn (Z.to_nat limit) xs
  else firstn (List.length xs - Z.to_nat (- limit)) xs.

Inductive stop_reason :=
| MaxPagesReached
| LimitReached
| FetchFailed
| NoProperties
| LastPage.

(** How the [while True] loop ends. [requested] lists, in order, the URLs
    handed to [_fetch_page]. *)
Inductive loop_end :=
| Stopped (why : stop_reason) (all_properties : list ListingSummary)
          (requested : list str)
| Raised (e : exn) (requested : list str)
| StillRunning (requested : list str).

Definition requested_of (r : loop_end) : list str :=
  match r with
  | Stopped _ _ requested => requested
  | Raised _ requested => requested
  | StillRunning requested => requested
  end.

Section Scrape.

Variables (location_slug prop_filter : str) (max_pages limit : option Z).

(** The loop, run for at most [fuel] iterations. Logging and the pause
    between two pages have no effect on the result and are left out. *)
Fixpoint pages_loop (fuel : nat) (page : Z) (all_properties : list ListingSummary)
    (requested : list str) : loop_end :=
  match fuel with
  | O => StillRunning requested
  | S fuel' =>
    if truthy_int max_pages && (default 0 max_pages <? page)%Z
    then Stopped MaxPagesReached all_properties requested
    else if truthy_int limit && len_ge all_properties (default 0%Z limit)
    then Stopped LimitReached all_properties requested
    else
      let url_ := _build_list_url location_slug page prop_filter in
      let html := _fetch_page url_ in
      let requested := (requested ++ [url_])%list in
      if negb (got html)
      then Stopped FetchFailed all_properties requested
      else
        let html := default [] html in
        let properties := _get_property_urls_from_page html in
        match properties with
        | [] => Stopped NoProperties all_properties requested
        | _ :: _ =>
          let all_properties := (all_properties ++ properties)%list in
          match get_pagination_info html with
          | Raise e => Raised e requested
          | Ret (_, end_, total) =>
            if (total <=? end_)%Z || (List.length properties <? 10)%nat
            then Stopped LastPage all_properties requested
            else pages_loop fuel' (page + 1)%Z all_properties requested
          end
        end
  end.

End Scrape.

(** The clock read by the [date_scraped] default when the record for a URL is
    built. *)
Variable clock : str -> str.

(** [Property(url=..., listing_id=..., ...)] with the ten summary fields. *)
Definition summary_kwargs (prop_data : ListingSummary) : gmap string pyval :=
  list_to_map
    [("url", VStr (d_url prop_data));
     ("listing_id", VStr (d_listing_id prop_data));
     ("street_address", VStr (d_street_address prop_data));
     ("price", of_int (d_price prop_data));
     ("price_type", VStr (d_price_type prop_data));
     ("living_area", of_int (d_living_area prop_data));
     ("plot_size", of_int (d_plot_size prop_data));
     ("rooms", of_int (d_rooms prop_data));
     ("value_comparison", VStr (d_value_comparison prop_data));
     ("agent_name", VStr (d_agent_name prop_data))]%string.

(** Postal code and city from the location text of the card. *)
Definition location_step (location : str) : step :=
  when (truthy_str location)
    (let parts := split_ws location in
     when (3 <=? List.length parts)%nat
       (andthen (assign postal_code (VStr (join (lit " ") (firstn 2 parts))))
                (assign city (VStr (join (lit " ") (skipn 2 parts)))))).

Definition settled (r : run) : Property :=
  match r with Go prop => prop | Halt _ prop => prop end.

(** The worker. It only reads the summary it is given, which is returned
    next to the result to make that visible. *)
Definition _fetch_property_details (prop_data : ListingSummary)
    : ListingSummary * outcome (option Property) :=
  let url_ := d_url prop_data in
  if negb (truthy_str url_) then (prop_data, Ret None) else
  let html := _fetch_page url_ in
  if negb (got html) then (prop_data, Ret None) else
  (prop_data,
   let! prop := Property_init (clock url_) (summary_kwargs prop_data) in
   let prop := settled (location_step (d_location prop_data) prop) in
   Ret (Some (parse_detail_page (default [] html) prop))).

(** The records collected from the workers, in the order in which they
    complete; an exception of a worker is caught and logged. *)
Fixpoint collect_details (completed : list ListingSummary) : list Property :=
  match completed with
  | [] => []
  | prop_data :: more =>
    match snd (_fetch_property_details prop_data) with
    | Ret (Some prop) => prop :: collect_details more
    | Ret None => collect_details more
    | Raise _ => collect_details more
    end
  end.

(** The minimally populated record built when details are not fetched. *)
Definition basic_property (prop_data : ListingSummary) : outcome Property :=
  Property_init (clock (d_url prop_data)) (summary_kwargs prop_data).

Fixpoint basic_properties (all_properties : list ListingSummary)
    : outcome (list Property) :=
  match all_properties with
  | [] => Ret []
  | p :: more =>
    let! prop := basic_property p in
    let! props := basic_properties more in
    Ret (prop :: props)
  end.

(** [location.lower()]: the lowercase mapping of the Unicode database is
    left to the Python runtime. *)
Variable str_lower : str -> str.

(** [location_slug] and [prop_filter] as [scrape] computes them. *)
Definition slug_of (location : str) : str :=
  let location_key := replace (lit " ") (lit "-") (str_lower location) in
  dict_get_or location_key LOCATIONS location_key.

Definition filter_of (property_type : str) : str :=
  dict_get_or property_type PROPERTY_TYPES (lit "").

(** [all_properties[:limit]] under [if limit:]. *)
Definition cut_to (limit : option Z) (all_properties : list ListingSummary)
    : list ListingSummary :=
  if truthy_int limit then slice_to (default 0%Z limit) all_properties
  else all_properties.

(** [scrape]: the outcomes it can have. [max_workers] is [self.max_workers],
    which [__init__] stores as it is given; [ThreadPoolExecutor] raises
    [ValueError] for a pool size of 0 or less, outside any [try]. The workers
    complete in an order chosen by the thread pool. *)
Definition scrape (max_workers : Z) (location property_type : str)
    (max_pages limit : option Z) (fetch_details : bool)
    (result : outcome (list Property)) : Prop :=
  let location_slug := slug_of location in
  let prop_filter := filter_of property_type in
  exists fuel,
    match pages_loop location_slug prop_filter max_pages limit fuel 1%Z [] [] with
    | StillRunning _ => False
    | Raised e _ => result = Raise e
    | Stopped _ all_properties _ =>
      let all_properties := cut_to limit all_properties in
      if fetch_details && negb (Nat.eqb (List.length all_properties) 0)
      then if (max_workers <=? 0)%Z
           then result = Raise ValueError
           else exists completed,
                  Permutation completed all_properties /\
                  result = Ret (collect_details completed)
      else result = basic_properties all_properties
    end.

End Program.

(** ** Vocabulary of the statements, and sample inputs *)

(** A Unicode table without alphanumerics beyond ASCII. *)
Definition ascii_alnum : char -> bool := fun _ => false.

(** What makes a card an advertisement, and what makes it a listing. *)
Definition has_ad_marker (article : node) : bool :=
  existsb (fun s => is_match (re_search ad_re s)) (strings article).

Definition has_listing_link (article : node) : bool :=
  existsb (fun d => is_tag "a" d &&
                    match attr "href" d with
                    | Some v => is_match (re_search link_re v)
                    | None => false
                    end)
          (descendants article).

Definition survives (article : node) : bool :=
  negb (has_ad_marker article) && has_listing_link article.

Definition elem (name : string) (attrs : list (string * string))
    (children : list node) : node :=
  NElem (lit name) (List.map (fun kv => (lit (fst kv), lit (snd kv))) attrs)
        children.

Definition txt (s : string) : node := NText (lit s).

(** A listing page with one advertisement card and one genuine card. *)
Definition two_card_document : node :=
  elem "html" []
    [elem "body" []
      [elem "article" []
         [elem "div" [] [txt "Advertentie"];
          elem "a" [("href", "/amsterdam/1012ab/damstraat/1")]%string
               [elem "h2" [] [txt "Damstraat 1"]]];
       elem "article" []
         [elem "a" [("href", "/amsterdam/1012ab/damstraat/1")]%string
               [elem "h2" [] [txt " Damstraat 1 "]];
          elem "div" [] [txt "1012 AB Amsterdam"];
          elem "div" [] [txt "€ 310.000 k.k."];
          elem "div" [] [txt "112 m²"];
          elem "div" [] [txt "4 kamers"];
          elem "div" [] [txt "Jansen Makelaars"]]]].

(** A requested URL whose page makes the loop go on to the next page. *)
Definition goes_on (lxml : str -> node) (http_get : str -> option str)
    (url_ : str) : Prop :=
  exists html w,
    http_get url_ = Some html /\
    get_pagination_info lxml html = Ret w /\
    (snd (fst w) < snd w)%Z.

(** The detail fetch of a summary succeeds. *)
Definition detail_fetched (http_get : str -> option str)
    (prop_data : ListingSummary) : bool :=
  truthy_str (d_url prop_data) && got (_fetch_page http_get (d_url prop_data)).

(** A statement that runs to its end and leaves field [g] as it was, and one
    that runs to its end and leaves [v] in field [g]. *)
Definition keeps (g : field) (s : step) : Prop :=
  forall prop, exists prop', s prop = Go prop' /\ prop' g = prop g.

Definition puts (g : field) (v : pyval) (s : step) : Prop :=
  forall prop, exists prop', s prop = Go prop' /\ prop' g = v.

(** A detail page whose only item is an asking price without a number, and a
    record as the summary stage leaves it, with a price. *)
Definition asking_price_item : node :=
  elem "li" [] [txt "Vraagprijs € op aanvraag"].

Definition asking_price_document : node :=
  elem "html" [] [elem "body" [] [elem "ul" [] [asking_price_item]]].

Definition priced_record : Property :=
  setattr price (VInt 310000) (field_default (lit "2024-01-01T00:00:00")).

(** A detail page whose only item is a living area without a number. *)
Definition living_area_item : node :=
  elem "li" [] [txt "Woonoppervlakte onbekend"].

Definition living_area_document : node :=
  elem "html" [] [elem "body" [] [elem "ul" [] [living_area_item]]].

Definition sized_record : Property :=
  setattr living_area (VInt 112) (field_default (lit "2024-01-01T00:00:00")).

(** A listing page with ten cards and the window text of a last page. *)
Definition listing_card : node :=
  elem "article" []
    [elem "a" [("href", "/amsterdam/1012ab/damstraat/1")]%string
          [elem "h2" [] [txt "Damstraat 1"]]].

Definition last_page_document : node :=
  elem "html" []
    [elem "body" []
       (repeat listing_card 10 ++
        [elem "nav" [] [elem "div" [] [txt "Resultaten 51-58 van 58"]]])].

(** A listing page with ten cards and a [nav] without window text. *)
Definition plain_nav : node := elem "nav" [] [txt "Vorige Volgende"].

Definition no_window_document : node :=
  elem "html" [] [elem "body" [] (repeat listing_card 10 ++ [plain_nav])].

(** A first listing page: ten cards, window 1-10 of 58. *)
Definition first_page_document : node :=
  elem "html" []
    [elem "body" []
       (repeat listing_card 10 ++
        [elem "nav" [] [elem "div" [] [txt "Resultaten 1-10 van 58"]]])].

(** A transport that answers every request, and one that fails every time. *)
Definition always_page : str -> option str := fun _ => Some (lit "<html>").
Definition never_page : str -> option str := fun _ => None.

Definition fixed_clock : str -> str := fun _ => lit "2024-01-01T00:00:00".

Definition sample_summary : ListingSummary :=
  {| d_url := lit "https://huispedia.nl/amsterdam/1012ab/damstraat/1";
     d_listing_id := lit "amsterdam-1012ab-damstraat-1";
     d_street_address := lit "Damstraat 1";
     d_location := lit "1012 AB Amsterdam";
     d_price := Some 310000%Z;
     d_price_type := lit "k.k.";
     d_living_area := Some 112%Z;
     d_plot_size := None;
     d_rooms := Some 4%Z;
     d_value_comparison := lit "";
     d_agent_name := lit "Jansen Makelaars" |}.

(** ** Total count ([get_total_count]) *)

(** [([\d.]+)\s*Koopwoningen] *)
Definition heading_count_re : regex :=
  rseq [RGroup 1 (rplus (either digit (one "."))); RStar space;
        rtext "Koopwoningen"].

(** [van\s*([\d.]+)] *)
Definition nav_count_re : regex :=
  rseq [rtext "van"; RStar space; RGroup 1 (rplus (either digit (one ".")))].

(** [match = re.search(r, text)], then the guarded conversion of group 1 with
    its dots removed. *)
Definition count_in (r : regex) (text : str) : outcome (option Z) :=
  match re_search r text with
  | Some m =>
    try_except_ValueError
      (let! v := py_int (replace (lit ".") (lit "") (group 1 m)) in
       Ret (Some v))
      (Ret None)
  | None => Ret None
  end.

Definition get_total_count (lxml : str -> node) (html : str) : outcome Z :=
  let soup := lxml html in
  let! from_heading :=
    (match find "h1" soup with
     | Some h1 => count_in heading_count_re (get_text h1)
     | None => Ret None
     end) in
  match from_heading with
  | Some count => Ret count
  | None =>
    let! from_nav :=
      (match find "nav" soup with
       | Some nav => count_in nav_count_re (get_text nav)
       | None => Ret None
       end) in
    match from_nav with
    | Some count => Ret count
    | None => Ret 0%Z
    end
  end.

(** The URLs of [k] consecutive listing pages, from page [first] on. *)
Definition page_urls (location_slug prop_filter : str) (first : Z) (k : nat)
    : list str :=
  List.map (fun j => _build_list_url location_slug (first + Z.of_nat j)%Z prop_filter)
           (seq 0 k).

(** The cards a requested URL contributes to the collection. *)
Definition cards_of (lxml : str -> node) (http_get : str -> option str)
    (url_ : str) : list ListingSummary :=
  match http_get url_ with
  | Some html => if truthy_str html then parse_property_cards lxml html else []
  | None => []
  end.

(** An optional integer that is absent or at least [low]. *)
Definition at_least (low : Z) (v : option Z) : Prop :=
  match v with Some z => (low <= z)%Z | None => True end.

(** The values a field may hold by its annotation: text for a [str] field;
    for an [Optional[int]] field nothing or a non-negative integer, a year
    between 1900 and 2099 for the three year fields. *)
Definition valid (f : field) (v : pyval) : bool :=
  match f with
  | year_built | renovation_year | cv_year =>
    match v with
    | VNone => true
    | VInt z => (1900 <=? z)%Z && (z <=? 2099)%Z
    | VStr _ => false
    end
  | price | price_per_sqm | living_area | plot_size | volume | rooms
  | bedrooms | bathrooms | floors =>
    match v with
    | VNone => true
    | VInt z => (0 <=? z)%Z
    | VStr _ => false
    end
  | _ => match v with VStr _ => true | _ => false end
  end.

Definition well_formed (prop : Property) : Prop :=
  forall f, valid f (prop f) = true.

(** A statement that runs to its end and keeps a record well formed. *)
Definition sound (s : step) : Prop :=
  forall prop, well_formed prop ->
               exists prop', s prop = Go prop' /\ well_formed prop'.

(** A summary whose numbers are absent or non-negative. *)
Definition summary_ok (d : ListingSummary) : Prop :=
  at_least 0 (d_price d) /\ at_least 1 (d_living_area d) /\
  at_least 1 (d_plot_size d) /\ at_least 0 (d_rooms d).

(** The URL of the first listing page that [scrape] requests. *)
Definition first_page_url (str_lower : str -> str)
    (location property_type : str) : str :=
  _build_list_url (slug_of str_lower location) 1 (filter_of property_type).

(** The count-valued and the year-valued fields. *)
Definition is_count (f : field) : bool :=
  match f with
  | price | price_per_sqm | living_area | plot_size | volume | rooms
  | bedrooms | bathrooms | floors => true
  | _ => false
  end.

Definition is_year (f : field) : bool :=
  match f with
  | year_built | renovation_year | cv_year => true
  | _ => false
  end.

(** The fields no statement of the detail enricher assigns. *)
Definition untouched_fields : list field :=
  [url; listing_id; street_address; province; value_comparison; date_scraped].

(** The value of each field of the record built from a summary alone. *)
Definition summary_field (now : str) (d : ListingSummary) (f : field) : pyval :=
  match f with
  | url => VStr (d_url d)
  | listing_id => VStr (d_listing_id d)
  | street_address => VStr (d_street_address d)
  | price => of_int (d_price d)
  | price_type => VStr (d_price_type d)
  | living_area => of_int (d_living_area d)
  | plot_size => of_int (d_plot_size d)
  | rooms => of_int (d_rooms d)
  | value_comparison => VStr (d_value_comparison d)
  | agent_name => VStr (d_agent_name d)
  | _ => field_default now f
  end.

(** The price and its qualifier after a statement are those before it, or
    those that [parse_price] reads from one of [items], an item whose text
    holds "Vraagprijs" and a euro sign, the price being 1 or more. *)
Definition price_kept_or_set (items : list node) (before after : Property)
    : Prop :=
  (after price = before price /\ after price_type = before price_type) \/
  exists item z q,
    In item items /\
    has "Vraagprijs" (item_text item) = true /\
    has "€" (item_text item) = true /\
    parse_price (item_text item) = Ret (Some z, q) /\
    (1 <= z)%Z /\
    after price = VInt z /\ after price_type = VStr q.

(** A URL answered with a page of ten or more cards whose window promises
    more results. *)
Definition full_page (lxml : str -> node) (http_get : str -> option str)
    (url_ : str) : Prop :=
  exists html start end_ total,
    http_get url_ = Some html /\ truthy_str html = true /\
    (10 <= List.length (parse_property_cards lxml html))%nat /\
    get_pagination_info lxml html = Ret (start, end_, total) /\
    (end_ < total)%Z.

(** More sample inputs: a genuine card, a detail page that states a living
    area, and a record with every field at its default. *)
Definition genuine_card : node :=
  elem "article" []
    [elem "a" [("href", "/amsterdam/1012ab/damstraat/1")]%string
          [elem "h2" [] [txt " Damstraat 1 "]];
     elem "div" [] [txt "1012 AB Amsterdam"];
     elem "div" [] [txt "€ 310.000 k.k."];
     elem "div" [] [txt "112 m²"];
     elem "div" [] [txt "4 kamers"];
     elem "div" [] [txt "Jansen Makelaars"]].

Definition measured_item : node :=
  elem "li" [] [txt "Woonoppervlakte 95 m²"].

Definition measured_document : node :=
  elem "html" [] [elem "body" [] [elem "ul" [] [measured_item]]].

Definition blank_record : Property :=
  setattr url (VStr (lit "https://huispedia.nl/amsterdam/1012ab/damstraat/1"))
          (field_default (lit "2024-01-01T00:00:00")).

(** A listing page with two genuine cards and no window text, and a
    transport that answers every request except the detail page of the
    second card. *)
Definition second_card : node :=
  elem "article" []
    [elem "a" [("href", "/amsterdam/1012ab/damstraat/2")]%string
          [elem "h2" [] [txt "Damstraat 2"]];
     elem "div" [] [txt "€ 295.000 k.k."]].

Definition two_listing_document : node :=
  elem "html" [] [elem "body" [] [genuine_card; second_card]].

Definition second_detail_down : str -> option str :=
  fun url_ => if contains (lit "/damstraat/2") url_ then None
              else Some (lit "<html>").

(** A detail page whose only item states a price per square metre. *)
Definition per_sqm_item : node :=
  elem "li" [] [txt "Vraagprijs per m² € 4.474"].

Definition per_sqm_document : node :=
  elem "html" [] [elem "body" [] [elem "ul" [] [per_sqm_item]]].

Definition asked_record : Property :=
  setattr price_type (VStr (lit "k.k.")) priced_record.

(** * Properties *)

(** ** The model on sample texts *)

Example lit_code_points : lit "€ m²" = [8364; 32; 109; 178].
Proof. reflexivity. Qed.

Example parse_area_samples :
  parse_area (lit "112 m²") = Ret (Some 112%Z) /\
  parse_area (lit "112 m2") = Ret (Some 112%Z) /\
  parse_area (lit "145 m² perceel") = Ret (Some 145%Z).
Proof. repeat split; reflexivity. Qed.

Example parse_rooms_samples :
  parse_rooms (lit "4 kamers (3 slaapkamers)") = Ret (Some 4%Z) /\
  parse_bedrooms (lit "4 kamers (3 slaapkamers)") = Ret (Some 3%Z).
Proof. split; reflexivity. Qed.

Example parse_year_samples :
  parse_year ascii_alnum (lit "Bouwjaar: 1950") = Ret (Some 1950%Z) /\
  parse_year ascii_alnum (lit "1950, verbouwd in 2020") = Ret (Some 1950%Z) /\
  parse_year ascii_alnum (lit "kenmerk 19501") = Ret None.
Proof. repeat split; reflexivity. Qed.

Example parse_price_samples :
  parse_price (lit "Vraagprijs € 1,250,000 K.K.") = Ret (Some 1250000%Z, lit "k.k.") /\
  parse_price (lit "€ ...") = Ret (None, lit "").
Proof. split; reflexivity. Qed.

Example two_card_summary :
  List.map (fun d => (d_listing_id d, d_street_address d, d_price d,
                      d_price_type d, d_living_area d, d_rooms d, d_agent_name d))
           (cards_loop (find_all "article" two_card_document) [])
  = [(lit "amsterdam-1012ab-damstraat-1", lit "Damstraat 1", Some 310000%Z,
      lit "k.k.", Some 112%Z, Some 4%Z, lit "Jansen Makelaars")].
Proof. vm_compute. reflexivity. Qed.

Example build_list_url_samples :
  _build_list_url (lit "amsterdam") 1 (lit "")
    = lit "https://huispedia.nl/koopwoningen/amsterdam" /\
  _build_list_url (lit "amsterdam") 3 (lit "woonhuis")
    = lit "https://huispedia.nl/koopwoningen/amsterdam/woonhuis/3_p".
Proof. split; reflexivity. Qed.

Section Facts.

Context (uni_alnum : char -> bool) (lxml : str -> node)
        (str_title : str -> str) (http_get : str -> option str)
        (clock : str -> str) (str_lower : str -> str).

(** ** Strings and the matcher *)

Lemma contains_one_false (c : char) (s : str) :
  contains [c] s = false -> Forall (fun x => (c =? x) = false) s.
Proof.
  induction s as [|x s IH]; intros H; constructor.
  - simpl in H. apply orb_false_iff in H as [H _].
    now rewrite andb_true_r in H.
  - apply IH. simpl in H. apply orb_false_iff in H as [_ H]. exact H.
Qed.

Lemma replace_from_Forall (P : char -> Prop) (old new : str) :
  Forall P new ->
  forall s skip, Forall P s -> Forall P (replace_from old new skip s).
Proof.
  intros Hnew s. induction s as [|c s IH]; intros skip Hs; simpl.
  - constructor.
  - inversion Hs; subst. destruct skip.
    + destruct (startswith old (c :: s)).
      * apply Forall_app. split; [exact Hnew | now apply IH].
      * constructor; [assumption | now apply IH].
    + now apply IH.
Qed.

(** A pattern that begins with a character finds nothing in a text without
    such a character. *)
Lemma search_first_char (p : char -> bool) (r : regex) (s : str) :
  Forall (fun x => p x = false) s ->
  forall i pv, search_from (RSeq (RChar p) r) i pv s = None.
Proof.
  induction 1 as [|x s Hx _ IH]; intros i pv.
  - reflexivity.
  - simpl. unfold match_here. simpl. rewrite Hx. apply IH.
Qed.

Lemma py_int_raises (s : str) (e : exn) : py_int s = Raise e -> e = ValueError.
Proof.
  unfold py_int. destruct s as [|c s]; [congruence|].
  destruct (int_digits 0 (c :: s)); congruence.
Qed.

Lemma int_of_group1_total (m : option captures) :
  exists v, int_of_group1 m = Ret v.
Proof.
  destruct m as [m|]; simpl; [|eauto].
  destruct (py_int (group 1 m)) as [v|e] eqn:E; simpl; [eauto|].
  apply py_int_raises in E. subst. simpl. eauto.
Qed.

Lemma parse_price_total (text : str) : exists v, parse_price text = Ret v.
Proof.
  unfold parse_price. destruct (truthy_str text); simpl; [|eauto].
  destruct (re_search price_re _) as [m|]; [|eauto].
  destruct (py_int _) as [v|e] eqn:E; simpl; [eauto|].
  apply py_int_raises in E. subst. simpl. eauto.
Qed.

Lemma parse_area_total (text : str) : exists v, parse_area text = Ret v.
Proof.
  unfold parse_area. destruct (truthy_str text); simpl;
    [apply int_of_group1_total | eauto].
Qed.

Lemma parse_rooms_total (text : str) : exists v, parse_rooms text = Ret v.
Proof.
  unfold parse_rooms. destruct (truthy_str text); simpl;
    [apply int_of_group1_total | eauto].
Qed.

Lemma parse_bedrooms_total (text : str) : exists v, parse_bedrooms text = Ret v.
Proof.
  unfold parse_bedrooms. destruct (truthy_str text); simpl;
    [apply int_of_group1_total | eauto].
Qed.

Lemma parse_year_total (text : str) :
  exists v, parse_year uni_alnum text = Ret v.
Proof.
  unfold parse_year. destruct (truthy_str text); simpl;
    [apply int_of_group1_total | eauto].
Qed.

(** ** Field extractors *)

(** C1 (as amended): the two sample price texts give (310000, "k.k.") and
    (425000, "v.o.n."); a text without the euro sign gives no value, paired
    with the qualifier found in the text, which is empty exactly when the
    text holds neither "k.k." nor "v.o.n." (in any letter case). *)
Theorem parse_price_spec :
  parse_price (lit "€ 310.000 k.k.") = Ret (Some 310000%Z, lit "k.k.") /\
  parse_price (lit "€ 425.000 v.o.n.") = Ret (Some 425000%Z, lit "v.o.n.") /\
  forall text : str,
    contains (lit "€") text = false ->
    parse_price text =
      Ret (None,
           if contains (lit "k.k.") (lower text) then lit "k.k."
           else if contains (lit "v.o.n.") (lower text) then lit "v.o.n."
           else lit "").
Proof.
  split; [reflexivity|]. split; [reflexivity|].
  intros text Hno. unfold parse_price.
  destruct text as [|c text]; [reflexivity|].
  cbn [truthy_str negb].
  assert (Hs : re_search price_re (replace (lit ",") (lit ".") (c :: text)) = None).
  { apply search_first_char.
    apply replace_from_Forall.
    - repeat constructor.
    - apply contains_one_false in Hno.
      eapply List.Forall_impl; [|exact Hno].
      intros x Hx. unfold one. rewrite N.eqb_sym. exact Hx. }
  rewrite Hs. reflexivity.
Qed.

(** C1, as stated, fails: a text without the euro sign that mentions "k.k."
    keeps that qualifier. *)
Lemma parse_price_no_euro_counterexample :
  contains (lit "€") (lit "100 k.k.") = false /\
  parse_price (lit "100 k.k.") <> Ret (None, lit "").
Proof. split; [reflexivity | discriminate]. Qed.

(** C8: no extractor raises. Each of the five parsers returns a value on
    every text; on the empty text, and whenever its pattern finds nothing,
    that value is the explicit absent one. [extract_listing_id] has no
    operation that can fail and gives the empty identifier for the empty
    text. *)
Theorem extractors_total :
  (forall text, exists v, parse_price text = Ret v) /\
  (forall text, exists v, parse_area text = Ret v) /\
  (forall text, exists v, parse_rooms text = Ret v) /\
  (forall text, exists v, parse_bedrooms text = Ret v) /\
  (forall text, exists v, parse_year uni_alnum text = Ret v) /\
  (parse_price [] = Ret (None, []) /\ parse_area [] = Ret None /\
   parse_rooms [] = Ret None /\ parse_bedrooms [] = Ret None /\
   parse_year uni_alnum [] = Ret None /\ extract_listing_id [] = []) /\
  (forall text,
     (re_search price_re (replace (lit ",") (lit ".") text) = None ->
      exists q, parse_price text = Ret (None, q)) /\
     (re_search area_re text = None -> parse_area text = Ret None) /\
     (re_search rooms_re text = None -> parse_rooms text = Ret None) /\
     (re_search bedrooms_re text = None -> parse_bedrooms text = Ret None) /\
     (re_search (year_re uni_alnum) text = None ->
      parse_year uni_alnum text = Ret None)).
Proof.
  split; [apply parse_price_total|].
  split; [apply parse_area_total|].
  split; [apply parse_rooms_total|].
  split; [apply parse_bedrooms_total|].
  split; [apply parse_year_total|].
  split; [repeat split|].
  intros text. repeat split; intros H.
  - unfold parse_price. rewrite H. destruct (truthy_str text); simpl; eauto.
  - unfold parse_area. rewrite H. now destruct (truthy_str text).
  - unfold parse_rooms. rewrite H. now destruct (truthy_str text).
  - unfold parse_bedrooms. rewrite H. now destruct (truthy_str text).
  - unfold parse_year. rewrite H. now destruct (truthy_str text).
Qed.

(** *** Listing identifier *)

Lemma lstrip_by_decompose (p : char -> bool) (s : str) :
  exists pre, s = (pre ++ lstrip_by p s)%list /\ Forall (fun c => p c = true) pre.
Proof.
  induction s as [|c s [pre [E F]]]; simpl.
  - exists []. split; [reflexivity | constructor].
  - destruct (p c) eqn:Hc.
    + exists (c :: pre). split; [simpl; congruence | now constructor].
    + exists []. split; [reflexivity | constructor].
Qed.

Lemma strip_by_decompose (p : char -> bool) (s : str) :
  exists pre post,
    s = (pre ++ strip_by p s ++ post)%list /\
    Forall (fun c => p c = true) pre /\ Forall (fun c => p c = true) post.
Proof.
  unfold strip_by.
  destruct (lstrip_by_decompose p s) as [pre [E F]].
  destruct (lstrip_by_decompose p (rev (lstrip_by p s))) as [post [E' F']].
  exists pre, (rev post). split; [|split; [exact F|]].
  - rewrite E at 1. f_equal.
    rewrite <- rev_app_distr, <- E'. now rewrite rev_involutive.
  - now apply List.Forall_rev.
Qed.

Lemma split_not_nil (sep : char) (s : str) : split sep s <> [].
Proof.
  destruct s as [|c s]; simpl; [discriminate|].
  destruct (c =? sep); [discriminate|].
  destruct (split sep s); discriminate.
Qed.

Lemma split_snoc_sep (sep : char) (s : str) :
  split sep (s ++ [sep]) = (split sep s ++ [[]])%list.
Proof.
  induction s as [|c s IH]; simpl.
  - now rewrite N.eqb_refl.
  - destruct (c =? sep); [now rewrite IH|].
    rewrite IH. pose proof (split_not_nil sep s) as Hne.
    destruct (split sep s); [congruence | reflexivity].
Qed.

Lemma segments_drop_trailing (sep : char) (post s : str) :
  Forall (fun c => (c =? sep) = true) post ->
  List.filter truthy_str (split sep (s ++ post)) =
  List.filter truthy_str (split sep s).
Proof.
  intros F. revert s. induction F as [|x post Hx _ IH]; intros s.
  - now rewrite app_nil_r.
  - apply N.eqb_eq in Hx. subst x.
    change (s ++ sep :: post)%list with (s ++ [sep] ++ post)%list.
    rewrite app_assoc, IH, split_snoc_sep, List.filter_app. simpl.
    now rewrite app_nil_r.
Qed.

Lemma segments_drop_leading (sep : char) (pre s : str) :
  Forall (fun c => (c =? sep) = true) pre ->
  List.filter truthy_str (split sep (pre ++ s)) =
  List.filter truthy_str (split sep s).
Proof.
  induction 1 as [|x pre Hx _ IH]; [reflexivity|].
  simpl. now rewrite Hx.
Qed.

(** Stripping the separator from both ends does not change the non-empty
    segments. *)
Lemma segments_strip (s : str) :
  List.filter truthy_str (split (chr "/") (strip_chars (lit "/") s)) =
  List.filter truthy_str (split (chr "/") s).
Proof.
  unfold strip_chars.
  set (p := fun c : char => existsb (N.eqb c) (lit "/")).
  destruct (strip_by_decompose p s) as [pre [post [E [F F']]]].
  assert (Hp : forall l, Forall (fun c => p c = true) l ->
                         Forall (fun c => (c =? chr "/") = true) l).
  { intros l Hl. eapply List.Forall_impl; [|exact Hl].
    intros c Hc. unfold p in Hc. simpl in Hc.
    now rewrite orb_false_r in Hc. }
  rewrite E at 2.
  rewrite segments_drop_leading, segments_drop_trailing; auto.
Qed.

Lemma replace_absent (old new s : str) :
  contains old s = false -> replace old new s = s.
Proof.
  unfold replace. induction s as [|c s IH]; intros H; [reflexivity|].
  cbn [contains] in H. apply orb_false_iff in H as [H1 H2].
  cbn [replace_from]. rewrite H1. f_equal. now apply IH.
Qed.

Lemma replace_char (a b : char) (s : str) :
  replace [a] [b] s = List.map (fun c => if c =? a then b else c) s.
Proof.
  unfold replace. induction s as [|c s IH]; [reflexivity|].
  cbn [replace_from startswith List.length Nat.pred List.map].
  rewrite andb_true_r, (N.eqb_sym a c).
  destruct (c =? a); simpl; now rewrite IH.
Qed.

(** C3: with the base URL removed, a path of four or more non-empty segments
    gives the first four joined by "-"; a shorter one gives the whole path,
    stripped of leading and trailing "/", with each remaining "/" kept in
    place as a "-". *)
Theorem extract_listing_id_spec :
  extract_listing_id (lit "/amsterdam/1012ab/damstraat/1")
    = lit "amsterdam-1012ab-damstraat-1" /\
  extract_listing_id (lit "/amsterdam/1012ab") = lit "amsterdam-1012ab" /\
  forall url_ : str,
    let path := replace BASE_URL (lit "") url_ in
    let segments := List.filter truthy_str (split (chr "/") path) in
    (contains BASE_URL url_ = false -> path = url_) /\
    ((4 <= List.length segments)%nat ->
     extract_listing_id url_ = join (lit "-") (firstn 4 segments)) /\
    ((List.length segments < 4)%nat ->
     extract_listing_id url_ =
       List.map (fun c => if c =? chr "/" then chr "-" else c)
                (strip_chars (lit "/") path)).
Proof.
  split; [reflexivity|]. split; [reflexivity|].
  intros url_ path segments.
  split; [apply replace_absent|].
  assert (E : extract_listing_id url_ =
              if (4 <=? List.length segments)%nat
              then join (lit "-") (firstn 4 segments)
              else replace (lit "/") (lit "-") (strip_chars (lit "/") path)).
  { unfold extract_listing_id. destruct url_ as [|c u]; [reflexivity|].
    cbn [truthy_str negb]. fold path. rewrite segments_strip. reflexivity. }
  split; intros H; rewrite E.
  - apply Nat.leb_le in H. now rewrite H.
  - apply Nat.leb_gt in H. rewrite H. apply replace_char.
Qed.

(** ** The record *)

Lemma to_dict_ext (p q : Property) :
  (forall f, p f = q f) -> to_dict p = to_dict q.
Proof. intros H. unfold to_dict. now rewrite !H. Qed.

(** C5: building a record from the mapping of a record gives back every
    field, and so the same mapping again. *)
Theorem to_dict_roundtrip (now : str) (self : Property) :
  exists prop,
    Property_init now (to_dict self) = Ret prop /\
    (forall f, prop f = self f) /\
    to_dict prop = to_dict self.
Proof.
  eexists. split; [vm_compute; reflexivity|].
  match goal with |- ?A /\ _ => assert (H : A) end.
  { intros f. destruct f; vm_compute; reflexivity. }
  split; [exact H | now apply to_dict_ext].
Qed.

(** ** Card parser *)

Lemma head_filter_none {A} (f : A -> bool) (l : list A) :
  existsb f l = false -> head (List.filter f l) = None.
Proof.
  induction l as [|x l IH]; simpl; [reflexivity|].
  intros H. apply orb_false_iff in H as [H1 H2]. rewrite H1. now apply IH.
Qed.

Lemma head_filter_some {A} (f : A -> bool) (l : list A) :
  existsb f l = true -> exists x, head (List.filter f l) = Some x /\ f x = true.
Proof.
  induction l as [|x l IH]; simpl; [discriminate|].
  destruct (f x) eqn:Hx; simpl; [eauto|]. exact IH.
Qed.

Lemma search_bol_later (r : regex) (s : str) :
  forall i pv, search_from (RSeq RBol r) (S i) pv s = None.
Proof.
  induction s as [|c s IH]; intros i pv; simpl; [reflexivity | apply IH].
Qed.

Lemma search_bol_char (p : char -> bool) (r : regex) (v : str) :
  is_match (re_search (RSeq RBol (RSeq (RChar p) r)) v) = true ->
  exists c rest, v = c :: rest /\ p c = true.
Proof.
  destruct v as [|c v]; [discriminate|].
  unfold re_search. cbn [search_from]. unfold match_here at 1. simpl.
  destruct (p c) eqn:Hc; [eauto|].
  now rewrite search_bol_later.
Qed.

Lemma link_re_slash (v : str) :
  is_match (re_search link_re v) = true -> exists rest, v = chr "/" :: rest.
Proof.
  intros H. apply search_bol_char in H as [c [rest [-> Hc]]].
  apply N.eqb_eq in Hc. subst c. eauto.
Qed.

Lemma ad_marker_found (article : node) :
  found (find_string ad_re article) = has_ad_marker article.
Proof.
  unfold find_string, find_all_string, has_ad_marker.
  destruct (existsb _ (strings article)) eqn:E.
  - apply head_filter_some in E as [s [-> Hs]]. simpl.
    destruct s; [discriminate | reflexivity].
  - now rewrite head_filter_none.
Qed.

Lemma card_areas_total (area_matches : list str) :
  forall i living plot, exists v, card_areas i area_matches living plot = Ret v.
Proof.
  induction area_matches as [|t l IH]; intros i living plot; simpl; [eauto|].
  destruct (parse_area_total t) as [v ->]. simpl.
  destruct (truthy_int v); [|apply IH].
  destruct (Nat.eqb i 0); [apply IH|].
  destruct (_ || _); apply IH.
Qed.

Lemma parse_card_survivor (article : node) :
  survives article = true -> exists summary, parse_card article = Ret (Some summary).
Proof.
  intros H. apply andb_true_iff in H as [Had Hlink].
  apply negb_true_iff in Had.
  unfold parse_card. rewrite ad_marker_found, Had.
  unfold find_href. apply head_filter_some in Hlink as [link [-> Hl]].
  apply andb_true_iff in Hl as [_ Hl].
  unfold attr_or_empty. destruct (attr "href" link) as [v|]; [|discriminate].
  apply link_re_slash in Hl as [rest ->].
  change (negb (truthy_str (chr "/" :: rest))
          || startswith (lit "http") (chr "/" :: rest)) with false.
  cbv iota.
  match goal with
  | |- context [bind ?m _] =>
    assert (exists v, m = Ret v) as [pv ->]
      by (destruct (found _); [apply parse_price_total | eauto])
  end.
  cbn [bind].
  destruct (card_areas_total (find_all_string area_text_re article) 0 None None)
    as [av ->].
  cbn [bind].
  match goal with
  | |- context [bind ?m _] =>
    assert (exists v, m = Ret v) as [rv ->]
      by (destruct (found _); [apply parse_rooms_total | eauto])
  end.
  cbn [bind]. eauto.
Qed.

Lemma parse_card_ad (article : node) :
  has_ad_marker article = true -> parse_card article = Ret None.
Proof.
  intros H. unfold parse_card. now rewrite ad_marker_found, H.
Qed.

Lemma parse_card_no_link (article : node) :
  has_listing_link article = false -> parse_card article = Ret None.
Proof.
  intros H. unfold parse_card.
  destruct (found (find_string ad_re article)); [reflexivity|].
  unfold find_href. now rewrite head_filter_none.
Qed.

Lemma cards_loop_survivors (articles : list node) :
  forall properties,
  exists summaries,
    cards_loop articles properties = (properties ++ summaries)%list /\
    Forall2 (fun article summary => parse_card article = Ret (Some summary))
            (List.filter survives articles) summaries.
Proof.
  induction articles as [|a l IH]; intros acc; simpl.
  - exists []. split; [now rewrite app_nil_r | constructor].
  - destruct (survives a) eqn:Hs.
    + destruct (parse_card_survivor a Hs) as [d Hd]. rewrite Hd.
      destruct (IH (acc ++ [d])%list) as [ds [E F]].
      exists (d :: ds). split; [now rewrite E, <- app_assoc | now constructor].
    + assert (Hn : parse_card a = Ret None).
      { apply andb_false_iff in Hs as [Hs|Hs].
        - apply parse_card_ad. now apply negb_false_iff in Hs.
        - now apply parse_card_no_link. }
      rewrite Hn. apply IH.
Qed.

(** C7: the page with one advertisement card and one genuine card gives one
    summary; a card with the advertisement marker, or without a listing link,
    gives none; the summaries are those of the remaining cards, one each, in
    document order. *)
Theorem parse_property_cards_spec :
  (forall html, lxml html = two_card_document ->
     List.length (parse_property_cards lxml html) = 1%nat) /\
  (forall article, has_ad_marker article = true -> parse_card article = Ret None) /\
  (forall article, has_listing_link article = false ->
     parse_card article = Ret None) /\
  (forall html,
     Forall2 (fun article summary => parse_card article = Ret (Some summary))
             (List.filter survives (find_all "article" (lxml html)))
             (parse_property_cards lxml html)).
Proof.
  split; [|split; [apply parse_card_ad | split; [apply parse_card_no_link|]]].
  - intros html E. unfold parse_property_cards. rewrite E. reflexivity.
  - intros html. unfold parse_property_cards.
    destruct (cards_loop_survivors (find_all "article" (lxml html)) [])
      as [ds [E F]].
    now rewrite E.
Qed.

(** ** Pagination *)

Lemma nav_window_total (text : str) : exists w, nav_window text = Ret w.
Proof.
  unfold nav_window. destruct (re_search window_re text) as [m|]; [|eauto].
  destruct (py_int (group 1 m)) as [a|e] eqn:E1; cbn [bind].
  2: { apply py_int_raises in E1. subst. simpl. eauto. }
  destruct (py_int (group 2 m)) as [b|e] eqn:E2; cbn [bind].
  2: { apply py_int_raises in E2. subst. simpl. eauto. }
  destruct (py_int (replace _ _ _)) as [c|e] eqn:E3; cbn [bind]; [simpl; eauto|].
  apply py_int_raises in E3. subst. simpl. eauto.
Qed.

Lemma navs_loop_total (navs : list node) : exists w, navs_loop navs = Ret w.
Proof.
  induction navs as [|nav navs IH]; simpl; [eauto|].
  destruct (nav_window_total (get_text nav)) as [[w|] ->]; simpl; eauto.
Qed.

Lemma get_pagination_info_total (html : str) :
  exists w, get_pagination_info lxml html = Ret w.
Proof. apply navs_loop_total. Qed.

Lemma navs_loop_unreadable (navs : list node) :
  (forall nav, In nav navs -> nav_window (get_text nav) = Ret None) ->
  navs_loop navs = Ret (0, 0, 0)%Z.
Proof.
  induction navs as [|nav navs IH]; intros H; simpl; [reflexivity|].
  rewrite (H nav (or_introl eq_refl)). simpl.
  apply IH. intros n Hn. apply H. now right.
Qed.

Section Loop.

Variables (location_slug prop_filter : str) (max_pages limit : option Z).

Abbreviation loop :=
  (pages_loop lxml http_get location_slug prop_filter max_pages limit).

(** Every requested page but the last made the loop go on; a loop that is
    still running went on after all of them; the loop never raises. *)
Lemma pages_loop_trace (fuel : nat) :
  forall page all req,
  exists new,
    requested_of (loop fuel page all req) = (req ++ new)%list /\
    Forall (goes_on lxml http_get) (removelast new) /\
    match loop fuel page all req with
    | StillRunning _ => Forall (goes_on lxml http_get) new
    | Raised _ _ => False
    | Stopped _ _ _ => True
    end.
Proof.
  induction fuel as [|fuel IH]; intros page all req.
  - exists []. simpl. rewrite app_nil_r. repeat split; constructor.
  - cbn [pages_loop].
    destruct (_ && _).
    { exists []. simpl. rewrite app_nil_r. repeat split; constructor. }
    destruct (_ && _).
    { exists []. simpl. rewrite app_nil_r. repeat split; constructor. }
    set (u := _build_list_url location_slug page prop_filter).
    unfold _fetch_page, _get_property_urls_from_page.
    destruct (http_get u) as [html|] eqn:Hget; cbn [got];
      [|exists [u]; simpl; repeat split; constructor].
    destruct (truthy_str html) eqn:Hhtml; cbn [negb];
      [|exists [u]; simpl; repeat split; constructor].
    change (default [] (Some html)) with html.
    destruct (parse_property_cards lxml html) as [|d ds] eqn:Hcards;
      [exists [u]; simpl; repeat split; constructor|].
    destruct (get_pagination_info_total html) as [[[s e] t] Hw]. rewrite Hw.
    destruct (_ || _) eqn:Hlast;
      [exists [u]; simpl; repeat split; constructor|].
    apply orb_false_iff in Hlast as [Hlt _]. apply Z.leb_gt in Hlt.
    assert (Hu : goes_on lxml http_get u) by (exists html, (s, e, t); auto).
    destruct (IH (page + 1)%Z (all ++ d :: ds)%list (req ++ [u])%list)
      as [new [E [F G]]].
    exists (u :: new). rewrite E, <- app_assoc. split; [reflexivity|]. split.
    + destruct new as [|x new]; [constructor|].
      change (removelast (u :: x :: new)) with (u :: removelast (x :: new)).
      now constructor.
    + destruct (loop fuel _ _ _); auto.
Qed.

Lemma nth_error_removelast {A} (l : list A) :
  forall i x, nth_error l i = Some x -> (S i < List.length l)%nat ->
              In x (removelast l).
Proof.
  induction l as [|a l IH]; intros i x Hn Hi; [destruct i; discriminate|].
  destruct l as [|b l]; [simpl in Hi; lia|].
  change (removelast (a :: b :: l)) with (a :: removelast (b :: l)).
  destruct i as [|i]; simpl in Hn.
  - left. congruence.
  - right. apply (IH i); [exact Hn | simpl in *; lia].
Qed.

(** A fetched page whose window does not promise more ends the run. *)
Lemma last_window_ends (fuel : nat) (i : nat) (url_ html : str) (w : Z * Z * Z) :
  let r := loop fuel 1%Z [] [] in
  nth_error (requested_of r) i = Some url_ ->
  http_get url_ = Some html ->
  get_pagination_info lxml html = Ret w ->
  (snd w <= snd (fst w))%Z ->
  S i = List.length (requested_of r) /\
  exists why all, r = Stopped why all (requested_of r).
Proof.
  intros r Hn Hget Hw Hle. subst r.
  destruct (pages_loop_trace fuel 1%Z [] []) as [new [E [F G]]].
  simpl in E. rewrite E in *.
  assert (Hnot : ~ goes_on lxml http_get url_).
  { intros [html' [w' [Hg [Hw' Hlt]]]].
    rewrite Hget in Hg. injection Hg as <-.
    rewrite Hw in Hw'. injection Hw' as <-. lia. }
  assert (Hi : (i < List.length new)%nat)
    by (apply nth_error_Some; congruence).
  split.
  - destruct (Nat.eq_dec (S i) (List.length new)) as [|Hne]; [assumption|].
    exfalso. apply Hnot.
    rewrite List.Forall_forall in F. apply F.
    apply (nth_error_removelast new i); [assumption | lia].
  - destruct (loop fuel 1%Z [] []) as [why all rq|e rq|rq] eqn:Er.
    + simpl in E. subst rq. eauto.
    + contradiction.
    + exfalso. apply Hnot. rewrite List.Forall_forall in G. apply G.
      eapply nth_error_In. exact Hn.
Qed.

(** C2: whatever the page limit, set or not, a fetched page whose window
    (start, end, total) has end >= total is the last page requested, and the
    loop has stopped. *)
Theorem pagination_stops_at_window_end (fuel i : nat) (url_ html : str)
    (start end_ total : Z) :
  let r := loop fuel 1%Z [] [] in
  nth_error (requested_of r) i = Some url_ ->
  http_get url_ = Some html ->
  get_pagination_info lxml html = Ret (start, end_, total) ->
  (end_ >= total)%Z ->
  S i = List.length (requested_of r) /\
  exists why all, r = Stopped why all (requested_of r).
Proof.
  intros r Hn Hget Hw Hge.
  apply (last_window_ends fuel i url_ html (start, end_, total)); auto.
  simpl. lia.
Qed.

(** C9: a page none of whose [nav] texts gives a readable window reports
    (0, 0, 0), and, once fetched, is the last page requested whatever the
    number of cards on it. *)
Theorem unreadable_window_is_last_page (html : str) :
  (forall nav, In nav (find_all "nav" (lxml html)) ->
               nav_window (get_text nav) = Ret None) ->
  get_pagination_info lxml html = Ret (0, 0, 0)%Z /\
  forall (fuel i : nat) (url_ : str),
    let r := loop fuel 1%Z [] [] in
    nth_error (requested_of r) i = Some url_ ->
    http_get url_ = Some html ->
    S i = List.length (requested_of r) /\
    exists why all, r = Stopped why all (requested_of r).
Proof.
  intros H.
  assert (Hw : get_pagination_info lxml html = Ret (0, 0, 0)%Z)
    by (now apply navs_loop_unreadable).
  split; [exact Hw|].
  intros fuel i url_ r Hn Hget.
  apply (last_window_ends fuel i url_ html (0, 0, 0)%Z); auto.
  simpl. lia.
Qed.

End Loop.

Section PageLimit.

Variables (location_slug prop_filter : str) (limit : option Z) (n : Z).
Hypothesis n_positive : (1 <= n)%Z.

Abbreviation loop_n :=
  (pages_loop lxml http_get location_slug prop_filter (Some n) limit).

Lemma limit_armed : truthy_int (Some n) = true.
Proof. simpl. apply negb_true_iff, Z.eqb_neq. lia. Qed.

Lemma pages_loop_bound (fuel : nat) :
  forall page all req,
    (List.length (requested_of (loop_n fuel page all req))
     <= List.length req + Z.to_nat (n + 1 - page))%nat.
Proof.
  induction fuel as [|fuel IH]; intros page all req; [simpl; lia|].
  cbn [pages_loop]. rewrite limit_armed. cbn [andb].
  change (default 0%Z (Some n)) with n.
  destruct (n <? page)%Z eqn:Hpage; [simpl; lia|].
  apply Z.ltb_ge in Hpage.
  destruct (_ && _); [simpl; lia|].
  assert (H1 : forall u : str,
            (List.length (req ++ [u]) <=
             List.length req + Z.to_nat (n + 1 - page))%nat)
    by (intros u; rewrite length_app; simpl; lia).
  destruct (negb _); [apply H1|].
  destruct (_get_property_urls_from_page _ _); [apply H1|].
  destruct (get_pagination_info _ _) as [[[s e] t]|]; [|apply H1].
  destruct (_ || _); [apply H1|].
  etransitivity; [apply IH|]. rewrite length_app. simpl. lia.
Qed.

Lemma pages_loop_ends (fuel : nat) :
  forall page all req,
    (Z.to_nat (n + 1 - page) < fuel)%nat ->
    exists why all' req', loop_n fuel page all req = Stopped why all' req'.
Proof.
  induction fuel as [|fuel IH]; intros page all req Hf; [lia|].
  destruct (pages_loop_trace location_slug prop_filter (Some n) limit
              (S fuel) page all req) as [new [_ [_ Hr]]].
  revert Hr. cbn [pages_loop]. rewrite limit_armed. cbn [andb].
  change (default 0%Z (Some n)) with n.
  destruct (n <? page)%Z eqn:Hpage; [eauto|].
  apply Z.ltb_ge in Hpage.
  destruct (_ && _); [eauto|].
  destruct (negb _); [eauto|].
  destruct (_get_property_urls_from_page _ _); [eauto|].
  destruct (get_pagination_info _ _) as [[[s e] t]|]; [|contradiction].
  destruct (_ || _); [eauto|].
  intros _. apply IH. lia.
Qed.

(** C4 (as amended): with a page limit n >= 1 the loop requests at most n
    listing pages, at any point of its run, and it stops. *)
Theorem max_pages_bounds_requests :
  (forall fuel,
     (Z.of_nat (List.length (requested_of (loop_n fuel 1%Z [] []))) <= n)%Z) /\
  (forall fuel, (Z.to_nat n < fuel)%nat ->
     exists why all req,
       loop_n fuel 1%Z [] [] = Stopped why all req /\
       (Z.of_nat (List.length req) <= n)%Z).
Proof.
  assert (B : forall fuel,
            (Z.of_nat (List.length (requested_of (loop_n fuel 1%Z [] []))) <= n)%Z).
  { intros fuel. pose proof (pages_loop_bound fuel 1%Z [] []) as H.
    simpl List.length in H. lia. }
  split; [exact B|].
  intros fuel Hf.
  destruct (pages_loop_ends fuel 1%Z [] []) as [why [all [req E]]]; [lia|].
  exists why, all, req. split; [exact E|].
  specialize (B fuel). now rewrite E in B.
Qed.

End PageLimit.

(** ** Detail stage *)

Abbreviation worker :=
  (_fetch_property_details uni_alnum lxml str_title http_get clock).

Abbreviation collect :=
  (collect_details uni_alnum lxml str_title http_get clock).

Lemma summary_init (now : str) (prop_data : ListingSummary) :
  exists prop, Property_init now (summary_kwargs prop_data) = Ret prop.
Proof. eexists. vm_compute. reflexivity. Qed.

Lemma worker_fails (prop_data : ListingSummary) :
  detail_fetched http_get prop_data = false ->
  worker prop_data = (prop_data, Ret None).
Proof.
  unfold detail_fetched, _fetch_property_details. intros H.
  destruct (truthy_str (d_url prop_data)); [|reflexivity].
  simpl in H. now rewrite H.
Qed.

Lemma worker_succeeds (prop_data : ListingSummary) :
  detail_fetched http_get prop_data = true ->
  exists prop, snd (worker prop_data) = Ret (Some prop).
Proof.
  unfold detail_fetched, _fetch_property_details. intros H.
  apply andb_true_iff in H as [-> ->]. cbn [negb snd].
  destruct (summary_init (clock (d_url prop_data)) prop_data) as [prop ->].
  cbn [bind]. eauto.
Qed.

Lemma worker_reads_only (prop_data : ListingSummary) :
  fst (worker prop_data) = prop_data.
Proof.
  unfold _fetch_property_details.
  destruct (negb _); [reflexivity|]. now destruct (negb _).
Qed.

Lemma collect_fetched (completed : list ListingSummary) :
  collect completed = collect (List.filter (detail_fetched http_get) completed) /\
  Forall2 (fun prop_data prop => snd (worker prop_data) = Ret (Some prop))
          (List.filter (detail_fetched http_get) completed)
          (collect completed).
Proof.
  induction completed as [|d l [IH1 IH2]]; [split; [reflexivity | constructor]|].
  cbn [collect_details List.filter].
  destruct (detail_fetched http_get d) eqn:Hd.
  - destruct (worker_succeeds d Hd) as [prop Hp].
    cbn [collect_details]. rewrite Hp. split; [now f_equal | now constructor].
  - rewrite (worker_fails d Hd). cbn [snd]. now split.
Qed.

Lemma collect_Permutation (l l' : list ListingSummary) :
  Permutation l l' -> Permutation (collect l) (collect l').
Proof.
  induction 1 as [|x l l' _ IH|x y l|l l' l'' _ IH1 _ IH2];
    cbn [collect_details].
  - constructor.
  - destruct (snd (worker x)) as [[prop|]|e];
      [now constructor | exact IH | exact IH].
  - destruct (snd (worker y)) as [[p|]|e];
      destruct (snd (worker x)) as [[p'|]|e'];
      try reflexivity; apply perm_swap.
  - etransitivity; eassumption.
Qed.

Lemma collect_length (completed : list ListingSummary) :
  (List.length (collect completed) <= List.length completed)%nat.
Proof.
  induction completed as [|d l IH]; simpl; [lia|].
  destruct (snd (worker d)) as [[prop|]|e]; simpl; lia.
Qed.

Lemma basic_properties_total (all : list ListingSummary) :
  exists props,
    basic_properties clock all = Ret props /\
    List.length props = List.length all.
Proof.
  induction all as [|d l [props [E L]]]; simpl; [eauto|].
  unfold basic_property.
  destruct (summary_init (clock (d_url d)) d) as [prop ->]. cbn [bind].
  rewrite E. cbn [bind]. exists (prop :: props). split; [reflexivity | simpl; lia].
Qed.

Abbreviation scrape_here :=
  (scrape uni_alnum lxml str_title http_get clock str_lower).

(** How [scrape] ends once the loop has stopped with [all] collected: with
    the error of an empty thread pool, or with a list. *)
Lemma scrape_cases (max_workers : Z) (location property_type : str)
    (max_pages limit : option Z) (fetch_details : bool)
    (result : outcome (list Property)) :
  scrape_here max_workers location property_type max_pages limit
              fetch_details result ->
  exists fuel why all requested,
    pages_loop lxml http_get (slug_of str_lower location)
               (filter_of property_type) max_pages limit fuel 1%Z [] []
      = Stopped why all requested /\
    ((result = Raise ValueError /\ (max_workers <= 0)%Z /\
      fetch_details = true /\ cut_to limit all <> [])
     \/
     (exists props,
        result = Ret props /\
        ((1 <= max_workers)%Z \/ fetch_details = false \/
         cut_to limit all = []) /\
        (List.length props <= List.length (cut_to limit all))%nat /\
        (fetch_details = true ->
         Permutation props
           (collect (List.filter (detail_fetched http_get) (cut_to limit all)))) /\
        (fetch_details = false ->
         basic_properties clock (cut_to limit all) = Ret props))).
Proof.
  intros [fuel H]. cbv zeta in H.
  destruct (pages_loop_trace (slug_of str_lower location)
              (filter_of property_type) max_pages limit fuel 1%Z [] [])
    as [new [_ [_ Hr]]].
  destruct (pages_loop lxml http_get (slug_of str_lower location)
              (filter_of property_type) max_pages limit fuel 1%Z [] [])
    as [why all req|e' req|req] eqn:El; [|contradiction|contradiction].
  exists fuel, why, all, req. split; [exact El|].
  destruct (basic_properties_total (cut_to limit all)) as [props [Eb Lb]].
  destruct fetch_details; cbn [andb] in H.
  - destruct (cut_to limit all) as [|d kept] eqn:Ek.
    + right. exists []. simpl in H.
      split; [exact H|]. split; [right; right; reflexivity|].
      split; [simpl; lia|]. split; [intros _; constructor | discriminate].
    + cbn [List.length Nat.eqb negb] in H.
      destruct (max_workers <=? 0)%Z eqn:Hw.
      * left. apply Z.leb_le in Hw.
        split; [exact H|]. split; [exact Hw|]. split; [reflexivity|].
        discriminate.
      * right. apply Z.leb_gt in Hw. destruct H as [completed [Hperm ->]].
        exists (collect completed).
        split; [reflexivity|]. split; [left; lia|].
        split; [rewrite <- (Permutation_length Hperm); apply collect_length|].
        split; [|discriminate]. intros _.
        rewrite <- (proj1 (collect_fetched (d :: kept))).
        now apply collect_Permutation.
  - right. exists props. split; [congruence|].
    split; [right; left; reflexivity|]. split; [lia|].
    split; [discriminate | intros _; exact Eb].
Qed.

(** A run of [scrape]: the loop stops within [fuel] iterations and the
    workers complete in the order [completed]. *)
Lemma scrape_run (max_workers : Z) (location property_type : str)
    (max_pages limit : option Z) (fetch_details : bool) (fuel : nat)
    (why : stop_reason) (all completed : list ListingSummary)
    (req : list str) :
  pages_loop lxml http_get (slug_of str_lower location)
             (filter_of property_type) max_pages limit fuel 1%Z [] []
    = Stopped why all req ->
  Permutation completed (cut_to limit all) ->
  scrape_here max_workers location property_type max_pages limit fetch_details
    (if fetch_details && negb (Nat.eqb (List.length (cut_to limit all)) 0)
     then if (max_workers <=? 0)%Z then Raise ValueError
          else Ret (collect completed)
     else basic_properties clock (cut_to limit all)).
Proof.
  intros E P. exists fuel. cbv zeta. rewrite E.
  destruct (fetch_details && _); [|reflexivity].
  destruct (max_workers <=? 0)%Z; [reflexivity|].
  exists completed. split; [exact P | reflexivity].
Qed.

(** C6: a summary whose detail fetch fails yields no record and is itself left
    as it was; the records collected are exactly those of the summaries whose
    fetch succeeded, each built from its own summary, the same as if the
    failed ones had never been submitted. When details are fetched, the list
    that [scrape] returns holds the records of the collected summaries whose
    fetch succeeded, every one of them and nothing else, in the order in
    which the workers complete; [scrape] returns no list only when the pool
    has no worker, where it raises before any detail page is fetched. *)
Theorem detail_failures_dropped :
  (forall prop_data,
     detail_fetched http_get prop_data = false ->
     worker prop_data = (prop_data, Ret None)) /\
  (forall completed,
     Forall2 (fun prop_data prop => snd (worker prop_data) = Ret (Some prop))
             (List.filter (detail_fetched http_get) completed)
             (collect completed)) /\
  (forall completed,
     collect completed =
     collect (List.filter (detail_fetched http_get) completed)) /\
  (forall max_workers location property_type max_pages limit result,
     scrape uni_alnum lxml str_title http_get clock str_lower
            max_workers location property_type max_pages limit true result ->
     exists fuel why all requested,
       pages_loop lxml http_get (slug_of str_lower location)
                  (filter_of property_type) max_pages limit fuel 1%Z [] []
         = Stopped why all requested /\
       ((result = Raise ValueError /\ (max_workers <= 0)%Z /\
         cut_to limit all <> [])
        \/
        (exists props,
           result = Ret props /\
           Permutation props
             (collect (List.filter (detail_fetched http_get)
                                   (cut_to limit all))) /\
           ((1 <= max_workers)%Z \/ cut_to limit all = [])))).
Proof.
  split; [apply worker_fails|].
  split; [apply collect_fetched|]. split; [apply collect_fetched|].
  intros max_workers location property_type max_pages limit result H.
  apply scrape_cases in H
    as (fuel & why & all & req & E &
        [(Hr & Hw & _ & Hk) | (props & Hr & Hw & _ & Hp & _)]);
    exists fuel, why, all, req; (split; [exact E|]).
  - left. split; [exact Hr|]. split; [exact Hw | exact Hk].
  - right. exists props. split; [exact Hr|]. split; [now apply Hp|].
    destruct Hw as [Hw|[Hw|Hw]]; [now left | discriminate | now right].
Qed.

(** ** Detail enricher *)

Lemma field_beq_refl (g : field) : field_beq g g = true.
Proof. now destruct g. Qed.

Lemma keeps_skip (g : field) : keeps g skip.
Proof. intros prop. exists prop. now split. Qed.

Lemma keeps_assign (g f : field) (v : pyval) :
  field_beq g f = false -> keeps g (assign f v).
Proof.
  intros H prop. eexists. split; [reflexivity|]. unfold setattr. now rewrite H.
Qed.

Lemma keeps_andthen (g : field) (s1 s2 : step) :
  keeps g s1 -> keeps g s2 -> keeps g (andthen s1 s2).
Proof.
  intros H1 H2 prop. unfold andthen.
  destruct (H1 prop) as [p1 [-> E1]]. destruct (H2 p1) as [p2 [-> E2]].
  exists p2. split; [reflexivity | congruence].
Qed.

Lemma keeps_when (g : field) (b : bool) (s : step) :
  keeps g s -> keeps g (when b s).
Proof. destruct b; [trivial | intros _; apply keeps_skip]. Qed.

Lemma keeps_calling {A} (g : field) (m : outcome A) (k : A -> step) :
  (exists a, m = Ret a) -> (forall a, keeps g (k a)) -> keeps g (calling m k).
Proof. intros [a ->] H prop. apply H. Qed.

Lemma keeps_try_int (g f : field) (s : str) :
  field_beq g f = false -> keeps g (try_int f s).
Proof.
  intros H prop. unfold try_int.
  destruct (py_int s) as [v|e] eqn:E; [now apply keeps_assign|].
  apply py_int_raises in E. subst. now apply keeps_skip.
Qed.

Lemma keeps_searched_int (g f : field) (r : regex) (t : str) :
  field_beq g f = false -> keeps g (searched_int f r t).
Proof.
  intros H. unfold searched_int.
  destruct (re_search r t); [now apply keeps_try_int | apply keeps_skip].
Qed.

Lemma keeps_chain (g : field) (ss : list step) :
  Forall (keeps g) ss -> keeps g (chain ss).
Proof.
  induction 1; simpl; [apply keeps_skip | now apply keeps_andthen].
Qed.

Lemma keeps_chain_map {A} (g : field) (f : A -> step) (l : list A) :
  (forall x, keeps g (f x)) -> keeps g (chain (List.map f l)).
Proof.
  intros H. apply keeps_chain. induction l; simpl; constructor; auto.
Qed.

Lemma puts_assign (g : field) (v : pyval) : puts g v (assign g v).
Proof.
  intros prop. eexists. split; [reflexivity|].
  unfold setattr. now rewrite field_beq_refl.
Qed.

Lemma puts_here (g : field) (v : pyval) (s rest : step) :
  puts g v s -> keeps g rest -> puts g v (andthen s rest).
Proof.
  intros H1 H2 prop. unfold andthen.
  destruct (H1 prop) as [p1 [-> E1]]. destruct (H2 p1) as [p2 [-> E2]].
  exists p2. split; [reflexivity | congruence].
Qed.

Lemma puts_later (g' g : field) (v : pyval) (s rest : step) :
  keeps g' s -> puts g v rest -> puts g v (andthen s rest).
Proof.
  intros H1 H2 prop. unfold andthen.
  destruct (H1 prop) as [p1 [-> _]]. apply H2.
Qed.

Lemma puts_head (g : field) (v : pyval) (s : step) (ss : list step) :
  puts g v s -> Forall (keeps g) ss -> puts g v (chain (s :: ss)).
Proof. intros H1 H2. apply puts_here; [exact H1 | now apply keeps_chain]. Qed.

Lemma puts_tail (g' g : field) (v : pyval) (s : step) (ss : list step) :
  keeps g' s -> puts g v (chain ss) -> puts g v (chain (s :: ss)).
Proof. intros H1 H2. now apply puts_later with g'. Qed.

Lemma puts_chain_app (g' g : field) (v : pyval) (l1 l2 : list step) (s : step) :
  Forall (keeps g') l1 -> puts g v s -> keeps g (chain l2) ->
  puts g v (chain (l1 ++ s :: l2)).
Proof.
  intros H1 H2 H3. induction H1; simpl.
  - now apply puts_here.
  - now apply puts_later with g'.
Qed.

Create HintDb totals.

#[local] Hint Resolve parse_price_total parse_area_total parse_rooms_total
  parse_bedrooms_total parse_year_total : totals.

Ltac frame :=
  lazymatch goal with
  | |- keeps _ skip => apply keeps_skip
  | |- keeps _ (when false _) => apply keeps_skip
  | |- keeps _ (assign _ _) => apply keeps_assign; (assumption || reflexivity)
  | |- keeps _ (andthen _ _) => apply keeps_andthen; frame
  | |- keeps _ (when _ _) => apply keeps_when; frame
  | |- keeps _ (calling _ _) =>
    apply keeps_calling; [solve [eauto with totals] | intros ?; frame]
  | |- keeps _ (try_int _ _) => apply keeps_try_int; reflexivity
  | |- keeps _ (searched_int _ _ _) => apply keeps_searched_int; reflexivity
  | |- keeps _ (match ?x with _ => _ end) => destruct x; frame
  end.

Ltac frame_all := apply keeps_chain; repeat constructor; frame.

(** The statements for one item leave a field alone unless the item carries
    the label of that field. *)
Lemma item_keeps (g : field) (t : str) :
  match g with
  | living_area => has "Woonoppervlakte" t = false
  | plot_size => has "Perceeloppervlakte" t = false
  | rooms => has "Aantal kamers" t = false
  | province => True
  | _ => False
  end ->
  keeps g (chain (item_steps uni_alnum t)).
Proof.
  destruct g; intros H; try contradiction; unfold item_steps;
    try rewrite H; frame_all.
Qed.

Lemma item_puts_living_area (t : str) (v : option Z) :
  has "Woonoppervlakte" t = true -> parse_area t = Ret v ->
  puts living_area (of_int v) (chain (item_steps uni_alnum t)).
Proof.
  intros H E. unfold item_steps. rewrite H, E.
  do 14 (apply puts_tail with living_area; [frame|]).
  apply puts_head; [apply puts_assign | repeat constructor; frame].
Qed.

Lemma item_puts_plot_size (t : str) (v : option Z) :
  has "Perceeloppervlakte" t = true -> parse_area t = Ret v ->
  puts plot_size (of_int v) (chain (item_steps uni_alnum t)).
Proof.
  intros H E. unfold item_steps. rewrite H, E.
  do 15 (apply puts_tail with plot_size; [frame|]).
  apply puts_head; [apply puts_assign | repeat constructor; frame].
Qed.

Lemma item_puts_rooms (t : str) (v : option Z) :
  has "Aantal kamers" t = true -> parse_rooms t = Ret v ->
  puts rooms (of_int v) (chain (item_steps uni_alnum t)).
Proof.
  intros H E. unfold item_steps. rewrite H, E.
  do 17 (apply puts_tail with rooms; [frame|]).
  apply puts_head; [|repeat constructor; frame].
  apply puts_here; [apply puts_assign | frame].
Qed.

Abbreviation detail := (parse_detail_page uni_alnum lxml str_title).

(** The value an item leaves in a field survives the rest of the page when no
    later item carries the label of the field. *)
Lemma page_puts (g : field) (v : pyval) (html : str) (prop : Property)
    (before after : list node) (item : node) :
  field_beq g title = false -> field_beq g description = false ->
  field_beq g agent_name = false -> field_beq g agent_url = false ->
  field_beq g city = false -> field_beq g postal_code = false ->
  find_all "li" (lxml html) = (before ++ item :: after)%list ->
  puts g v (item_step uni_alnum item) ->
  Forall (fun later => keeps g (item_step uni_alnum later)) after ->
  detail html prop g = v.
Proof.
  intros Ht Hd Han Hau Hc Hp Hli Hitem Hafter.
  unfold parse_detail_page. rewrite Hli.
  match goal with
  | |- match ?s prop with _ => _ end g = v =>
    assert (P : puts g v s); [|destruct (P prop) as [p' [-> E]]; exact E]
  end.
  cbn [chain].
  apply puts_later with province.
  { unfold title_step. frame. }
  apply puts_here.
  - rewrite List.map_app. cbn [List.map].
    apply puts_chain_app with province; auto.
    + apply List.Forall_map, List.Forall_forall. intros x _.
      now apply item_keeps.
    + apply keeps_chain, List.Forall_map. exact Hafter.
  - repeat apply keeps_andthen; try apply keeps_skip.
    + unfold description_step. frame.
    + unfold agent_step. frame.
    + unfold breadcrumb_step. destruct (find_breadcrumb _); [|apply keeps_skip].
      apply keeps_chain_map. intros link. unfold breadcrumb_link_step.
      cbv zeta. frame.
    + unfold postal_step. frame.
Qed.

(** C10 (as amended): when the last item carrying "Woonoppervlakte" yields no
    area, the living area of the enriched record is absent, whatever the
    summary stage had stored; likewise the plot size under
    "Perceeloppervlakte" and the room count under "Aantal kamers". *)
Theorem unparsed_item_clears_field (html : str) (prop : Property)
    (before after : list node) (item : node) :
  find_all "li" (lxml html) = (before ++ item :: after)%list ->
  (has "Woonoppervlakte" (item_text item) = true ->
   parse_area (item_text item) = Ret None ->
   Forall (fun later => has "Woonoppervlakte" (item_text later) = false) after ->
   detail html prop living_area = VNone) /\
  (has "Perceeloppervlakte" (item_text item) = true ->
   parse_area (item_text item) = Ret None ->
   Forall (fun later => has "Perceeloppervlakte" (item_text later) = false) after ->
   detail html prop plot_size = VNone) /\
  (has "Aantal kamers" (item_text item) = true ->
   parse_rooms (item_text item) = Ret None ->
   Forall (fun later => has "Aantal kamers" (item_text later) = false) after ->
   detail html prop rooms = VNone).
Proof.
  intros Hli. repeat split; intros H E F.
  - apply (page_puts living_area VNone html prop before after item); auto.
    + now apply (item_puts_living_area _ None).
    + eapply List.Forall_impl; [|exact F]. intros x Hx.
      now apply (item_keeps living_area).
  - apply (page_puts plot_size VNone html prop before after item); auto.
    + now apply (item_puts_plot_size _ None).
    + eapply List.Forall_impl; [|exact F]. intros x Hx.
      now apply (item_keeps plot_size).
  - apply (page_puts rooms VNone html prop before after item); auto.
    + now apply (item_puts_rooms _ None).
    + eapply List.Forall_impl; [|exact F]. intros x Hx.
      now apply (item_keeps rooms).
Qed.

(** ** Further properties of the extractors *)

Lemma decimal_in_lt (zs : list N) (c : char) (d : N) :
  decimal_in zs c = Some d -> d < 10.
Proof.
  induction zs as [|z zs IH]; simpl; [discriminate|].
  destruct ((z <=? c) && (c <? z + 10)) eqn:E; [|exact IH].
  apply andb_true_iff in E as [E1 E2].
  apply N.leb_le in E1. apply N.ltb_lt in E2.
  intros [= <-]. lia.
Qed.

Lemma decimal_value_lt (c : char) (d : N) : decimal_value c = Some d -> d < 10.
Proof. apply decimal_in_lt. Qed.

Lemma int_digits_nonneg (s : str) :
  forall acc v, (0 <= acc)%Z -> int_digits acc s = Some v -> (0 <= v)%Z.
Proof.
  induction s as [|c s IH]; intros acc v Hacc; simpl.
  - intros [= <-]. exact Hacc.
  - destruct (decimal_value c) as [d|]; [|discriminate].
    apply IH. lia.
Qed.

Lemma py_int_nonneg (s : str) (v : Z) : py_int s = Ret v -> (0 <= v)%Z.
Proof.
  unfold py_int. destruct s as [|c s]; [discriminate|].
  destruct (int_digits 0 (c :: s)) as [z|] eqn:E; [|discriminate].
  intros [= <-]. eapply int_digits_nonneg; [|exact E]. lia.
Qed.

Lemma int_of_group1_nonneg (m : option captures) (v : option Z) :
  int_of_group1 m = Ret v -> at_least 0 v.
Proof.
  destruct m as [m|]; simpl; [|intros [= <-]; exact I].
  destruct (py_int (group 1 m)) as [z|e] eqn:E; simpl.
  - intros [= <-]. simpl. eapply py_int_nonneg; eauto.
  - destruct e; [intros [= <-]; exact I | discriminate].
Qed.

Lemma parse_price_nonneg (t : str) (v : option Z) (q : str) :
  parse_price t = Ret (v, q) -> at_least 0 v.
Proof.
  unfold parse_price. destruct (negb (truthy_str t)); [intros [= <- _]; exact I|].
  destruct (re_search price_re _) as [m|]; [|intros [= <- _]; exact I].
  destruct (py_int _) as [z|e] eqn:E; simpl.
  - intros [= <- _]. simpl. eapply py_int_nonneg; eauto.
  - destruct e; [intros [= <- _]; exact I | discriminate].
Qed.

Lemma parse_area_nonneg (t : str) (v : option Z) :
  parse_area t = Ret v -> at_least 0 v.
Proof.
  unfold parse_area. destruct (negb (truthy_str t)); [intros [= <-]; exact I|].
  apply int_of_group1_nonneg.
Qed.

Lemma parse_rooms_nonneg (t : str) (v : option Z) :
  parse_rooms t = Ret v -> at_least 0 v.
Proof.
  unfold parse_rooms. destruct (negb (truthy_str t)); [intros [= <-]; exact I|].
  apply int_of_group1_nonneg.
Qed.

Lemma parse_bedrooms_nonneg (t : str) (v : option Z) :
  parse_bedrooms t = Ret v -> at_least 0 v.
Proof.
  unfold parse_bedrooms. destruct (negb (truthy_str t)); [intros [= <-]; exact I|].
  apply int_of_group1_nonneg.
Qed.

(** X1: whatever the text, a price, an area, a room count or a bedroom count
    that is extracted is never negative. *)
Theorem extracted_numbers_nonnegative (t : str) (z : Z) :
  (forall q, parse_price t = Ret (Some z, q) -> (0 <= z)%Z) /\
  (parse_area t = Ret (Some z) -> (0 <= z)%Z) /\
  (parse_rooms t = Ret (Some z) -> (0 <= z)%Z) /\
  (parse_bedrooms t = Ret (Some z) -> (0 <= z)%Z).
Proof.
  repeat split.
  - intros q H. exact (parse_price_nonneg _ _ _ H).
  - intros H. exact (parse_area_nonneg _ _ H).
  - intros H. exact (parse_rooms_nonneg _ _ H).
  - intros H. exact (parse_bedrooms_nonneg _ _ H).
Qed.

(** The capture of a match of the year pattern: "19" or "20" and two
    decimal digits. *)
Lemma year_match_shape (cur : cursor) (m : captures) :
  match_here (year_re uni_alnum) cur = Some m ->
  exists a b c1 c2,
    group 1 m = [a; b; c1; c2] /\
    ((a = 49 /\ b = 57) \/ (a = 50 /\ b = 48)) /\
    is_decimal c1 = true /\ is_decimal c2 = true.
Proof.
  destruct cur as [i pv s]. unfold match_here, year_re.
  change (rtext "19") with (RSeq (RChar (N.eqb 49)) (RChar (N.eqb 57))).
  change (rtext "20") with (RSeq (RChar (N.eqb 50)) (RChar (N.eqb 48))).
  cbn [rseq rmatch pos prev rest].
  destruct (xorb _ _); [|discriminate].
  replace (S (S (S (S i))) - i)%nat with 4%nat by lia.
  destruct s as [|a [|b [|c1 [|c2 s]]]];
    try (repeat match goal with
                | |- context [if ?c then _ else _] => destruct c
                end; discriminate).
  destruct (49 =? a) eqn:A1; destruct (50 =? a) eqn:A2;
    destruct (57 =? b) eqn:B1; destruct (48 =? b) eqn:B2;
    destruct (digit c1) eqn:D1; destruct (digit c2) eqn:D2;
    try discriminate;
    destruct (xorb _ _); try discriminate;
    intros [= <-]; exists a, b, c1, c2;
    (split; [reflexivity|]); (split; [|split; assumption]);
    repeat match goal with
           | H : (_ =? _) = true |- _ => apply N.eqb_eq in H
           end; subst; auto.
Qed.

Lemma year_search_shape (s : str) :
  forall i pv m,
    search_from (year_re uni_alnum) i pv s = Some m ->
    exists a b c1 c2,
      group 1 m = [a; b; c1; c2] /\
      ((a = 49 /\ b = 57) \/ (a = 50 /\ b = 48)) /\
      is_decimal c1 = true /\ is_decimal c2 = true.
Proof.
  induction s as [|c s IH]; intros i pv m; cbn [search_from];
    destruct (match_here (year_re uni_alnum) _) as [m'|] eqn:E.
  - intros [= <-]. eapply year_match_shape; eauto.
  - discriminate.
  - intros [= <-]. eapply year_match_shape; eauto.
  - apply IH.
Qed.

Lemma parse_year_in_range (t : str) (y : Z) :
  parse_year uni_alnum t = Ret (Some y) -> (1900 <= y <= 2099)%Z.
Proof.
  unfold parse_year. destruct (negb (truthy_str t)); [discriminate|].
  destruct (re_search (year_re uni_alnum) t) as [m|] eqn:E; [|discriminate].
  apply year_search_shape in E as (a & b & c1 & c2 & G & Hab & D1 & D2).
  cbn [int_of_group1]. rewrite G.
  unfold is_decimal in D1, D2.
  destruct (decimal_value c1) as [d1|] eqn:V1; [|discriminate].
  destruct (decimal_value c2) as [d2|] eqn:V2; [|discriminate].
  apply decimal_value_lt in V1 as L1. apply decimal_value_lt in V2 as L2.
  unfold py_int. cbn [int_digits].
  destruct Hab as [[-> ->]|[-> ->]];
    change (decimal_value 49) with (Some 1); change (decimal_value 57) with (Some 9);
    change (decimal_value 50) with (Some 2); change (decimal_value 48) with (Some 0);
    cbn iota; rewrite V1, V2; cbn [bind try_except_ValueError];
    intros [= <-]; lia.
Qed.

(** X2: a year that is extracted lies between 1900 and 2099. *)
Theorem parse_year_range (t : str) (y : Z) :
  parse_year uni_alnum t = Ret (Some y) -> (1900 <= y <= 2099)%Z.
Proof. apply parse_year_in_range. Qed.

(** *** The shape of listing identifiers *)

Lemma split_no_sep (sep : char) (s : str) :
  Forall (fun part => ~ In sep part) (split sep s).
Proof.
  induction s as [|c s IH]; simpl.
  - constructor; [intros [] | constructor].
  - destruct (c =? sep) eqn:E.
    + constructor; [intros [] | exact IH].
    + apply N.eqb_neq in E.
      destruct (split sep s) as [|h t]; [repeat constructor; intros [H|[]]; auto|].
      inversion IH; subst. constructor; [|assumption].
      intros [H|H]; auto.
Qed.

Lemma join_no_char (c : char) (sep : str) (parts : list str) :
  ~ In c sep -> Forall (fun part => ~ In c part) parts -> ~ In c (join sep parts).
Proof.
  intros Hsep. induction 1 as [|p ps Hp _ IH]; simpl; [auto|].
  destruct ps as [|q ps]; [exact Hp|].
  intros H. apply in_app_or in H as [H|H]; [auto|].
  apply in_app_or in H as [H|H]; auto.
Qed.

Lemma Forall_firstn {A} (P : A -> Prop) (n : nat) (l : list A) :
  Forall P l -> Forall P (firstn n l).
Proof.
  intros H. revert n. induction H; intros [|n]; simpl; constructor; auto.
Qed.

Lemma Forall_filter_keep {A} (P : A -> Prop) (f : A -> bool) (l : list A) :
  Forall P l -> Forall P (List.filter f l).
Proof.
  induction 1; simpl; [constructor|]. destruct (f x); auto.
Qed.

Lemma listing_id_no_slash (url_ : str) :
  ~ In (chr "/") (extract_listing_id url_).
Proof.
  unfold extract_listing_id.
  destruct (negb (truthy_str url_)); [intros []|].
  destruct (4 <=? _)%nat.
  - apply join_no_char; [intros [H|[]]; discriminate|].
    apply Forall_firstn, Forall_filter_keep, split_no_sep.
  - change (lit "/") with [chr "/"]. change (lit "-") with [chr "-"].
    rewrite replace_char. intros H. apply in_map_iff in H as [c [Hc _]].
    destruct (c =? chr "/") eqn:E; [discriminate|].
    apply N.eqb_neq in E. congruence.
Qed.

Lemma not_In_contains (c : char) (s : str) : ~ In c s -> contains [c] s = false.
Proof.
  induction s as [|x s IH]; intros H; [reflexivity|].
  cbn [contains startswith]. rewrite andb_true_r.
  destruct (c =? x) eqn:E.
  - apply N.eqb_eq in E. subst. exfalso. apply H. now left.
  - apply IH. intros Hs. apply H. now right.
Qed.

(** X3: a listing identifier never holds a "/". *)
Theorem listing_id_has_no_slash (url_ : str) :
  contains (lit "/") (extract_listing_id url_) = false.
Proof. apply (not_In_contains (chr "/")), listing_id_no_slash. Qed.

Lemma startswith_In (old s : str) (c : char) :
  startswith old s = true -> In c old -> In c s.
Proof.
  revert s. induction old as [|o old IH]; intros s H Hc; [destruct Hc|].
  destruct s as [|x s]; [discriminate|].
  simpl in H. apply andb_true_iff in H as [H1 H2]. apply N.eqb_eq in H1. subst x.
  destruct Hc as [<-|Hc]; [now left | right; eauto].
Qed.

Lemma contains_In (old s : str) (c : char) :
  contains old s = true -> In c old -> In c s.
Proof.
  induction s as [|x s IH]; cbn [contains]; intros H Hc.
  - rewrite orb_false_r in H. eapply startswith_In; eauto.
  - apply orb_true_iff in H as [H|H]; [eapply startswith_In; eauto|].
    right. auto.
Qed.

Lemma lstrip_by_none (p : char -> bool) (s : str) :
  Forall (fun c => p c = false) s -> lstrip_by p s = s.
Proof. destruct 1 as [|c s Hc _]; simpl; [reflexivity | now rewrite Hc]. Qed.

Lemma strip_by_none (p : char -> bool) (s : str) :
  Forall (fun c => p c = false) s -> strip_by p s = s.
Proof.
  intros H. unfold strip_by. rewrite (lstrip_by_none p s H).
  rewrite lstrip_by_none; [apply rev_involutive | now apply List.Forall_rev].
Qed.

Lemma split_none (sep : char) (s : str) : ~ In sep s -> split sep s = [s].
Proof.
  induction s as [|c s IH]; intros H; simpl; [reflexivity|].
  destruct (c =? sep) eqn:E.
  - apply N.eqb_eq in E. subst. exfalso. apply H. now left.
  - rewrite IH; [reflexivity | intros Hs; apply H; now right].
Qed.

Lemma map_id_no_char (a b : char) (s : str) :
  ~ In a s -> List.map (fun c => if c =? a then b else c) s = s.
Proof.
  induction s as [|c s IH]; intros H; simpl; [reflexivity|].
  destruct (c =? a) eqn:E.
  - apply N.eqb_eq in E. subst. exfalso. apply H. now left.
  - f_equal. apply IH. intros Hs. apply H. now right.
Qed.

(** A text without "/" is its own identifier. *)
Lemma listing_id_fixed (r : str) :
  ~ In (chr "/") r -> extract_listing_id r = r.
Proof.
  intros H. unfold extract_listing_id.
  destruct r as [|c r]; [reflexivity|]. cbn [truthy_str negb].
  assert (Hb : replace BASE_URL (lit "") (c :: r) = c :: r).
  { apply replace_absent. destruct (contains BASE_URL (c :: r)) eqn:E; [|reflexivity].
    exfalso. apply H. eapply contains_In; [exact E|].
    do 6 right. left. reflexivity. }
  rewrite Hb.
  assert (Hs : strip_chars (lit "/") (c :: r) = c :: r).
  { apply strip_by_none. eapply List.Forall_impl;
      [|apply List.Forall_forall; intros x Hx; exact Hx].
    intros x Hx. simpl. rewrite orb_false_r. apply N.eqb_neq.
    intros ->. contradiction. }
  rewrite Hs, (split_none _ _ H). cbn [List.filter truthy_str List.length Nat.leb].
  change (lit "/") with [chr "/"]. change (lit "-") with [chr "-"].
  rewrite replace_char. now apply map_id_no_char.
Qed.

(** X4: taking the identifier of an identifier changes nothing. *)
Theorem listing_id_idempotent (url_ : str) :
  extract_listing_id (extract_listing_id url_) = extract_listing_id url_.
Proof. apply listing_id_fixed, listing_id_no_slash. Qed.

Lemma startswith_app (old s : str) : startswith old (old ++ s) = true.
Proof.
  induction old as [|c old IH]; simpl; [reflexivity|].
  now rewrite N.eqb_refl.
Qed.

Lemma replace_from_skip (old new l s : str) :
  replace_from old new (List.length l) (l ++ s) = replace_from old new 0 s.
Proof.
  induction l as [|c l IH]; [reflexivity|]. simpl. exact IH.
Qed.

Lemma replace_prefix (old new s : str) :
  old <> [] -> replace old new (old ++ s) = (new ++ replace old new s)%list.
Proof.
  intros Hne. destruct old as [|c old]; [congruence|].
  unfold replace. change ((c :: old) ++ s)%list with (c :: (old ++ s))%list.
  cbn [replace_from].
  change (c :: (old ++ s))%list with ((c :: old) ++ s)%list.
  rewrite startswith_app. cbn [List.length Nat.pred].
  now rewrite replace_from_skip.
Qed.

(** X5: the absolute URL of a listing and its path give the same identifier,
    when the path does not itself hold the base URL. *)
Theorem listing_id_of_absolute_url (path : str) :
  contains BASE_URL path = false ->
  extract_listing_id (BASE_URL ++ path) = extract_listing_id path.
Proof.
  intros H. unfold extract_listing_id.
  rewrite replace_prefix by discriminate.
  rewrite (replace_absent _ _ _ H). cbn [lit app].
  change (utf8_decode (List.map N_of_ascii (list_ascii_of_string ""))) with (@nil char).
  cbn [app].
  destruct path as [|c path]; reflexivity.
Qed.

(** ** What every card summary satisfies *)

Lemma head_filter_true {A} (f : A -> bool) (l : list A) (x : A) :
  head (List.filter f l) = Some x -> f x = true.
Proof.
  induction l as [|a l IH]; simpl; [discriminate|].
  destruct (f a) eqn:E; [intros [= <-]; exact E | exact IH].
Qed.

Lemma parse_price_qualifier (t : str) (v : option Z) (q : str) :
  parse_price t = Ret (v, q) ->
  q = lit "" \/ q = lit "k.k." \/ q = lit "v.o.n.".
Proof.
  unfold parse_price. destruct (negb (truthy_str t)); [intros [= _ <-]; auto|].
  set (pt := if contains (lit "k.k.") (lower t) then _ else _).
  assert (Hpt : pt = lit "" \/ pt = lit "k.k." \/ pt = lit "v.o.n.").
  { subst pt. destruct (contains (lit "k.k.") _); auto.
    destruct (contains (lit "v.o.n.") _); auto. }
  destruct (re_search price_re _) as [m|]; [|intros [= _ <-]; exact Hpt].
  destruct (py_int _) as [z|e]; simpl.
  - intros [= _ <-]. exact Hpt.
  - destruct e; [intros [= _ <-]; exact Hpt | discriminate].
Qed.

Lemma truthy_at_least_1 (v : option Z) :
  at_least 0 v -> truthy_int v = true -> at_least 1 v.
Proof.
  destruct v as [z|]; simpl; [|trivial].
  intros H0 Hz. apply negb_true_iff, Z.eqb_neq in Hz. lia.
Qed.

Lemma card_areas_positive (area_matches : list str) :
  forall i living plot r,
    at_least 1 living -> at_least 1 plot ->
    card_areas i area_matches living plot = Ret r ->
    at_least 1 (fst r) /\ at_least 1 (snd r).
Proof.
  induction area_matches as [|t l IH]; intros i living plot r Hl Hp; simpl.
  - intros [= <-]. now split.
  - destruct (parse_area t) as [v|e] eqn:E; [|discriminate]. simpl.
    apply parse_area_nonneg in E.
    destruct (truthy_int v) eqn:Hv; [|now apply IH].
    pose proof (truthy_at_least_1 v E Hv) as Hv1.
    destruct (Nat.eqb i 0); [now apply IH|].
    destruct (_ || _); now apply IH.
Qed.

(** X6: every summary the card parser builds carries an absolute URL, the
    base URL followed by the link of the card, which begins with "/"; its
    identifier is the one of that link. *)
Theorem card_summary_url (article : node) (summary : ListingSummary) :
  parse_card article = Ret (Some summary) ->
  exists href,
    d_url summary = (BASE_URL ++ chr "/" :: href)%list /\
    d_listing_id summary = extract_listing_id (chr "/" :: href).
Proof.
  unfold parse_card.
  destruct (found (find_string ad_re article)); [discriminate|].
  destruct (find_href "a" link_re article) as [link|] eqn:El; [|discriminate].
  apply head_filter_true in El. apply andb_true_iff in El as [_ El].
  unfold attr_or_empty. destruct (attr "href" link) as [v|]; [|discriminate].
  apply link_re_slash in El as [href ->].
  change (negb (truthy_str (chr "/" :: href))
          || startswith (lit "http") (chr "/" :: href)) with false.
  cbv iota.
  match goal with |- context [bind ?m _] => destruct m; [|discriminate] end.
  cbn [bind].
  match goal with |- context [bind ?m _] => destruct m; [|discriminate] end.
  cbn [bind].
  match goal with |- context [bind ?m _] => destruct m; [|discriminate] end.
  cbn [bind]. intros [= <-]. exists href. split; reflexivity.
Qed.

Lemma card_summary_checked (article : node) (summary : ListingSummary) :
  parse_card article = Ret (Some summary) ->
  summary_ok summary /\
  (d_price_type summary = lit "" \/ d_price_type summary = lit "k.k." \/
   d_price_type summary = lit "v.o.n.") /\
  (d_value_comparison summary = lit "" \/
   In (d_value_comparison summary) (List.map lit value_phrases)).
Proof.
  unfold parse_card.
  destruct (found (find_string ad_re article)); [discriminate|].
  destruct (find_href "a" link_re article) as [link|]; [|discriminate].
  destruct (_ || _); [discriminate|].
  match goal with
  | |- context [bind ?m _] => destruct m as [[pv pq]|] eqn:Ep; [|discriminate]
  end.
  cbn [bind].
  match goal with
  | |- context [bind ?m _] => destruct m as [[la ps]|] eqn:Ea; [|discriminate]
  end.
  cbn [bind].
  match goal with
  | |- context [bind ?m _] => destruct m as [rv|] eqn:Er; [|discriminate]
  end.
  cbn [bind]. intros [= <-]. cbn [d_price d_price_type d_living_area d_plot_size
                                  d_rooms d_value_comparison fst snd].
  assert (Hp : at_least 0 pv /\
               (pq = lit "" \/ pq = lit "k.k." \/ pq = lit "v.o.n.")).
  { destruct (found (find_string price_text_re article)).
    - split; [eapply parse_price_nonneg | eapply parse_price_qualifier]; eauto.
    - injection Ep as <- <-. split; [exact I | auto]. }
  apply card_areas_positive in Ea as [Hla Hps]; [|exact I|exact I].
  assert (Hr : at_least 0 rv).
  { destruct (found (find_string rooms_text_re article)).
    - eapply parse_rooms_nonneg; eauto.
    - injection Er as <-. exact I. }
  destruct Hp as [Hp Hq].
  split; [repeat split; assumption|]. split; [exact Hq|].
  repeat match goal with
         | |- context [found ?x] => destruct (found x)
         end;
    first [now left | right; simpl; auto].
Qed.

(** X7: in every summary the card parser builds, the price and the room
    count are absent or non-negative, the two areas are absent or at least 1,
    the qualifier is "", "k.k." or "v.o.n.", and the value comparison is ""
    or one of the three phrases. *)
Theorem card_summary_values (article : node) (summary : ListingSummary) :
  parse_card article = Ret (Some summary) ->
  summary_ok summary /\
  (d_price_type summary = lit "" \/ d_price_type summary = lit "k.k." \/
   d_price_type summary = lit "v.o.n.") /\
  (d_value_comparison summary = lit "" \/
   In (d_value_comparison summary) (List.map lit value_phrases)).
Proof. apply card_summary_checked. Qed.

(** ** Further properties of the pagination loop *)

Section LoopMore.

Variables (location_slug prop_filter : str) (max_pages limit : option Z).

Abbreviation run_loop :=
  (pages_loop lxml http_get location_slug prop_filter max_pages limit).

Lemma page_urls_next (page : Z) (k : nat) :
  (_build_list_url location_slug page prop_filter
     :: page_urls location_slug prop_filter (page + 1) k)
  = page_urls location_slug prop_filter page (S k).
Proof.
  unfold page_urls. cbn [seq List.map]. rewrite Z.add_0_r. f_equal.
  rewrite <- seq_shift, List.map_map. apply List.map_ext.
  intros j. f_equal. lia.
Qed.

(** X8: the listing pages are requested in order and without gaps: the URLs
    handed to the transport are those of pages 1, 2, ..., k. *)
Theorem pages_requested_in_order (fuel : nat) :
  exists k, (k <= fuel)%nat /\
    requested_of (run_loop fuel 1%Z [] [])
    = page_urls location_slug prop_filter 1 k.
Proof.
  assert (G : forall fuel page all req,
            exists k, (k <= fuel)%nat /\
              requested_of (run_loop fuel page all req)
              = (req ++ page_urls location_slug prop_filter page k)%list).
  { clear fuel. induction fuel as [|fuel IH]; intros page all req.
    - exists 0%nat. split; [lia | simpl; now rewrite app_nil_r].
    - cbn [pages_loop].
      assert (H0 : exists k, (k <= S fuel)%nat /\
                req = (req ++ page_urls location_slug prop_filter page k)%list)
        by (exists 0%nat; split; [lia | simpl; now rewrite app_nil_r]).
      assert (H1 : exists k, (k <= S fuel)%nat /\
                (req ++ [_build_list_url location_slug page prop_filter])%list
                = (req ++ page_urls location_slug prop_filter page k)%list).
      { exists 1%nat. split; [lia|]. rewrite <- page_urls_next. reflexivity. }
      destruct (_ && _); [exact H0|].
      destruct (_ && _); [exact H0|].
      destruct (negb _); [exact H1|].
      destruct (_get_property_urls_from_page _ _) as [|d ds]; [exact H1|].
      destruct (get_pagination_info _ _) as [[[s e] t]|]; [|exact H1].
      destruct (_ || _); [exact H1|].
      destruct (IH (page + 1)%Z
                   (all ++ d :: ds)%list
                   (req ++ [_build_list_url location_slug page prop_filter])%list)
        as [k [Hk E]].
      exists (S k). split; [lia|].
      rewrite E, <- app_assoc, <- page_urls_next. reflexivity. }
  destruct (G fuel 1%Z [] []) as [k [Hk E]]. exists k. split; [exact Hk | exact E].
Qed.

(** X9: when the loop stops, the summaries it has collected are the cards of
    the requested pages, page after page; a page that could not be fetched,
    or came back empty, contributes none. *)
Theorem collected_cards_of_requested_pages (fuel : nat) (why : stop_reason)
    (all : list ListingSummary) (requested : list str) :
  run_loop fuel 1%Z [] [] = Stopped why all requested ->
  all = concat (List.map (cards_of lxml http_get) requested).
Proof.
  assert (G : forall fuel page all0 req0 why all req,
            run_loop fuel page all0 req0 = Stopped why all req ->
            exists new, req = (req0 ++ new)%list /\
              all = (all0 ++ concat (List.map (cards_of lxml http_get) new))%list).
  { clear. induction fuel as [|fuel IH]; intros page all0 req0 why all req;
      [discriminate|].
    cbn [pages_loop].
    destruct (_ && _);
      [intros [= _ <- <-]; exists []; simpl; now rewrite !app_nil_r|].
    destruct (_ && _);
      [intros [= _ <- <-]; exists []; simpl; now rewrite !app_nil_r|].
    set (u := _build_list_url location_slug page prop_filter).
    unfold _fetch_page, _get_property_urls_from_page.
    destruct (http_get u) as [html|] eqn:Hget; cbn [got negb].
    2: { intros [= _ <- <-]. exists [u]. split; [reflexivity|].
         simpl. unfold cards_of. rewrite Hget. now rewrite !app_nil_r. }
    destruct (truthy_str html) eqn:Hhtml; cbn [negb].
    2: { intros [= _ <- <-]. exists [u]. split; [reflexivity|].
         simpl. unfold cards_of. rewrite Hget, Hhtml. now rewrite !app_nil_r. }
    change (default [] (Some html)) with html.
    assert (Hc : cards_of lxml http_get u = parse_property_cards lxml html)
      by (unfold cards_of; now rewrite Hget, Hhtml).
    destruct (parse_property_cards lxml html) as [|d ds] eqn:Hcards.
    { intros [= _ <- <-]. exists [u]. split; [reflexivity|].
      simpl. rewrite Hc. now rewrite !app_nil_r. }
    destruct (get_pagination_info lxml html) as [[[s e] t]|]; [|discriminate].
    destruct (_ || _).
    { intros [= _ <- <-]. exists [u]. split; [reflexivity|].
      simpl. rewrite Hc. now rewrite app_nil_r. }
    intros H. apply IH in H as [new [-> ->]].
    exists (u :: new). rewrite <- !app_assoc. split; [reflexivity|].
    simpl. now rewrite Hc. }
  intros H. apply G in H as [new [-> ->]]. reflexivity.
Qed.

End LoopMore.

Section ResultLimit.

Variables (location_slug prop_filter : str) (max_pages : option Z) (n : Z).
Hypothesis n_positive : (1 <= n)%Z.

Abbreviation loop_lim :=
  (pages_loop lxml http_get location_slug prop_filter max_pages (Some n)).

Lemma limit_armed_n : truthy_int (Some n) = true.
Proof. simpl. apply negb_true_iff, Z.eqb_neq. lia. Qed.

Lemma limit_requests (fuel : nat) :
  forall page all req,
    (10 * Z.of_nat (List.length (requested_of (loop_lim fuel page all req))
                    - List.length req)
     <= Z.max 0 (n - Z.of_nat (List.length all) + 9))%Z.
Proof.
  induction fuel as [|fuel IH]; intros page all req;
    [simpl; rewrite Nat.sub_diag; lia|].
  cbn [pages_loop]. rewrite limit_armed_n. cbn [andb].
  change (default 0%Z (Some n)) with n.
  destruct (_ && _); [simpl; rewrite Nat.sub_diag; lia|].
  unfold len_ge. destruct (n <=? Z.of_nat (List.length all))%Z eqn:Hlen;
    [simpl; rewrite Nat.sub_diag; lia|].
  apply Z.leb_gt in Hlen.
  assert (H1 : forall u : str,
            (10 * Z.of_nat (List.length (req ++ [u]) - List.length req)
             <= Z.max 0 (n - Z.of_nat (List.length all) + 9))%Z).
  { intros u. rewrite length_app. simpl.
    replace (List.length req + 1 - List.length req)%nat with 1%nat by lia. lia. }
  destruct (negb _); [apply H1|].
  destruct (_get_property_urls_from_page _ _) as [|d ds] eqn:Hc; [apply H1|].
  destruct (get_pagination_info _ _) as [[[s e] t]|]; [|apply H1].
  destruct (_ || _) eqn:Hlast; [apply H1|].
  apply orb_false_iff in Hlast as [_ Hten]. apply Nat.ltb_ge in Hten.
  set (u := _build_list_url location_slug page prop_filter).
  pose proof (IH (page + 1)%Z (all ++ d :: ds)%list (req ++ [u])%list) as B.
  pose proof (pages_loop_trace location_slug prop_filter max_pages (Some n)
                fuel (page + 1)%Z (all ++ d :: ds)%list (req ++ [u])%list)
    as [new [E _]].
  rewrite E in *. rewrite !length_app in *. simpl List.length in *.
  lia.
Qed.

Lemma limit_ends (fuel : nat) :
  forall page all req,
    (Z.max 0 (n - Z.of_nat (List.length all) + 9) < 10 * Z.of_nat fuel)%Z ->
    exists why all' req', loop_lim fuel page all req = Stopped why all' req'.
Proof.
  induction fuel as [|fuel IH]; intros page all req Hf; [lia|].
  destruct (pages_loop_trace location_slug prop_filter max_pages (Some n)
              (S fuel) page all req) as [new [_ [_ Hr]]].
  revert Hr. cbn [pages_loop]. rewrite limit_armed_n. cbn [andb].
  change (default 0%Z (Some n)) with n.
  destruct (_ && _); [eauto|].
  unfold len_ge. destruct (n <=? Z.of_nat (List.length all))%Z eqn:Hlen; [eauto|].
  apply Z.leb_gt in Hlen.
  destruct (negb _); [eauto|].
  destruct (_get_property_urls_from_page _ _) as [|d ds] eqn:Hc; [eauto|].
  destruct (get_pagination_info _ _) as [[[s e] t]|]; [|contradiction].
  destruct (_ || _) eqn:Hlast; [eauto|].
  apply orb_false_iff in Hlast as [_ Hten]. apply Nat.ltb_ge in Hten.
  intros _. apply IH. rewrite length_app. simpl List.length in *. lia.
Qed.

(** X10: with a result limit n >= 1 the loop requests at most one page per
    ten results asked for (10 * pages <= n + 9), and it stops, whatever the
    page limit and whatever the pages report. *)
Theorem limit_bounds_requests :
  (forall fuel,
     (10 * Z.of_nat (List.length (requested_of (loop_lim fuel 1%Z [] [])))
      <= n + 9)%Z) /\
  (forall fuel, (n + 9 < 10 * Z.of_nat fuel)%Z ->
     exists why all req, loop_lim fuel 1%Z [] [] = Stopped why all req).
Proof.
  split.
  - intros fuel. pose proof (limit_requests fuel 1%Z [] []) as H.
    simpl List.length in H. rewrite Nat.sub_0_r in H. lia.
  - intros fuel Hf. apply limit_ends. simpl List.length. lia.
Qed.

End ResultLimit.

(** ** What [scrape] returns *)

Lemma slice_to_length {A} (k : Z) (xs : list A) :
  (0 <= k)%Z -> (Z.of_nat (List.length (slice_to k xs)) <= k)%Z.
Proof.
  intros Hk. unfold slice_to. apply Z.leb_le in Hk as Hb. rewrite Hb.
  rewrite length_firstn. lia.
Qed.


(** X12: with a result limit n >= 1, and a pool of at least one worker when
    details are fetched, [scrape] returns at most n records. *)
Theorem scrape_respects_limit (max_workers : Z) (location property_type : str)
    (max_pages : option Z) (n : Z) (fetch_details : bool)
    (result : outcome (list Property)) :
  (1 <= n)%Z ->
  (1 <= max_workers)%Z \/ fetch_details = false ->
  scrape_here max_workers location property_type max_pages (Some n)
              fetch_details result ->
  exists props, result = Ret props /\ (Z.of_nat (List.length props) <= n)%Z.
Proof.
  intros Hn Hpool H.
  apply scrape_cases in H
    as (fuel & why & all & req & _ &
        [(_ & Hw & Hd & _) | (props & E & _ & L & _)]).
  - destruct Hpool as [Hm | Hf]; [exfalso; lia | congruence].
  - exists props. split; [exact E|].
    unfold cut_to in L.
    assert (Ht : truthy_int (Some n) = true)
      by (simpl; apply negb_true_iff, Z.eqb_neq; lia).
    rewrite Ht in L. change (default 0%Z (Some n)) with n in L.
    pose proof (slice_to_length n all ltac:(lia)). lia.
Qed.

(** X13: when the first listing page cannot be fetched, [scrape] returns the
    empty list, and nothing else, whatever the size of the pool. *)
Theorem scrape_without_first_page (max_workers : Z)
    (location property_type : str)
    (max_pages limit : option Z) (fetch_details : bool) :
  http_get (first_page_url str_lower location property_type) = None ->
  scrape_here max_workers location property_type max_pages limit
              fetch_details (Ret []) /\
  forall result,
    scrape_here max_workers location property_type max_pages limit
                fetch_details result ->
    result = Ret [].
Proof.
  intros Hget. unfold first_page_url in Hget.
  assert (G : forall fuel,
            match pages_loop lxml http_get (slug_of str_lower location)
                    (filter_of property_type)
                    max_pages limit fuel 1%Z [] [] with
            | Stopped _ all _ => all = [] /\ fuel <> 0%nat
            | Raised _ _ => False
            | StillRunning _ => fuel = 0%nat
            end).
  { intros [|fuel]; [reflexivity|]. cbn [pages_loop].
    destruct (_ && _); [split; [reflexivity | discriminate]|].
    destruct (_ && _); [split; [reflexivity | discriminate]|].
    unfold _fetch_page. rewrite Hget. cbn [got negb].
    split; [reflexivity | discriminate]. }
  assert (K : cut_to limit [] = []).
  { unfold cut_to. destruct (truthy_int limit); [|reflexivity].
    unfold slice_to. destruct (0 <=? _)%Z; now rewrite firstn_nil. }
  split.
  - exists 1%nat. cbv zeta. specialize (G 1%nat).
    match goal with
    | |- match ?l with _ => _ end => destruct l as [why all req|e req|req]
    end; [|contradiction|discriminate].
    destruct G as [-> _]. rewrite K. simpl.
    now rewrite andb_false_r.
  - intros result [fuel H]. cbv zeta in H. specialize (G fuel).
    match type of H with
    | match ?l with _ => _ end => destruct l as [why all req|e req|req]
    end; [|contradiction|contradiction].
    destruct G as [-> _]. rewrite K in H. simpl in H.
    now rewrite andb_false_r in H.
Qed.

(** ** Further properties of the detail enricher *)

Lemma item_keeps_unassigned (g : field) (t : str) :
  In g (description :: untouched_fields) ->
  keeps g (chain (item_steps uni_alnum t)).
Proof.
  intros H. simpl in H.
  repeat (destruct H as [<-|H]; [unfold item_steps; frame_all|]).
  contradiction.
Qed.

Lemma after_items_keep (g : field) (soup : node) :
  field_beq g description = false ->
  field_beq g agent_name = false -> field_beq g agent_url = false ->
  field_beq g city = false -> field_beq g postal_code = false ->
  keeps g (chain [description_step soup; agent_step soup;
                  breadcrumb_step str_title soup; postal_step soup]).
Proof.
  intros Hd Han Hau Hc Hp. apply keeps_chain. repeat constructor.
  - unfold description_step. frame.
  - unfold agent_step. frame.
  - unfold breadcrumb_step. destruct (find_breadcrumb _); [|apply keeps_skip].
    apply keeps_chain_map. intros link. unfold breadcrumb_link_step.
    cbv zeta. frame.
  - unfold postal_step. frame.
Qed.

Lemma title_keeps (g : field) (soup : node) :
  field_beq g title = false -> keeps g (title_step soup).
Proof. intros H. unfold title_step. frame. Qed.

Lemma detail_untouched (html : str) (prop : Property) (g : field) :
  In g untouched_fields -> detail html prop g = prop g.
Proof.
  intros Hg. unfold parse_detail_page.
  match goal with
  | |- match ?s prop with _ => _ end g = _ =>
    assert (K : keeps g s); [|destruct (K prop) as [p' [-> E]]; exact E]
  end.
  assert (Hi : forall t, keeps g (chain (item_steps uni_alnum t)))
    by (intros t; apply item_keeps_unassigned; now right).
  simpl in Hg.
  repeat (destruct Hg as [<-|Hg];
          [apply keeps_andthen;
           [now apply title_keeps
           |apply keeps_andthen;
            [apply keeps_chain_map; intros item; apply Hi
            |now apply after_items_keep]]|]).
  contradiction.
Qed.

(** X14: enrichment never touches the identity of a record: the URL, the
    listing identifier, the street address, the province, the value
    comparison and the scrape date come out of [parse_detail_page] as they
    went in, whatever the page holds. *)
Theorem detail_keeps_identity (html : str) (prop : Property) (g : field) :
  In g untouched_fields -> detail html prop g = prop g.
Proof. apply detail_untouched. Qed.

(** X15: a description, once the enricher has set it, is at most 2000
    characters long; otherwise the description is the one the record had. *)
Theorem description_is_bounded (html : str) (prop : Property) :
  detail html prop description = prop description \/
  exists text,
    detail html prop description = VStr text /\
    (List.length text <= 2000)%nat.
Proof.
  unfold parse_detail_page.
  assert (Hi : forall t, keeps description (chain (item_steps uni_alnum t)))
    by (intros t; apply item_keeps_unassigned; now left).
  assert (Ht : keeps description (title_step (lxml html)))
    by now apply title_keeps.
  assert (Hitems : keeps description
                     (chain (List.map (item_step uni_alnum)
                                      (find_all "li" (lxml html)))))
    by (apply keeps_chain_map; intros item; apply Hi).
  assert (Hrest : keeps description
                    (chain [agent_step (lxml html);
                            breadcrumb_step str_title (lxml html);
                            postal_step (lxml html)])).
  { apply keeps_chain. repeat constructor.
    - unfold agent_step. frame.
    - unfold breadcrumb_step. destruct (find_breadcrumb _); [|apply keeps_skip].
      apply keeps_chain_map. intros link. unfold breadcrumb_link_step.
      cbv zeta. frame.
    - unfold postal_step. frame. }
  unfold description_step.
  destruct (List.find is_description (find_all "div" (lxml html))) as [div|].
  - right. eexists. split.
    + match goal with
      | |- match ?s prop with _ => _ end description = ?v =>
        assert (P : puts description v s);
          [|destruct (P prop) as [p' [-> E]]; exact E]
      end.
      apply puts_tail with description; [exact Ht|].
      apply puts_tail with description; [exact Hitems|].
      apply puts_here; [apply puts_assign | exact Hrest].
    + rewrite length_firstn. lia.
  - left.
    match goal with
    | |- match ?s prop with _ => _ end description = _ =>
      assert (K : keeps description s);
        [|destruct (K prop) as [p' [-> E]]; exact E]
    end.
    apply keeps_andthen; [exact Ht|].
    apply keeps_andthen; [exact Hitems|].
    apply keeps_andthen; [apply keeps_skip | exact Hrest].
Qed.

(** *** Records stay well formed *)

Lemma field_beq_eq (g f : field) : field_beq g f = true -> g = f.
Proof. apply internal_field_dec_bl. Qed.

Lemma well_formed_setattr (f : field) (v : pyval) (prop : Property) :
  valid f v = true -> well_formed prop -> well_formed (setattr f v prop).
Proof.
  intros Hv Hp g. unfold setattr.
  destruct (field_beq g f) eqn:E; [|apply Hp].
  apply field_beq_eq in E. now subst.
Qed.

Lemma sound_skip : sound skip.
Proof. intros prop H. exists prop. now split. Qed.

Lemma sound_assign (f : field) (v : pyval) :
  valid f v = true -> sound (assign f v).
Proof.
  intros Hv prop H. eexists. split; [reflexivity|].
  now apply well_formed_setattr.
Qed.

Lemma sound_andthen (s1 s2 : step) : sound s1 -> sound s2 -> sound (andthen s1 s2).
Proof.
  intros H1 H2 prop H. unfold andthen.
  destruct (H1 prop H) as [p1 [-> W1]]. apply H2, W1.
Qed.

Lemma sound_when (b : bool) (s : step) : sound s -> sound (when b s).
Proof. destruct b; [trivial | intros _; apply sound_skip]. Qed.

Lemma sound_calling {A} (m : outcome A) (k : A -> step) :
  (exists a, m = Ret a) -> (forall a, m = Ret a -> sound (k a)) ->
  sound (calling m k).
Proof. intros [a E] H prop. unfold calling. rewrite E. now apply H. Qed.

Lemma sound_chain (ss : list step) : Forall sound ss -> sound (chain ss).
Proof. induction 1; simpl; [apply sound_skip | now apply sound_andthen]. Qed.

Lemma sound_chain_map {A} (f : A -> step) (l : list A) :
  (forall x, sound (f x)) -> sound (chain (List.map f l)).
Proof.
  intros H. apply sound_chain. induction l; simpl; constructor; auto.
Qed.

Lemma valid_count (f : field) (v : option Z) :
  is_count f = true -> at_least 0 v -> valid f (of_int v) = true.
Proof.
  destruct f; try discriminate; intros _; destruct v as [z|]; simpl;
    try reflexivity; intros H; now apply Z.leb_le.
Qed.

Lemma valid_year (f : field) (t : str) (v : option Z) :
  is_year f = true -> parse_year uni_alnum t = Ret v ->
  valid f (of_int v) = true.
Proof.
  intros Hf E. destruct v as [y|]; [|destruct f; try discriminate; reflexivity].
  apply parse_year_in_range in E.
  destruct f; try discriminate; simpl;
    apply andb_true_iff; split; apply Z.leb_le; lia.
Qed.

Lemma sound_try_int (f : field) (s : str) :
  is_count f = true -> sound (try_int f s).
Proof.
  intros Hf prop H. unfold try_int.
  destruct (py_int s) as [v|e] eqn:E.
  - apply sound_assign; [|exact H].
    apply (valid_count f (Some v) Hf). simpl. eapply py_int_nonneg; eauto.
  - apply py_int_raises in E. subst. now apply sound_skip.
Qed.

Lemma sound_searched_int (f : field) (r : regex) (t : str) :
  is_count f = true -> sound (searched_int f r t).
Proof.
  intros H. unfold searched_int.
  destruct (re_search r t); [now apply sound_try_int | apply sound_skip].
Qed.

Lemma parse_price_fst_nonneg (t : str) (r : option Z * str) :
  parse_price t = Ret r -> at_least 0 (fst r).
Proof. destruct r as [v q]. apply parse_price_nonneg. Qed.

Ltac counted :=
  first [ eapply valid_year; [reflexivity | eassumption]
        | apply valid_count;
          [reflexivity
          | first [ eapply parse_price_fst_nonneg; eassumption
                  | eapply parse_area_nonneg; eassumption
                  | eapply parse_rooms_nonneg; eassumption
                  | eapply parse_bedrooms_nonneg; eassumption ] ] ].

Ltac wf :=
  lazymatch goal with
  | |- sound skip => apply sound_skip
  | |- sound (assign _ (VStr _)) => apply sound_assign; reflexivity
  | |- sound (assign _ (of_int _)) => apply sound_assign; counted
  | |- sound (andthen _ _) => apply sound_andthen; wf
  | |- sound (when _ _) => apply sound_when; wf
  | |- sound (calling _ _) =>
    apply sound_calling; [solve [eauto with totals] | intros ? ?; wf]
  | |- sound (try_int _ _) => apply sound_try_int; reflexivity
  | |- sound (searched_int _ _ _) => apply sound_searched_int; reflexivity
  | |- sound (match ?x with _ => _ end) => destruct x; wf
  end.

Lemma item_sound (t : str) : sound (chain (item_steps uni_alnum t)).
Proof. unfold item_steps. apply sound_chain. repeat constructor; wf. Qed.

Lemma detail_sound (html : str) (prop : Property) :
  well_formed prop -> well_formed (detail html prop).
Proof.
  intros H. unfold parse_detail_page.
  match goal with
  | |- well_formed (match ?s prop with _ => _ end) =>
    assert (S : sound s); [|destruct (S prop H) as [p' [-> W]]; exact W]
  end.
  apply sound_chain. repeat constructor.
  - unfold title_step. wf.
  - apply sound_chain_map. intros item. apply item_sound.
  - unfold description_step. wf.
  - unfold agent_step. wf.
  - unfold breadcrumb_step. destruct (find_breadcrumb _); [|apply sound_skip].
    apply sound_chain_map. intros link. unfold breadcrumb_link_step.
    cbv zeta. wf.
  - unfold postal_step. wf.
Qed.

(** X16: the enricher keeps a record well formed. If every text field holds
    text, every count is absent or non-negative and every year is absent or
    between 1900 and 2099, the same holds after [parse_detail_page]. *)
Theorem detail_keeps_well_formed (html : str) (prop : Property) :
  well_formed prop -> well_formed (detail html prop).
Proof. apply detail_sound. Qed.

Lemma summary_record (now : str) (d : ListingSummary) :
  exists prop,
    Property_init now (summary_kwargs d) = Ret prop /\
    forall f, prop f = summary_field now d f.
Proof.
  eexists. split; [vm_compute; reflexivity|].
  intros f. destruct f; vm_compute; reflexivity.
Qed.

Lemma summary_record_well_formed (now : str) (d : ListingSummary)
    (prop : Property) :
  summary_ok d -> (forall f, prop f = summary_field now d f) ->
  well_formed prop.
Proof.
  intros (Hp & Hl & Hs & Hr) E f. rewrite E.
  assert (H1 : forall v, at_least 1 v -> at_least 0 v)
    by (intros [z|]; simpl; [lia | trivial]).
  destruct f; try reflexivity; apply valid_count; auto.
Qed.

(** X17: without details a record holds the ten values of its summary and
    the declared default everywhere else; the location text of the card is
    not used, so postal code and city stay empty. *)
Theorem basic_record_fields (d : ListingSummary) :
  exists prop,
    basic_property clock d = Ret prop /\
    (forall f, prop f = summary_field (clock (d_url d)) d f) /\
    prop postal_code = VStr [] /\ prop city = VStr [].
Proof.
  destruct (summary_record (clock (d_url d)) d) as [prop [E F]].
  exists prop. split; [exact E|]. split; [exact F|].
  rewrite !F. split; reflexivity.
Qed.

Lemma location_step_sound (location : str) : sound (location_step location).
Proof. unfold location_step. cbv zeta. wf. Qed.

Lemma worker_record (d : ListingSummary) (prop : Property) :
  snd (worker d) = Ret (Some prop) ->
  exists html prop0,
    http_get (d_url d) = Some html /\
    (forall f, prop0 f = summary_field (clock (d_url d)) d f) /\
    prop = detail html (settled (location_step (d_location d) prop0)).
Proof.
  unfold _fetch_property_details.
  destruct (negb (truthy_str (d_url d))); [discriminate|].
  unfold _fetch_page. destruct (http_get (d_url d)) as [html|]; [|discriminate].
  cbn [got]. destruct (negb (truthy_str html)); [discriminate|].
  cbn [snd]. destruct (summary_record (clock (d_url d)) d) as [prop0 [-> F]].
  cbn [bind]. intros [= <-]. exists html, prop0. repeat split; auto.
Qed.

(** X18: the records made from a card are well formed, with details or
    without: text fields hold text, counts are absent or non-negative, years
    are absent or between 1900 and 2099. *)
Theorem card_records_well_formed (article : node) (d : ListingSummary) :
  parse_card article = Ret (Some d) ->
  (forall prop, snd (worker d) = Ret (Some prop) -> well_formed prop) /\
  (exists prop, basic_property clock d = Ret prop /\ well_formed prop).
Proof.
  intros Hc. apply card_summary_checked in Hc as [Hok _]. split.
  - intros prop H. apply worker_record in H as (html & prop0 & _ & F & ->).
    apply detail_sound.
    pose proof (summary_record_well_formed _ _ _ Hok F) as W0.
    destruct (location_step_sound (d_location d) prop0 W0) as [p1 [-> W1]].
    exact W1.
  - destruct (summary_record (clock (d_url d)) d) as [prop [E F]].
    exists prop. split; [exact E|].
    eapply summary_record_well_formed; eauto.
Qed.

(** X19: an enriched record keeps the identity of its summary: its URL,
    listing identifier, street address and value comparison are those of the
    summary, and its scrape date is the time the record was built. *)
Theorem enriched_record_identity (d : ListingSummary) (prop : Property) :
  snd (worker d) = Ret (Some prop) ->
  prop url = VStr (d_url d) /\
  prop listing_id = VStr (d_listing_id d) /\
  prop street_address = VStr (d_street_address d) /\
  prop value_comparison = VStr (d_value_comparison d) /\
  prop date_scraped = VStr (clock (d_url d)) /\
  d_url d <> [].
Proof.
  intros H.
  assert (Hu : d_url d <> []).
  { unfold _fetch_property_details in H.
    destruct (d_url d); [discriminate | discriminate]. }
  apply worker_record in H as (html & prop0 & _ & F & ->).
  assert (K : forall g, In g untouched_fields ->
                        detail html (settled (location_step (d_location d) prop0)) g
                        = summary_field (clock (d_url d)) d g).
  { intros g Hg. rewrite detail_untouched by exact Hg. rewrite <- F.
    assert (Kl : keeps g (location_step (d_location d))).
    { unfold location_step. cbv zeta. simpl in Hg.
      repeat (destruct Hg as [<-|Hg]; [frame|]). contradiction. }
    destruct (Kl prop0) as [p1 [-> E]]. exact E. }
  repeat split; try (rewrite K; [reflexivity | simpl; auto 10]). exact Hu.
Qed.

(** ** Counts read from a listing page *)

Lemma count_in_nonneg (r : regex) (t : str) :
  exists v, count_in r t = Ret v /\ at_least 0 v.
Proof.
  unfold count_in. destruct (re_search r t) as [m|]; [|exists None; now split].
  destruct (py_int _) as [z|e] eqn:E; simpl.
  - exists (Some z). split; [reflexivity|]. simpl. eapply py_int_nonneg; eauto.
  - apply py_int_raises in E. subst. exists None. now split.
Qed.

(** X20: [get_total_count] does not raise and its count is never negative;
    for a page with neither a heading nor a navigation block it is 0. *)
Theorem total_count_nonnegative (html : str) :
  (exists count, get_total_count lxml html = Ret count /\ (0 <= count)%Z) /\
  (find "h1" (lxml html) = None -> find "nav" (lxml html) = None ->
   get_total_count lxml html = Ret 0%Z).
Proof.
  unfold get_total_count. cbv zeta. split.
  - assert (H1 : exists v,
              match find "h1" (lxml html) with
              | Some h1 => count_in heading_count_re (get_text h1)
              | None => Ret None
              end = Ret v /\ at_least 0 v).
    { destruct (find "h1" (lxml html)); [apply count_in_nonneg|].
      exists None. now split. }
    destruct H1 as [v [-> Hv]]. cbn [bind].
    destruct v as [z|]; [eauto|].
    assert (H2 : exists v,
              match find "nav" (lxml html) with
              | Some nav => count_in nav_count_re (get_text nav)
              | None => Ret None
              end = Ret v /\ at_least 0 v).
    { destruct (find "nav" (lxml html)); [apply count_in_nonneg|].
      exists None. now split. }
    destruct H2 as [w [-> Hw]]. cbn [bind].
    destruct w as [z|]; [eauto|]. exists 0%Z. split; [reflexivity | lia].
  - intros -> ->. reflexivity.
Qed.

Lemma nav_window_nonneg (t : str) (s e n : Z) :
  nav_window t = Ret (Some (s, e, n)) -> (0 <= s /\ 0 <= e /\ 0 <= n)%Z.
Proof.
  unfold nav_window. destruct (re_search window_re t) as [m|]; [|discriminate].
  destruct (py_int (group 1 m)) as [a|x] eqn:E1; cbn [bind].
  2: { destruct x; simpl; discriminate. }
  destruct (py_int (group 2 m)) as [b|x] eqn:E2; cbn [bind].
  2: { destruct x; simpl; discriminate. }
  destruct (py_int (replace _ _ _)) as [c|x] eqn:E3; cbn [bind].
  2: { destruct x; simpl; discriminate. }
  simpl. intros [= <- <- <-].
  apply py_int_nonneg in E1, E2, E3. auto.
Qed.

(** X21: the window that [get_pagination_info] reports never holds a
    negative number. *)
Theorem pagination_window_nonnegative (html : str) (s e n : Z) :
  get_pagination_info lxml html = Ret (s, e, n) ->
  (0 <= s /\ 0 <= e /\ 0 <= n)%Z.
Proof.
  unfold get_pagination_info. cbv zeta.
  induction (find_all "nav" (lxml html)) as [|nav navs IH]; simpl.
  - intros [= <- <- <-]. lia.
  - destruct (nav_window_total (get_text nav)) as [[[[a b] c]|] E];
      rewrite E; cbn [bind].
    + intros [= <- <- <-]. eapply nav_window_nonneg; eauto.
    + exact IH.
Qed.

(** ** The mapping of a record *)

(** X22: the mapping of a record has one entry per field, 43 in all: each
    field name leads to the value of its field, and a key that is no field
    name leads to nothing. *)
Theorem to_dict_entries (self : Property) :
  (forall f, to_dict self !! field_name f = Some (self f)) /\
  (forall key, (forall f, key <> field_name f) -> to_dict self !! key = None) /\
  size (to_dict self) = 43%nat.
Proof.
  split; [|split].
  - intros f. destruct f; vm_compute; reflexivity.
  - intros key Hkey. unfold to_dict. apply not_elem_of_list_to_map_1.
    match goal with
    | |- _ ∉ ?l.*1 => change (l.*1) with (List.map field_name fields)
    end.
    intros Hin. apply list_elem_of_In, in_map_iff in Hin as [f [<- _]].
    now apply (Hkey f).
  - vm_compute. reflexivity.
Qed.

(** ** Which item decides a field *)

Lemma page_keeps (g : field) (html : str) (prop : Property) :
  field_beq g title = false -> field_beq g description = false ->
  field_beq g agent_name = false -> field_beq g agent_url = false ->
  field_beq g city = false -> field_beq g postal_code = false ->
  Forall (fun item => keeps g (item_step uni_alnum item))
         (find_all "li" (lxml html)) ->
  detail html prop g = prop g.
Proof.
  intros Ht Hd Han Hau Hc Hp Hitems. unfold parse_detail_page.
  match goal with
  | |- match ?s prop with _ => _ end g = _ =>
    assert (K : keeps g s); [|destruct (K prop) as [p' [-> E]]; exact E]
  end.
  apply keeps_andthen; [now apply title_keeps|].
  apply keeps_andthen; [|now apply after_items_keep].
  apply keeps_chain, List.Forall_map. exact Hitems.
Qed.

(** X23: the living area of an enriched record is decided by the last item
    that carries "Woonoppervlakte": it is whatever [parse_area] reads from
    that item, a number or nothing; with no such item it stays as it was.
    The same holds for the plot size and "Perceeloppervlakte". *)
Theorem area_from_last_item (html : str) (prop : Property) :
  (Forall (fun item => has "Woonoppervlakte" (item_text item) = false)
          (find_all "li" (lxml html)) ->
   detail html prop living_area = prop living_area) /\
  (Forall (fun item => has "Perceeloppervlakte" (item_text item) = false)
          (find_all "li" (lxml html)) ->
   detail html prop plot_size = prop plot_size) /\
  (forall before item after v,
     find_all "li" (lxml html) = (before ++ item :: after)%list ->
     parse_area (item_text item) = Ret v ->
     (has "Woonoppervlakte" (item_text item) = true ->
      Forall (fun later => has "Woonoppervlakte" (item_text later) = false) after ->
      detail html prop living_area = of_int v) /\
     (has "Perceeloppervlakte" (item_text item) = true ->
      Forall (fun later => has "Perceeloppervlakte" (item_text later) = false) after ->
      detail html prop plot_size = of_int v)).
Proof.
  split; [|split].
  - intros F. apply page_keeps; auto.
    eapply List.Forall_impl; [|exact F]. intros x Hx.
    now apply (item_keeps living_area).
  - intros F. apply page_keeps; auto.
    eapply List.Forall_impl; [|exact F]. intros x Hx.
    now apply (item_keeps plot_size).
  - intros before item after v Hli E. split; intros H F.
    + apply (page_puts living_area (of_int v) html prop before after item); auto.
      * now apply item_puts_living_area.
      * eapply List.Forall_impl; [|exact F]. intros x Hx.
        now apply (item_keeps living_area).
    + apply (page_puts plot_size (of_int v) html prop before after item); auto.
      * now apply item_puts_plot_size.
      * eapply List.Forall_impl; [|exact F]. intros x Hx.
        now apply (item_keeps plot_size).
Qed.

Lemma price_kept_or_set_trans (items : list node) (a b c : Property) :
  price_kept_or_set items a b -> price_kept_or_set items b c ->
  price_kept_or_set items a c.
Proof.
  intros H1 [[E2 Q2]|H2]; [|right; exact H2].
  destruct H1 as [[E1 Q1]|(item & z & q & Hin & Hv & He & Hp & Hz & E1 & Q1)].
  - left. split; congruence.
  - right. exists item, z, q.
    repeat (split; [assumption|]). split; congruence.
Qed.

Lemma price_kept (items : list node) (s : step) (prop : Property) :
  keeps price s -> keeps price_type s ->
  exists prop', s prop = Go prop' /\ price_kept_or_set items prop prop'.
Proof.
  intros Kp Kq. destruct (Kp prop) as [p [E Hp]].
  destruct (Kq prop) as [p' [E' Hq]].
  exists p. split; [exact E|]. left. split; [exact Hp|].
  rewrite E in E'. injection E' as <-. exact Hq.
Qed.

Lemma item_price (items : list node) (item : node) (prop : Property) :
  In item items ->
  exists prop',
    item_step uni_alnum item prop = Go prop' /\
    price_kept_or_set items prop prop'.
Proof.
  intros Hin. unfold item_step, item_steps.
  set (t := item_text item).
  match goal with
  | |- exists p, chain (?s0 :: ?rest) prop = Go p /\ _ =>
    assert (Kp : keeps price (chain rest)) by frame_all;
    assert (Kq : keeps price_type (chain rest)) by frame_all;
    assert (H0 : exists p0, s0 prop = Go p0 /\ price_kept_or_set items prop p0)
  end.
  { clear Kp Kq.
    destruct (has "Vraagprijs" t) eqn:Hv;
      [|exists prop; split; [reflexivity | left; split; reflexivity]].
    destruct (has "€" t) eqn:He;
      [|exists prop; split; [reflexivity | left; split; reflexivity]].
    cbn [andb when]. unfold calling.
    destruct (parse_price_total t) as [[v q] E]. rewrite E. cbn [fst snd].
    destruct (truthy_int v) eqn:Ht; cbn [when];
      [|exists prop; split; [reflexivity | left; split; reflexivity]].
    eexists. split; [reflexivity|]. right.
    pose proof (parse_price_nonneg _ _ _ E) as Hn.
    pose proof (truthy_at_least_1 v Hn Ht) as H1.
    destruct v as [z|]; [|discriminate].
    exists item, z, q. fold t.
    split; [exact Hin|]. split; [exact Hv|]. split; [exact He|].
    split; [exact E|]. split; [exact H1|]. split; reflexivity. }
  destruct H0 as [p0 [E0 R0]]. cbn [chain]. unfold andthen at 1. rewrite E0.
  destruct (price_kept items _ p0 Kp Kq) as [p1 [E1 R1]].
  exists p1. split; [exact E1|].
  eapply price_kept_or_set_trans; eassumption.
Qed.

Lemma items_price (items some : list node) (prop : Property) :
  (forall item, In item some -> In item items) ->
  exists prop',
    chain (List.map (item_step uni_alnum) some) prop = Go prop' /\
    price_kept_or_set items prop prop'.
Proof.
  revert prop. induction some as [|item some IH]; intros prop Hsub.
  - exists prop. split; [reflexivity | left; split; reflexivity].
  - cbn [List.map chain]. unfold andthen.
    destruct (item_price items item prop) as [p1 [-> R1]];
      [apply Hsub; now left|].
    destruct (IH p1) as [p2 [E2 R2]];
      [intros x Hx; apply Hsub; now right|].
    exists p2. split; [exact E2|].
    eapply price_kept_or_set_trans; eassumption.
Qed.

(** X24: enrichment never erases a price. After [parse_detail_page] the
    price and its qualifier are those the record had, or those that
    [parse_price] reads from a list item of the page whose text holds
    "Vraagprijs" and a euro sign, with a price of 1 or more. (An item that
    states the price per square metre is such an item.) *)
Theorem detail_never_erases_price (html : str) (prop : Property) :
  (detail html prop price = prop price /\
   detail html prop price_type = prop price_type) \/
  exists item z q,
    In item (find_all "li" (lxml html)) /\
    has "Vraagprijs" (item_text item) = true /\
    has "€" (item_text item) = true /\
    parse_price (item_text item) = Ret (Some z, q) /\
    (1 <= z)%Z /\
    detail html prop price = VInt z /\
    detail html prop price_type = VStr q.
Proof.
  change (price_kept_or_set (find_all "li" (lxml html)) prop (detail html prop)).
  unfold parse_detail_page. cbn [chain]. unfold andthen at 1.
  destruct (price_kept (find_all "li" (lxml html)) _ prop
              (title_keeps price (lxml html) eq_refl)
              (title_keeps price_type (lxml html) eq_refl)) as [p1 [-> R1]].
  unfold andthen at 1.
  destruct (items_price (find_all "li" (lxml html)) (find_all "li" (lxml html))
              p1 (fun _ H => H)) as [p2 [-> R2]].
  pose proof (after_items_keep price (lxml html) eq_refl eq_refl eq_refl
                eq_refl eq_refl) as Kp.
  pose proof (after_items_keep price_type (lxml html) eq_refl eq_refl eq_refl
                eq_refl eq_refl) as Kq.
  cbn [chain] in Kp, Kq.
  destruct (price_kept (find_all "li" (lxml html)) _ p2 Kp Kq) as [p3 [-> R3]].
  eapply price_kept_or_set_trans; [|exact R3].
  eapply price_kept_or_set_trans; eassumption.
Qed.

(** ** Whether [scrape] comes to an end *)

Lemma scrape_result_exists (max_workers : Z) (location property_type : str)
    (max_pages limit : option Z) (fetch_details : bool) (fuel : nat)
    (why : stop_reason) (all : list ListingSummary) (req : list str) :
  pages_loop lxml http_get (slug_of str_lower location)
             (filter_of property_type) max_pages limit fuel 1%Z [] []
    = Stopped why all req ->
  exists result,
    scrape_here max_workers location property_type max_pages limit
                fetch_details result /\
    ((1 <= max_workers)%Z \/ fetch_details = false ->
     exists props, result = Ret props).
Proof.
  intros E.
  pose proof (scrape_run max_workers location property_type max_pages limit
                fetch_details fuel why all (cut_to limit all) req E
                (Permutation_refl _)) as R.
  eexists. split; [exact R|]. intros Hpool.
  destruct (basic_properties_total (cut_to limit all)) as [props [Eb _]].
  destruct fetch_details; cbn [andb].
  - destruct Hpool as [Hm | Hf]; [|discriminate].
    destruct (negb _); [|eauto].
    replace (max_workers <=? 0)%Z with false
      by (symmetry; apply Z.leb_gt; lia).
    eauto.
  - eauto.
Qed.

(** X25: [scrape] comes to an end when a page limit or a result limit of at
    least 1 is given, whatever the site answers; it then returns a list when
    the pool has at least one worker or details are not fetched. *)
Theorem scrape_ends_with_a_limit (max_workers : Z)
    (location property_type : str)
    (max_pages limit : option Z) (fetch_details : bool) (n : Z) :
  (1 <= n)%Z -> max_pages = Some n \/ limit = Some n ->
  exists result,
    scrape_here max_workers location property_type max_pages limit
                fetch_details result /\
    ((1 <= max_workers)%Z \/ fetch_details = false ->
     exists props, result = Ret props).
Proof.
  intros Hn [-> | ->].
  - destruct (pages_loop_ends (slug_of str_lower location)
                (filter_of property_type)
                limit n Hn (S (Z.to_nat n)) 1%Z [] [])
      as (why & all & req & E); [lia|].
    eapply scrape_result_exists; eauto.
  - destruct (limit_ends (slug_of str_lower location)
                (filter_of property_type)
                max_pages n Hn (S (Z.to_nat n)) 1%Z [] [])
      as (why & all & req & E); [simpl List.length; lia|].
    eapply scrape_result_exists; eauto.
Qed.

(** X26: without a page limit and a result limit the loop has no bound of its
    own: as long as every page comes back full and with a window that
    promises more, it goes on, one request per iteration. *)
Theorem loop_unbounded_without_limits (location_slug prop_filter : str) :
  (forall page, full_page lxml http_get
                  (_build_list_url location_slug page prop_filter)) ->
  forall fuel,
    pages_loop lxml http_get location_slug prop_filter None None fuel 1%Z [] []
    = StillRunning (page_urls location_slug prop_filter 1 fuel).
Proof.
  intros Hfull.
  assert (G : forall fuel page all req,
            pages_loop lxml http_get location_slug prop_filter None None
                       fuel page all req
            = StillRunning
                (req ++ page_urls location_slug prop_filter page fuel)%list).
  { induction fuel as [|fuel IH]; intros page all req.
    - simpl. now rewrite app_nil_r.
    - cbn [pages_loop truthy_int andb].
      destruct (Hfull page) as (html & s & e & t & Hget & Hhtml & Hten & Hw & Hlt).
      unfold _fetch_page, _get_property_urls_from_page.
      rewrite Hget. cbn [got]. rewrite Hhtml. cbn [negb].
      change (default [] (Some html)) with html.
      destruct (parse_property_cards lxml html) as [|d ds] eqn:Hc;
        [simpl in Hten; lia|].
      rewrite Hw.
      replace ((t <=? e)%Z) with false by (symmetry; apply Z.leb_gt; lia).
      replace ((List.length (d :: ds) <? 10)%nat) with false
        by (symmetry; apply Nat.ltb_ge; exact Hten).
      cbn [orb]. rewrite IH, <- app_assoc, <- page_urls_next. reflexivity. }
  intros fuel. apply (G fuel 1%Z [] []).
Qed.

End Facts.

(** ** The theorems at concrete inputs *)

Lemma parse_price_spec_witness :
  contains (lit "€") (lit "Prijs op aanvraag") = false /\
  parse_price (lit "Prijs op aanvraag") = Ret (None, lit "").
Proof.
  split; [reflexivity|].
  exact (proj2 (proj2 parse_price_spec) (lit "Prijs op aanvraag") eq_refl).
Defined.

Lemma extractors_total_witness :
  re_search area_re (lit "geen oppervlakte") = None /\
  parse_area (lit "geen oppervlakte") = Ret None.
Proof.
  split; [reflexivity|].
  destruct (extractors_total ascii_alnum) as (_ & _ & _ & _ & _ & _ & H).
  destruct (H (lit "geen oppervlakte")) as (_ & Harea & _).
  apply Harea. reflexivity.
Defined.

Lemma extract_listing_id_spec_witness :
  (List.length (List.filter truthy_str (split (chr "/") (lit "/amsterdam/1012ab/")))
   < 4)%nat /\
  extract_listing_id (lit "/amsterdam/1012ab/") = lit "amsterdam-1012ab".
Proof.
  split; [vm_compute; lia|].
  destruct extract_listing_id_spec as (_ & _ & H).
  destruct (H (lit "/amsterdam/1012ab/")) as (_ & _ & Hshort).
  apply Hshort. vm_compute. lia.
Defined.

Lemma parse_property_cards_spec_witness :
  List.length (parse_property_cards (fun _ => two_card_document) (lit "<html>"))
  = 1%nat.
Proof.
  destruct (parse_property_cards_spec (fun _ => two_card_document)) as (H & _).
  apply H. reflexivity.
Defined.

Lemma pagination_stops_at_window_end_witness :
  let r := pages_loop (fun _ => last_page_document) always_page
                      (lit "amsterdam") (lit "") None None 3 1%Z [] [] in
  get_pagination_info (fun _ => last_page_document) (lit "<html>")
    = Ret (51, 58, 58)%Z /\
  1%nat = List.length (requested_of r) /\
  exists why all, r = Stopped why all (requested_of r).
Proof.
  split; [vm_compute; reflexivity|].
  apply (pagination_stops_at_window_end
           (fun _ => last_page_document) always_page
           (lit "amsterdam") (lit "") None None 3 0
           (lit "https://huispedia.nl/koopwoningen/amsterdam") (lit "<html>")
           51 58 58)%Z.
  - vm_compute. reflexivity.
  - reflexivity.
  - vm_compute. reflexivity.
  - lia.
Defined.

Lemma unreadable_window_is_last_page_witness :
  List.length (parse_property_cards (fun _ => no_window_document) (lit "<html>"))
    = 10%nat /\
  get_pagination_info (fun _ => no_window_document) (lit "<html>")
    = Ret (0, 0, 0)%Z /\
  let r := pages_loop (fun _ => no_window_document) always_page
                      (lit "amsterdam") (lit "") None None 3 1%Z [] [] in
  1%nat = List.length (requested_of r) /\
  exists why all, r = Stopped why all (requested_of r).
Proof.
  split; [vm_compute; reflexivity|].
  assert (H : forall nav,
            In nav (find_all "nav" no_window_document) ->
            nav_window (get_text nav) = Ret None).
  { intros nav Hin. vm_compute in Hin. destruct Hin as [<-|[]].
    vm_compute. reflexivity. }
  destruct (unreadable_window_is_last_page
              (fun _ => no_window_document) always_page
              (lit "amsterdam") (lit "") None None (lit "<html>") H)
    as [Hw Hlast].
  split; [exact Hw|].
  apply (Hlast 3%nat 0%nat (lit "https://huispedia.nl/koopwoningen/amsterdam")).
  - vm_compute. reflexivity.
  - reflexivity.
Defined.

Lemma max_pages_bounds_requests_witness :
  exists why all req,
    pages_loop (fun _ => first_page_document) always_page
               (lit "amsterdam") (lit "") (Some 1%Z) None 5 1%Z [] []
      = Stopped why all req /\
    (Z.of_nat (List.length req) <= 1)%Z.
Proof.
  assert (H1 : (1 <= 1)%Z) by lia.
  destruct (max_pages_bounds_requests
              (fun _ => first_page_document) always_page
              (lit "amsterdam") (lit "") None 1%Z H1) as [_ H].
  apply (H 5%nat). vm_compute. lia.
Defined.

(** C4, as stated, fails for n = 0: a page limit of zero counts as no limit,
    and pages are requested for as long as the windows promise more. *)
Lemma max_pages_zero_counterexample :
  ~ (Z.of_nat
       (List.length
          (requested_of
             (pages_loop (fun _ => first_page_document) always_page
                         (lit "amsterdam") (lit "") (Some 0%Z) None 3 1%Z [] [])))
     <= 0)%Z.
Proof. vm_compute. intros H. apply H. reflexivity. Qed.

Lemma detail_failures_dropped_witness :
  List.map (detail_fetched second_detail_down)
           (parse_property_cards (fun _ => two_listing_document) (lit "<html>"))
  = [true; false] /\
  exists result,
    scrape ascii_alnum (fun _ => two_listing_document) (fun s => s)
           second_detail_down fixed_clock lower 5%Z
           (lit "Amsterdam") (lit "all") None None true result /\
    (exists props, result = Ret props /\ List.length props = 1%nat) /\
    exists fuel why all requested,
      pages_loop (fun _ => two_listing_document) second_detail_down
                 (slug_of lower (lit "Amsterdam")) (filter_of (lit "all"))
                 None None fuel 1%Z [] []
        = Stopped why all requested /\
      ((result = Raise ValueError /\ (5 <= 0)%Z /\ cut_to None all <> [])
       \/
       (exists props,
          result = Ret props /\
          Permutation props
            (collect_details ascii_alnum (fun _ => two_listing_document)
               (fun s => s) second_detail_down fixed_clock
               (List.filter (detail_fetched second_detail_down)
                            (cut_to None all))) /\
          ((1 <= 5)%Z \/ cut_to None all = []))).
Proof.
  split; [vm_compute; reflexivity|].
  eassert (R : scrape ascii_alnum (fun _ => two_listing_document) (fun s => s)
                      second_detail_down fixed_clock lower 5%Z
                      (lit "Amsterdam") (lit "all") None None true _).
  { eapply (scrape_run ascii_alnum (fun _ => two_listing_document) (fun s => s)
              second_detail_down fixed_clock lower 5%Z
              (lit "Amsterdam") (lit "all") None None true 1%nat);
      [vm_compute; reflexivity | vm_compute; apply perm_swap]. }
  eexists. split; [exact R|]. split.
  - eexists. split; vm_compute; reflexivity.
  - destruct (detail_failures_dropped ascii_alnum
                (fun _ => two_listing_document) (fun s => s)
                second_detail_down fixed_clock lower) as (_ & _ & _ & H).
    exact (H _ _ _ _ _ _ R).
Defined.

Lemma unparsed_item_clears_field_witness :
  sized_record living_area = VInt 112 /\
  parse_detail_page ascii_alnum (fun _ => living_area_document) (fun s => s)
                    (lit "<html>") sized_record living_area = VNone.
Proof.
  split; [reflexivity|].
  destruct (unparsed_item_clears_field ascii_alnum
              (fun _ => living_area_document) (fun s => s)
              (lit "<html>") sized_record [] [] living_area_item)
    as (H & _); [vm_compute; reflexivity|].
  apply H; [vm_compute; reflexivity | vm_compute; reflexivity | constructor].
Defined.

(** C10, as stated, fails for the asking price: an item "Vraagprijs" with a
    euro sign and no number leaves the price of the summary stage in place. *)
Lemma asking_price_kept_counterexample :
  has "Vraagprijs" (item_text asking_price_item) = true /\
  parse_price (item_text asking_price_item) = Ret (None, lit "") /\
  priced_record price = VInt 310000 /\
  parse_detail_page ascii_alnum (fun _ => asking_price_document) (fun s => s)
                    (lit "<html>") priced_record price <> VNone.
Proof.
  split; [vm_compute; reflexivity|]. split; [vm_compute; reflexivity|].
  split; [reflexivity|]. vm_compute. discriminate.
Qed.

(** ** The further properties at concrete inputs *)

Lemma extracted_numbers_nonnegative_witness :
  parse_area (lit "112 m²") = Ret (Some 112%Z) /\ (0 <= 112)%Z.
Proof.
  split; [reflexivity|].
  destruct (extracted_numbers_nonnegative (lit "112 m²") 112%Z) as (_ & H & _).
  apply H. reflexivity.
Defined.

Lemma parse_year_range_witness :
  parse_year ascii_alnum (lit "Bouwjaar: 1950") = Ret (Some 1950%Z) /\
  (1900 <= 1950 <= 2099)%Z.
Proof.
  split; [reflexivity|].
  apply (parse_year_range ascii_alnum (lit "Bouwjaar: 1950")). reflexivity.
Defined.

Lemma listing_id_of_absolute_url_witness :
  extract_listing_id (BASE_URL ++ lit "/amsterdam/1012ab/damstraat/1")
  = extract_listing_id (lit "/amsterdam/1012ab/damstraat/1").
Proof. apply listing_id_of_absolute_url. reflexivity. Defined.

Lemma card_summary_url_witness :
  exists href,
    d_url sample_summary = (BASE_URL ++ chr "/" :: href)%list /\
    d_listing_id sample_summary = extract_listing_id (chr "/" :: href).
Proof.
  apply (card_summary_url genuine_card sample_summary).
  vm_compute. reflexivity.
Defined.

Lemma card_summary_values_witness :
  summary_ok sample_summary /\
  (d_price_type sample_summary = lit "" \/
   d_price_type sample_summary = lit "k.k." \/
   d_price_type sample_summary = lit "v.o.n.") /\
  (d_value_comparison sample_summary = lit "" \/
   In (d_value_comparison sample_summary) (List.map lit value_phrases)).
Proof.
  apply (card_summary_values genuine_card sample_summary).
  vm_compute. reflexivity.
Defined.

Lemma collected_cards_of_requested_pages_witness :
  exists why all requested,
    pages_loop (fun _ => last_page_document) always_page
               (lit "amsterdam") (lit "") None None 3 1%Z [] []
      = Stopped why all requested /\
    List.length all = 10%nat /\
    all = concat (List.map (cards_of (fun _ => last_page_document) always_page)
                           requested).
Proof.
  eexists _, _, _. split; [vm_compute; reflexivity|].
  split; [reflexivity|].
  eapply (collected_cards_of_requested_pages
            (fun _ => last_page_document) always_page
            (lit "amsterdam") (lit "") None None 3).
  vm_compute. reflexivity.
Defined.

Lemma limit_bounds_requests_witness :
  exists why all req,
    pages_loop (fun _ => first_page_document) always_page
               (lit "amsterdam") (lit "") None (Some 25%Z) 4 1%Z [] []
      = Stopped why all req.
Proof.
  assert (H25 : (1 <= 25)%Z) by lia.
  destruct (limit_bounds_requests
              (fun _ => first_page_document) always_page
              (lit "amsterdam") (lit "") None 25%Z H25) as [_ H].
  apply (H 4%nat). lia.
Defined.


Lemma scrape_respects_limit_witness :
  List.length
    (parse_property_cards (fun _ => first_page_document) (lit "<html>"))
  = 10%nat /\
  exists result,
    scrape ascii_alnum (fun _ => first_page_document) (fun s => s)
           always_page fixed_clock lower 2%Z
           (lit "amsterdam") (lit "all") None (Some 3%Z) true result /\
    (exists props, result = Ret props /\ List.length props = 3%nat) /\
    exists props,
      result = Ret props /\ (Z.of_nat (List.length props) <= 3)%Z.
Proof.
  split; [vm_compute; reflexivity|].
  eassert (R : scrape ascii_alnum (fun _ => first_page_document) (fun s => s)
                      always_page fixed_clock lower 2%Z
                      (lit "amsterdam") (lit "all") None (Some 3%Z) true _).
  { eapply (scrape_run ascii_alnum (fun _ => first_page_document) (fun s => s)
              always_page fixed_clock lower 2%Z
              (lit "amsterdam") (lit "all") None (Some 3%Z) true 2%nat);
      [vm_compute; reflexivity | vm_compute; apply Permutation_refl]. }
  eexists. split; [exact R|].
  split; [eexists; split; vm_compute; reflexivity|].
  apply (scrape_respects_limit ascii_alnum (fun _ => first_page_document)
           (fun s => s) always_page fixed_clock lower 2%Z
           (lit "amsterdam") (lit "all") None 3%Z true _);
    [lia | left; lia | exact R].
Defined.

Lemma scrape_without_first_page_witness :
  scrape ascii_alnum (fun _ => living_area_document) (fun s => s) never_page
         fixed_clock lower 5%Z (lit "Den Haag") (lit "house") None None true
         (Ret []).
Proof.
  apply (scrape_without_first_page ascii_alnum (fun _ => living_area_document)
           (fun s => s) never_page fixed_clock lower).
  reflexivity.
Defined.

Lemma detail_keeps_identity_witness :
  parse_detail_page ascii_alnum (fun _ => measured_document) (fun s => s)
                    (lit "<html>") blank_record url
  = blank_record url.
Proof.
  apply (detail_keeps_identity ascii_alnum (fun _ => measured_document)).
  simpl. tauto.
Defined.

Lemma detail_keeps_well_formed_witness :
  well_formed (parse_detail_page ascii_alnum (fun _ => measured_document)
                                 (fun s => s) (lit "<html>") blank_record).
Proof.
  apply detail_keeps_well_formed.
  intros f. destruct f; reflexivity.
Defined.

Lemma card_records_well_formed_witness :
  exists prop, basic_property fixed_clock sample_summary = Ret prop /\
               well_formed prop.
Proof.
  apply (card_records_well_formed ascii_alnum (fun _ => measured_document)
           (fun s => s) always_page fixed_clock genuine_card sample_summary).
  vm_compute. reflexivity.
Defined.

Lemma enriched_record_identity_witness :
  exists prop,
    snd (_fetch_property_details ascii_alnum (fun _ => measured_document)
           (fun s => s) always_page fixed_clock sample_summary)
      = Ret (Some prop) /\
    prop url = VStr (d_url sample_summary).
Proof.
  eexists. split; [vm_compute; reflexivity|].
  refine (proj1 (enriched_record_identity ascii_alnum
                   (fun _ => measured_document) (fun s => s) always_page
                   fixed_clock sample_summary _ _)).
  vm_compute. reflexivity.
Defined.

Lemma total_count_nonnegative_witness :
  get_total_count (fun _ => measured_document) (lit "<html>") = Ret 0%Z.
Proof.
  destruct (total_count_nonnegative (fun _ => measured_document) (lit "<html>"))
    as [_ H].
  apply H; reflexivity.
Defined.

Lemma pagination_window_nonnegative_witness :
  (0 <= 51 /\ 0 <= 58 /\ 0 <= 58)%Z.
Proof.
  apply (pagination_window_nonnegative (fun _ => last_page_document)
                                       (lit "<html>")).
  vm_compute. reflexivity.
Defined.

Lemma to_dict_entries_witness :
  to_dict blank_record !! "postcode"%string = None.
Proof.
  destruct (to_dict_entries blank_record) as (_ & H & _).
  apply H. intros f. destruct f; discriminate.
Defined.

Lemma area_from_last_item_witness :
  parse_detail_page ascii_alnum (fun _ => measured_document) (fun s => s)
                    (lit "<html>") blank_record living_area
  = VInt 95.
Proof.
  destruct (area_from_last_item ascii_alnum (fun _ => measured_document)
              (fun s => s) (lit "<html>") blank_record) as (_ & _ & H).
  destruct (H [] measured_item [] (Some 95%Z)) as [Hl _];
    [vm_compute; reflexivity | vm_compute; reflexivity |].
  apply Hl; [vm_compute; reflexivity | constructor].
Defined.

Lemma scrape_ends_with_a_limit_witness :
  exists result,
    scrape ascii_alnum (fun _ => first_page_document) (fun s => s) always_page
           fixed_clock lower 5%Z (lit "amsterdam") (lit "all") (Some 1%Z) None
           true result /\
    ((1 <= 5)%Z \/ true = false -> exists props, result = Ret props).
Proof.
  apply (scrape_ends_with_a_limit ascii_alnum (fun _ => first_page_document)
           (fun s => s) always_page fixed_clock lower 5%Z
           (lit "amsterdam") (lit "all") (Some 1%Z) None true 1%Z).
  - lia.
  - left. reflexivity.
Defined.

Lemma loop_unbounded_without_limits_witness :
  pages_loop (fun _ => first_page_document) always_page
             (lit "amsterdam") (lit "") None None 3 1%Z [] []
  = StillRunning (page_urls (lit "amsterdam") (lit "") 1 3).
Proof.
  apply loop_unbounded_without_limits.
  intros page. exists (lit "<html>"), 1%Z, 10%Z, 58%Z.
  split; [reflexivity|]. split; [reflexivity|].
  split; [vm_compute; lia|]. split; [vm_compute; reflexivity | lia].
Defined.

(** An item that states the price per square metre holds "Vraagprijs" and a
    euro sign: its number becomes the price as well, and the qualifier of
    the record is replaced by the one of the item. *)
Example per_sqm_item_sets_price :
  asked_record price = VInt 310000 /\
  asked_record price_type = VStr (lit "k.k.") /\
  let prop := parse_detail_page ascii_alnum (fun _ => per_sqm_document)
                                (fun s => s) (lit "<html>") asked_record in
  prop price = VInt 4474 /\ prop price_type = VStr (lit "") /\
  prop price_per_sqm = VInt 4474.
Proof. vm_compute. repeat split. Qed.

(** With a pool of size 0, details on and a card on the first page, [scrape]
    ends with the [ValueError] of the thread pool. *)
Example scrape_raises_without_workers :
  scrape ascii_alnum (fun _ => two_listing_document) (fun s => s) always_page
         fixed_clock lower 0%Z (lit "amsterdam") (lit "all") None None true
         (Raise ValueError).
Proof.
  exact (scrape_run ascii_alnum (fun _ => two_listing_document) (fun s => s)
           always_page fixed_clock lower 0%Z (lit "amsterdam") (lit "all")
           None None true 1%nat LastPage
           (parse_property_cards (fun _ => two_listing_document) (lit "<html>"))
           (parse_property_cards (fun _ => two_listing_document) (lit "<html>"))
           [_build_list_url (lit "amsterdam") 1 (lit "")]
           ltac:(vm_compute; reflexivity) (Permutation_refl _)).
Qed.
